(** * The trace store and line-correlation engine of the trace viewer

    A shallow embedding of [src/vscode-extension/src/extension.ts]: the
    record normaliser, the run loader, the git helpers, the trace store, the
    line-correlation predicate, the tree items, the view projections, the
    event handlers and the commands, followed by the properties the
    specification states about them and by further properties of the code.

    Conventions of the embedding.
    - A JavaScript string is a [string]; one [ascii] stands for one code unit,
      so [String.length] is the [.length] of the source.
    - A JavaScript [number] is a rational [Q]: line numbers and epoch seconds
      are exact there, IEEE rounding is not modelled.
    - [T | null] is [option T]; [None] is [null] (or [undefined] where the
      source lets a field be missing).
    - Built-ins of the platform the source calls ([JSON.parse],
      [JSON.stringify], [fs], [path], the workspace) are fields of a [Host]
      record, so every theorem holds for all of them; the formatting of
      numbers and times is a [Display], the user and the shell are a [Ui].
    - What a command does outside the store is the list of its [Effect]s. *)

From Stdlib Require Import String Ascii List ZArith QArith Qminmax Lia Lqa.
From Stdlib Require Import Permutation Sorted.
From stdpp Require Import gmap strings pretty.

Local Open Scope string_scope.

(* ===================================================================== *)
(** * Part I: the model                                                   *)
(* ===================================================================== *)

(** ** Strings *)

Module JsString.

(** [s.split(sep)] for a one-character separator: never the empty array. *)
Fixpoint split (sep : ascii) (s : string) : list string :=
  match s with
  | EmptyString => [EmptyString]
  | String c s' =>
      if Ascii.eqb c sep then EmptyString :: split sep s'
      else match split sep s' with
           | [] => [String c EmptyString]
           | p :: ps => String c p :: ps
           end
  end.

(** [s.slice(a, b)] for [0 <= a <= b]. *)
Definition slice (a b : nat) (s : string) : string := substring a (b - a) s.

(** [s.slice(a)] for [0 <= a]. *)
Definition sliceFrom (a : nat) (s : string) : string :=
  substring a (String.length s - a) s.

(** White space and line terminators that [trim] removes, among the code
    units the model has: TAB, LF, VT, FF, CR, SP and NBSP. *)
Definition isSpace (c : ascii) : bool :=
  match nat_of_ascii c with
  | 9 | 10 | 11 | 12 | 13 | 32 | 160 => true
  | _ => false
  end.

Fixpoint trimStart (s : string) : string :=
  match s with
  | EmptyString => EmptyString
  | String c s' => if isSpace c then trimStart s' else s
  end.

(** Drops the trailing white space: a character is kept when something that
    is kept follows it, or when it is not white space itself. *)
Fixpoint trimEnd (s : string) : string :=
  match s with
  | EmptyString => EmptyString
  | String c s' =>
      match trimEnd s' with
      | EmptyString => if isSpace c then EmptyString else String c EmptyString
      | r => String c r
      end
  end.

(** [s.trim()]. *)
Definition trim (s : string) : string := trimEnd (trimStart s).

(** [!s] is false and [s] is truthy exactly for a non-empty string. *)
Definition truthy (s : string) : bool :=
  match s with EmptyString => false | _ => true end.

(** A decimal digit. *)
Definition isDigit (c : ascii) : bool :=
  (48 <=? nat_of_ascii c)%nat && (nat_of_ascii c <=? 57)%nat.

(** [s.endsWith(suffix)]. *)
Definition endsWith (suffix s : string) : bool :=
  (String.length suffix <=? String.length s)%nat
  && String.eqb (sliceFrom (String.length s - String.length suffix) s) suffix.

(** [s.replace(/suffix$/, '')] for a literal suffix: the suffix is cut off
    when the string ends with it. *)
Definition dropSuffix (suffix s : string) : string :=
  if endsWith suffix s
  then slice 0 (String.length s - String.length suffix) s
  else s.

End JsString.

Import JsString.

(** ** Utility functions *)

(** [parseRunLabel]: the label of a run in the tree. *)
Definition parseRunLabel (stem : string) : string :=
  let parts := split "_" stem in
  if (2 <=? List.length parts)%nat then
    let date := nth 0 parts "" in
    let timePart := nth 1 parts "" in
    if (String.length date =? 8)%nat && (String.length timePart =? 6)%nat then
      slice 0 4 date +:+ "-" +:+ slice 4 6 date +:+ "-" +:+ sliceFrom 6 date
        +:+ " " +:+ slice 0 2 timePart +:+ ":" +:+ slice 2 4 timePart
        +:+ ":" +:+ sliceFrom 4 timePart
    else stem
  else stem.

(** When [parseRunLabel] builds a label: the stem splits on the underscore
    into at least two parts, the first of eight and the second of six code
    units. *)
Definition hasLabelShape (stem : string) : Prop :=
  exists date timePart rest,
    split "_" stem = date :: timePart :: rest
    /\ String.length date = 8%nat /\ String.length timePart = 6%nat.

(** A string of [n] decimal digits. *)
Definition digitString (n : nat) (s : string) : bool :=
  (String.length s =? n)%nat && forallb isDigit (list_ascii_of_string s).

(** The stem pattern in the words of the specification: eight digits, an
    underscore, six digits, then anything. *)
Definition specStemPattern (stem : string) : bool :=
  digitString 8 (slice 0 8 stem)
  && String.eqb (slice 8 9 stem) "_"
  && digitString 6 (slice 9 15 stem).

(** ** JSON values *)

#[local] Set Warnings "-register-all".

(** What [JSON.parse] returns. The members of an object are kept in the
    order of the text. *)
Inductive json : Type :=
  | JNull
  | JBool (b : bool)
  | JNum (n : Q)
  | JStr (s : string)
  | JArr (items : list json)
  | JObj (members : list (string * json)).

(** The own property [key] among the members of an object: when the text
    repeats a key, [JSON.parse] keeps the last value. *)
Fixpoint member (key : string) (members : list (string * json)) : option json :=
  match members with
  | [] => None
  | (k, v) :: rest =>
      match member key rest with
      | Some w => Some w
      | None => if String.eqb k key then Some v else None
      end
  end.

(** [raw[key]] for a parsed value that is not [null] and a key that no
    prototype defines: [None] is [undefined]. Only an object has such a
    property. *)
Definition property (raw : json) (key : string) : option json :=
  match raw with
  | JObj members => member key members
  | _ => None
  end.

(** [v ?? null] on a property that was read: [undefined] and [null] are
    both [None]. *)
Definition nullish (v : option json) : option json :=
  match v with
  | Some JNull => None
  | _ => v
  end.

(** Truthiness of a parsed value ([NaN] is no JSON number). *)
Definition jsTruthy (v : json) : bool :=
  match v with
  | JNull => false
  | JBool b => b
  | JNum n => negb (Qeq_bool n 0)
  | JStr s => truthy s
  | JArr _ | JObj _ => true
  end.

(** Truthiness of a property that was read; [undefined] is falsy. *)
Definition truthyProp (v : option json) : bool :=
  match v with
  | Some w => jsTruthy w
  | None => false
  end.

(** ** Completions *)

(** How the evaluation of a source expression ends in the model. [Throws]
    is a thrown [TypeError]. [Foreign] marks the border of the model: the
    casts of [normaliseTrace] are erased at run time, so a value whose type
    is not the one the [TraceRecord] interface declares would be stored as
    it is; the record type below follows the interface and cannot hold it. *)
Inductive completion (A : Type) : Type :=
  | Returns (a : A)
  | Throws
  | Foreign.

Arguments Returns {A} a.
Arguments Throws {A}.
Arguments Foreign {A}.

Definition bind {A B : Type} (c : completion A) (k : A -> completion B) : completion B :=
  match c with
  | Returns a => k a
  | Throws => Throws
  | Foreign => Foreign
  end.

Notation "'let!' x ':=' c 'in' k" := (bind c (fun x => k))
  (at level 10, x name, c at level 100, k at level 200).

(** ** Data types *)

(** The [error] field: the legacy string or the structured object. *)
Inductive TraceError : Type :=
  | ErrorText (text : string)
  | ErrorInfo (type message traceback : string).

Record TraceRecord : Type := {
  call_id : string;
  function : string;
  op_name : option string;
  wandb_url : option string;
  source_file : option string;
  source_line_start : option Q;
  source_line_end : option Q;
  timestamp_start : option Q;
  duration_s : Q;
  inputs : json;
  output : json;
  error : option TraceError;
  git_repo_root : option string;
  git_commit : option string;
  git_dirty : bool;
  git_snapshot_sha : option string;
}.

(** ** The casts of the normaliser *)

(** [(v as string) ?? null]. *)
Definition asString (v : option json) : completion (option string) :=
  match nullish v with
  | None => Returns None
  | Some (JStr s) => Returns (Some s)
  | Some _ => Foreign
  end.

(** [v as string] for the required [call_id]: the interface declares a
    string. *)
Definition asRequiredString (v : option json) : completion string :=
  match v with
  | Some (JStr s) => Returns s
  | _ => Foreign
  end.

(** [(v as number) ?? null]; without the [?? null] the field keeps
    [undefined] or [null], which no modelled operation tells apart. *)
Definition asNumber (v : option json) : completion (option Q) :=
  match nullish v with
  | None => Returns None
  | Some (JNum n) => Returns (Some n)
  | Some _ => Foreign
  end.

(** [(v as boolean) ?? false]. *)
Definition asBoolean (v : option json) : completion bool :=
  match nullish v with
  | None => Returns false
  | Some (JBool b) => Returns b
  | Some _ => Foreign
  end.

(** [(v as TraceRecord['error']) ?? null]: a string, or an object whose
    [type], [message] and [traceback] are strings. *)
Definition asError (v : option json) : completion (option TraceError) :=
  match nullish v with
  | None => Returns None
  | Some (JStr s) => Returns (Some (ErrorText s))
  | Some (JObj members) =>
      match member "type" members, member "message" members, member "traceback" members with
      | Some (JStr ty), Some (JStr msg), Some (JStr tb) => Returns (Some (ErrorInfo ty msg tb))
      | _, _, _ => Foreign
      end
  | Some _ => Foreign
  end.

(** ** Record normaliser *)

(** [arr.pop()] read as a value: the last element, [undefined] on the empty
    array. *)
Definition pop {A : Type} (arr : list A) : option A := List.last (map Some arr) None.

(** [opName.split('/').pop()?.split(':')[0] ?? opName]. *)
Definition deriveFromOpName (opName : string) : string :=
  match pop (split "/" opName) with
  | Some segment =>
      match List.head (split ":" segment) with
      | Some name => name
      | None => opName
      end
  | None => opName
  end.

(** [normaliseTrace]. Reading a property of [null] throws, and so does
    [opName.split] when the truthy [op_name] is no string. *)
Definition normaliseTrace (raw : json) : completion TraceRecord :=
  match raw with
  | JNull => Throws
  | _ =>
      let! fnName :=
        (let fnName := nullish (property raw "function") in
         if negb (truthyProp fnName) && truthyProp (property raw "op_name") then
           match property raw "op_name" with
           | Some (JStr opName) => Returns (Some (JStr (deriveFromOpName opName)))
           | _ => Throws
           end
         else Returns fnName) in
      let! fn :=
        match fnName with
        | None => Returns "(unknown)"
        | Some (JStr s) => Returns s
        | Some _ => Foreign
        end in
      let! callId := asRequiredString (property raw "call_id") in
      let! opName := asString (property raw "op_name") in
      let! wandbUrl := asString (property raw "wandb_url") in
      let! sourceFile := asString (property raw "source_file") in
      let! lineStart := asNumber (property raw "source_line_start") in
      let! lineEnd := asNumber (property raw "source_line_end") in
      let! timestampStart := asNumber (property raw "timestamp_start") in
      let! duration := asNumber (property raw "duration_s") in
      let! err := asError (property raw "error") in
      let! gitRepoRoot := asString (property raw "git_repo_root") in
      let! gitCommit := asString (property raw "git_commit") in
      let! gitDirty := asBoolean (property raw "git_dirty") in
      let! gitSnapshotSha := asString (property raw "git_snapshot_sha") in
      Returns {|
        call_id := callId;
        function := fn;
        op_name := opName;
        wandb_url := wandbUrl;
        source_file := sourceFile;
        source_line_start := lineStart;
        source_line_end := lineEnd;
        timestamp_start := timestampStart;
        duration_s := default 0%Q duration;
        inputs := default (JObj []) (nullish (property raw "inputs"));
        output := default JNull (nullish (property raw "output"));
        error := err;
        git_repo_root := gitRepoRoot;
        git_commit := gitCommit;
        git_dirty := gitDirty;
        git_snapshot_sha := gitSnapshotSha;
      |}
  end.

(** ** The declared interface *)

Definition returns {A : Type} (c : completion A) : bool :=
  match c with
  | Returns _ => true
  | _ => false
  end.

(** A parsed line whose recognised keys hold what the casts of
    [normaliseTrace] declare: on such a line no cast is [Foreign]. *)
Definition conforms (raw : json) : bool :=
  returns (asString (property raw "function"))
  && returns (asRequiredString (property raw "call_id"))
  && returns (asString (property raw "op_name"))
  && returns (asString (property raw "wandb_url"))
  && returns (asString (property raw "source_file"))
  && returns (asNumber (property raw "source_line_start"))
  && returns (asNumber (property raw "source_line_end"))
  && returns (asNumber (property raw "timestamp_start"))
  && returns (asNumber (property raw "duration_s"))
  && returns (asError (property raw "error"))
  && returns (asString (property raw "git_repo_root"))
  && returns (asString (property raw "git_commit"))
  && returns (asBoolean (property raw "git_dirty"))
  && returns (asString (property raw "git_snapshot_sha")).

(** ** The platform *)

(** The four arguments of [new vscode.Range(startLine, startCharacter,
    endLine, endCharacter)]. *)
Record Range : Type := {
  startLine : Q;
  startCharacter : Q;
  endLine : Q;
  endCharacter : Q;
}.

(** The constructors of the editor API. *)
Module Vscode.

(** [a < b]. *)
Definition lt (a b : Q) : bool := negb (Qle_bool b a).

(** [p.isBefore(q)] for the positions [p] of line [l1], character [c1] and
    [q] of line [l2], character [c2]. *)
Definition isBefore (l1 c1 l2 c2 : Q) : bool :=
  if lt l1 l2 then true
  else if lt l2 l1 then false
  else lt c1 c2.

(** [new vscode.Range(startLine, startCharacter, endLine, endCharacter)] on
    its four arguments. The constructor builds the two positions, and the
    constructor of a position throws on a negative line or character:
    [None]. It then keeps the earlier position as the start and the later as
    the end, so the two are exchanged when the end is before the start;
    between equal positions there is nothing to exchange. *)
Definition newRange (args : Range) : option Range :=
  if lt (startLine args) 0 || lt (startCharacter args) 0
     || lt (endLine args) 0 || lt (endCharacter args) 0
  then None
  else if isBefore (endLine args) (endCharacter args) (startLine args) (startCharacter args)
  then Some {| startLine := endLine args; startCharacter := endCharacter args;
               endLine := startLine args; endCharacter := startCharacter args |}
  else Some args.

End Vscode.

(** A text editor as the decoration manager sees it: the [fsPath] of its
    document and the ranges last passed to [setDecorations] for each of the
    two decoration types. *)
Record TextEditor : Type := {
  fsPath : string;
  highlight : list Range;
  gutter : list Range;
}.

(** The built-ins the source calls, as the handlers find them when an event
    arrives. A function that can throw returns [None] then. *)
Record Host : Type := {
  (** [vscode.workspace.workspaceFolders], each folder by its [fsPath];
      [None] is [undefined] *)
  workspaceFolders : option (list string);
  existsSync : string -> bool;
  readFileSync : string -> option string;
  readdirSync : string -> option (list string);
  path_join : string -> string -> string;
  path_basename : string -> string -> string;
  JSON_parse : string -> option json;
  (** [JSON.stringify(v, null, 2)] *)
  JSON_stringify : json -> string;
  (** the [hh:mm:ss] of [new Date(ts * 1000)] in local time *)
  clockTime : option Q -> string;
  (** [openTextDocument] and [showTextDocument] on a path: the editors that
      are visible afterwards, given those visible before *)
  showTextDocument : string -> list TextEditor -> option (list TextEditor);
}.

(** The built-ins that format what the tree views show. *)
Record Display : Type := {
  (** [JSON.stringify(v)] *)
  JSON_stringify_compact : json -> string;
  (** [n.toFixed(3)] *)
  toFixed3 : Q -> string;
  (** [new Date(ts * 1000).toLocaleTimeString()] *)
  toLocaleTimeString : option Q -> string;
}.

(** What a [catch] clause finds in the value [e] that was thrown:
    [e.message] and [String(e)]. *)
Record Thrown : Type := {
  thrown_message : option string;
  thrown_string : string;
}.

(** The user and the shell, as the commands find them. *)
Record Ui : Type := {
  (** the button picked in [showWarningMessage(message, { modal: true },
      button)]; [None] when the dialog is dismissed *)
  modalChoice : string -> string -> option string;
  (** [execSync(command, { cwd, encoding: 'utf8' })]: the output, or what the
      call throws *)
  execSync : string -> string -> Thrown + string;
}.

(** [Array.prototype.sort]: the language requires a stable sort, so for a
    consistent order the result is determined; stable insertion computes
    it. [le a b] says that [a] may stay before [b]. *)
Fixpoint insertBy {A : Type} (le : A -> A -> bool) (x : A) (l : list A) : list A :=
  match l with
  | [] => [x]
  | y :: l' => if le x y then x :: y :: l' else y :: insertBy le x l'
  end.

Definition arraySort {A : Type} (le : A -> A -> bool) (l : list A) : list A :=
  fold_right (insertBy le) [] l.

(** [x || 0] on a number that may be missing. *)
Definition orZero (x : option Q) : Q :=
  match x with
  | Some n => if Qeq_bool n 0 then 0%Q else n
  | None => 0%Q
  end.

(** The comparator [(a, b) => (a.timestamp_start || 0) - (b.timestamp_start || 0)]. *)
Definition byTimestamp (a b : TraceRecord) : Q :=
  (orZero (timestamp_start a) - orZero (timestamp_start b))%Q.

(** [arr.sort(cmp)]: [a] stays before [b] when [cmp(a, b) <= 0]. *)
Definition sortWith {A : Type} (cmp : A -> A -> Q) (l : list A) : list A :=
  arraySort (fun a b => Qle_bool (cmp a b) 0) l.

(** ** Run loader *)

(** The loop of [loadTracesFromFile] over the lines that are left, with the
    array built so far. A line whose [JSON.parse] or [normaliseTrace] throws
    is skipped by the [catch]. The result is [None] when a line leaves the
    model ([Foreign]). *)
Fixpoint pushLines (h : Host) (lines : list string) (traces : list TraceRecord)
  : option (list TraceRecord) :=
  match lines with
  | [] => Some traces
  | line :: rest =>
      let trimmed := trim line in
      if negb (truthy trimmed) then pushLines h rest traces
      else
        match JSON_parse h trimmed with
        | None => pushLines h rest traces
        | Some raw =>
            match normaliseTrace raw with
            | Returns t => pushLines h rest (traces ++ [t])
            | Throws => pushLines h rest traces
            | Foreign => None
            end
        end
  end.

(** The record one line of the file contributes, if any: the line is not
    blank, it parses, and [normaliseTrace] returns. *)
Definition lineRecord (h : Host) (line : string) : option TraceRecord :=
  if negb (truthy (trim line)) then None
  else
    match JSON_parse h (trim line) with
    | Some raw =>
        match normaliseTrace raw with
        | Returns t => Some t
        | _ => None
        end
    | None => None
    end.

(** The lines stay in the model: no line that is parsed normalises to
    [Foreign]. *)
Definition linesInModel (h : Host) (lines : list string) : bool :=
  forallb (fun line =>
             negb (truthy (trim line))
             || match JSON_parse h (trim line) with
                | Some raw =>
                    match normaliseTrace raw with
                    | Foreign => false
                    | _ => true
                    end
                | None => true
                end) lines.

(** The line feed on which the file is split. *)
Definition LF : ascii := "010"%char.

(** [loadTracesFromFile]. *)
Definition loadTracesFromFile (h : Host) (filePath : string) : option (list TraceRecord) :=
  if negb (existsSync h filePath) then Some []
  else
    match readFileSync h filePath with
    | None => Some []
    | Some content =>
        match pushLines h (split LF content) [] with
        | Some traces => Some (sortWith byTimestamp traces)
        | None => None
        end
    end.

(** The lines of a file that exists and can be read. *)
Definition fileLines (h : Host) (filePath : string) : list string :=
  if existsSync h filePath then
    match readFileSync h filePath with
    | Some content => split LF content
    | None => []
    end
  else [].

(** The records of the lines of a file, in the order of the file. *)
Definition fileRecords (h : Host) (filePath : string) : list TraceRecord :=
  omap (lineRecord h) (fileLines h filePath).

(** [getRunsDir]. *)
Definition getRunsDir (h : Host) : option string :=
  match workspaceFolders h with
  | None | Some [] => None
  | Some ((first :: _) as folders) =>
      match List.find (fun folder => existsSync h (path_join h folder "runs")) folders with
      | Some folder => Some (path_join h folder "runs")
      | None => Some (path_join h first "runs")
      end
  end.

(** The run's file under the runs directory. *)
Definition runFile (h : Host) (runsDir run : string) : string :=
  path_join h runsDir (run +:+ ".jsonl").

(** The file of a run stays in the model (see [linesInModel]). *)
Definition runInModel (h : Host) (run : string) : bool :=
  match getRunsDir h with
  | Some runsDir => linesInModel h (fileLines h (runFile h runsDir run))
  | None => true
  end.

(** [traceUrl]. *)
Definition traceUrl (trace : TraceRecord) : option string := wandb_url trace.

(** ** Git helpers *)

Module Git.

Record RunGitState : Type := {
  git_repo_root : option string;
  git_commit : option string;
  git_dirty : bool;
  git_snapshot_sha : option string;
}.

End Git.

(** The object [getRunGitState] builds from a parsed line. Reading a
    property of [null] throws; the casts are those of the normaliser. *)
Definition gitStateOf (raw : json) : completion Git.RunGitState :=
  match raw with
  | JNull => Throws
  | _ =>
      let! gitRepoRoot := asString (property raw "git_repo_root") in
      let! gitCommit := asString (property raw "git_commit") in
      let! gitDirty := asBoolean (property raw "git_dirty") in
      let! gitSnapshotSha := asString (property raw "git_snapshot_sha") in
      Returns {|
        Git.git_repo_root := gitRepoRoot;
        Git.git_commit := gitCommit;
        Git.git_dirty := gitDirty;
        Git.git_snapshot_sha := gitSnapshotSha;
      |}
  end.

(** The loop of [getRunGitState] over the lines that are left: the first
    line that is not blank, parses and is not [null] decides, whatever
    follows it. The outer [None] is a line that leaves the model. *)
Fixpoint firstGitState (h : Host) (lines : list string) : option (option Git.RunGitState) :=
  match lines with
  | [] => Some None
  | line :: rest =>
      let trimmed := trim line in
      if negb (truthy trimmed) then firstGitState h rest
      else
        match JSON_parse h trimmed with
        | None => firstGitState h rest
        | Some raw =>
            match gitStateOf raw with
            | Returns gs => Some (Some gs)
            | Throws => firstGitState h rest
            | Foreign => None
            end
        end
  end.

(** [getRunGitState]. *)
Definition getRunGitState (h : Host) (run : string) : option (option Git.RunGitState) :=
  match getRunsDir h with
  | None => Some None
  | Some runsDir =>
      if negb (truthy runsDir) then Some None
      else
        let filePath := path_join h runsDir (run +:+ ".jsonl") in
        if negb (existsSync h filePath) then Some None
        else
          match readFileSync h filePath with
          | None => Some None
          | Some content => firstGitState h (split LF content)
          end
  end.

(** ** Trace store *)

Record TraceStore : Type := {
  activeRunId : option string;
  runTraces : gmap string (list TraceRecord);
  selectedCallId : option string;
  focusedFn : option string;
  suppressCursorFilter : bool;
  highlightActive : bool;
}.

(** The store [activate] creates. *)
Definition initialStore : TraceStore := {|
  activeRunId := None;
  runTraces := ∅;
  selectedCallId := None;
  focusedFn := None;
  suppressCursorFilter := false;
  highlightActive := true;
|}.

(** Assignments to the fields of the store. *)
Definition setActiveRunId (v : option string) (st : TraceStore) : TraceStore :=
  {| activeRunId := v; runTraces := runTraces st; selectedCallId := selectedCallId st;
     focusedFn := focusedFn st; suppressCursorFilter := suppressCursorFilter st;
     highlightActive := highlightActive st |}.

Definition setRunTraces (v : gmap string (list TraceRecord)) (st : TraceStore) : TraceStore :=
  {| activeRunId := activeRunId st; runTraces := v; selectedCallId := selectedCallId st;
     focusedFn := focusedFn st; suppressCursorFilter := suppressCursorFilter st;
     highlightActive := highlightActive st |}.

Definition setSelectedCallId (v : option string) (st : TraceStore) : TraceStore :=
  {| activeRunId := activeRunId st; runTraces := runTraces st; selectedCallId := v;
     focusedFn := focusedFn st; suppressCursorFilter := suppressCursorFilter st;
     highlightActive := highlightActive st |}.

Definition setFocusedFn (v : option string) (st : TraceStore) : TraceStore :=
  {| activeRunId := activeRunId st; runTraces := runTraces st;
     selectedCallId := selectedCallId st; focusedFn := v;
     suppressCursorFilter := suppressCursorFilter st;
     highlightActive := highlightActive st |}.

Definition setSuppressCursorFilter (v : bool) (st : TraceStore) : TraceStore :=
  {| activeRunId := activeRunId st; runTraces := runTraces st;
     selectedCallId := selectedCallId st; focusedFn := focusedFn st;
     suppressCursorFilter := v; highlightActive := highlightActive st |}.

Definition setHighlightActive (v : bool) (st : TraceStore) : TraceStore :=
  {| activeRunId := activeRunId st; runTraces := runTraces st;
     selectedCallId := selectedCallId st; focusedFn := focusedFn st;
     suppressCursorFilter := suppressCursorFilter st; highlightActive := v |}.

(** Truthiness of a [string | null]. *)
Definition truthyOpt (s : option string) : bool :=
  match s with
  | Some x => truthy x
  | None => false
  end.

(** [a === b] for a string and a [string | null]. *)
Definition strictEq (a : option string) (b : string) : bool :=
  match a with
  | Some x => String.eqb x b
  | None => false
  end.

(** [a === b] for two [string | null]. *)
Definition strictEqOpt (a b : option string) : bool :=
  match a, b with
  | Some x, Some y => String.eqb x y
  | None, None => true
  | _, _ => false
  end.

(** [runTraces.get(runId) ?? []]. *)
Definition tracesOf (store : TraceStore) (runId : string) : list TraceRecord :=
  default [] (runTraces store !! runId).

(** ** Line correlation *)

(** [v !== null]. *)
Definition notNull {A : Type} (v : option A) : bool :=
  match v with
  | Some _ => true
  | None => false
  end.

(** A [number | null] used as a number: [null] counts as [0]. *)
Definition toNumber (v : option Q) : Q := default 0%Q v.

(** The test both the hover provider and the cursor handler apply to a
    record [t]:
    [t.source_file === filePath && t.source_line_start !== null &&
     t.source_line_end !== null &&
     cursorLine >= Math.max(0, t.source_line_start - 2) &&
     cursorLine <= t.source_line_end - 1]. *)
Definition matchesLine (filePath : string) (cursorLine : Q) (t : TraceRecord) : bool :=
  strictEq (source_file t) filePath
  && notNull (source_line_start t)
  && notNull (source_line_end t)
  && Qle_bool (Qmax 0 (toNumber (source_line_start t) - 2)) cursorLine
  && Qle_bool cursorLine (toNumber (source_line_end t) - 1).

(** ** Tree items *)

(** A [TraceCallItem] by the arguments of its constructor. *)
Record TraceCallItem : Type := {
  trace : TraceRecord;
  runId : string;
  selected : bool;
}.

(** Truthiness of the [error] field. *)
Definition errorTruthy (e : option TraceError) : bool :=
  match e with
  | None => false
  | Some (ErrorText text) => truthy text
  | Some (ErrorInfo _ _ _) => true
  end.

Inductive Icon : Type := ArrowRightYellow | CircleRed | CircleGreen.

(** The icon the constructor of [TraceCallItem] picks. *)
Definition iconPath (item : TraceCallItem) : Icon :=
  if selected item then ArrowRightYellow
  else if errorTruthy (error (trace item)) then CircleRed
  else CircleGreen.

(** The marks a description ends with, as the source file has them (see
    [TraceHoverProvider.dash] for their code units). *)
Definition snapshotMark : string := "  üì∏".
Definition urlMark : string := "  üç©".

(** What else the constructor of [TraceCallItem] sets. *)
Module CallItem.

Definition label (item : TraceCallItem) : string := function (trace item).

Definition description (d : Display) (item : TraceCallItem) : string :=
  toFixed3 d (duration_s (trace item)) +:+ "s"
  +:+ (if truthyOpt (wandb_url (trace item)) then urlMark else "").

Definition contextValue (item : TraceCallItem) : string :=
  if truthyOpt (wandb_url (trace item)) then "traceCallWithUrl" else "traceCall".

End CallItem.

(** A [TraceRunItem] by the fields its constructor sets. *)
Module RunItem.

Record TraceRunItem : Type := {
  runId : string;
  label : string;
  gitState : option Git.RunGitState;
  description : option string;
  contextValue : string;
}.

End RunItem.

(** [gs?.field] for a field that is a [string | null]. *)
Definition optionalField (gs : option Git.RunGitState)
  (field : Git.RunGitState -> option string) : option string :=
  match gs with
  | Some state => field state
  | None => None
  end.

(** [new TraceRunItem(runId)]; [None] when the run's file leaves the model
    (see [firstGitState]). *)
Definition newTraceRunItem (h : Host) (run : string) : option RunItem.TraceRunItem :=
  match getRunGitState h run with
  | None => None
  | Some gs =>
      Some {|
        RunItem.runId := run;
        RunItem.label := parseRunLabel run;
        RunItem.gitState := gs;
        RunItem.description :=
          match gs with
          | Some state =>
              if truthyOpt (Git.git_commit state) then
                Some (default "" (Git.git_commit state)
                      +:+ (if Git.git_dirty state then "*" else "")
                      +:+ (if truthyOpt (Git.git_snapshot_sha state) then snapshotMark else ""))
              else None
          | None => None
          end;
        RunItem.contextValue :=
          if truthyOpt (optionalField gs Git.git_snapshot_sha)
          then "traceRunWithSnapshot" else "traceRun";
      |}
  end.

(** ** View projections *)

Module TraceTreeProvider.

(** [files]: the [.jsonl] names of the runs directory, sorted, reversed. *)
Definition runFiles (names : list string) : list string :=
  rev (arraySort String.leb (List.filter (endsWith ".jsonl") names)).

(** [refresh], on the store. *)
Definition refresh (h : Host) (store : TraceStore) : TraceStore :=
  match getRunsDir h with
  | Some runsDir =>
      if truthy runsDir then
        match readdirSync h runsDir with
        | Some names =>
            match runFiles names, activeRunId store with
            | first :: _, None => setActiveRunId (Some (dropSuffix ".jsonl" first)) store
            | _, _ => store
            end
        | None => store
        end
      else store
  | None => store
  end.

(** The run [refresh] makes active when none is: the first of [files]
    without its extension, if the runs directory can be listed and holds
    such a file. *)
Definition latestRun (h : Host) : option string :=
  match getRunsDir h with
  | Some runsDir =>
      if truthy runsDir then
        match readdirSync h runsDir with
        | Some names => dropSuffix ".jsonl" <$> List.head (runFiles names)
        | None => None
        end
      else None
  | None => None
  end.

(** [setFunctionFilter]. *)
Definition setFunctionFilter (fnName : option string) (store : TraceStore) : TraceStore :=
  setFocusedFn fnName store.

(** [invalidateRun]. *)
Definition invalidateRun (run : string) (store : TraceStore) : TraceStore :=
  setRunTraces (delete run (runTraces store)) store.

(** An element of the tree: a run or a call of a run. *)
Inductive Element : Type :=
  | RunElement (item : RunItem.TraceRunItem)
  | CallElement (item : TraceCallItem).

(** The call items of a run, as [getChildren] builds them: none is marked
    as selected. *)
Definition callItems (store : TraceStore) (run : string) : list Element :=
  map (fun t => CallElement {| trace := t; runId := run; selected := false |})
    (tracesOf store run).

(** [getChildren]: the store, whose cache the call may fill, and the
    children. [None] when a file that is read leaves the model. *)
Definition getChildren (h : Host) (store : TraceStore) (element : option Element)
  : option (TraceStore * list Element) :=
  match element with
  | None =>
      match getRunsDir h with
      | Some runsDir =>
          if negb (truthy runsDir) then Some (store, [])
          else
            match readdirSync h runsDir with
            | Some names =>
                match mapM (fun f => newTraceRunItem h (dropSuffix ".jsonl" f)) (runFiles names) with
                | Some items => Some (store, map RunElement items)
                | None => None
                end
            | None => Some (store, [])
            end
      | None => Some (store, [])
      end
  | Some (RunElement item) =>
      let run := RunItem.runId item in
      if bool_decide (is_Some (runTraces store !! run)) then Some (store, callItems store run)
      else
        match getRunsDir h with
        | Some runsDir =>
            if negb (truthy runsDir) then Some (store, [])
            else
              match loadTracesFromFile h (path_join h runsDir (run +:+ ".jsonl")) with
              | Some traces =>
                  let store' := setRunTraces (<[run := traces]> (runTraces store)) store in
                  Some (store', callItems store' run)
              | None => None
              end
        | None => Some (store, [])
        end
  | Some (CallElement _) => Some (store, [])
  end.

(** [getParent]; the inner [None] is [null]. *)
Definition getParent (h : Host) (element : Element) : option (option RunItem.TraceRunItem) :=
  match element with
  | RunElement _ => Some None
  | CallElement item =>
      match newTraceRunItem h (runId item) with
      | Some parent => Some (Some parent)
      | None => None
      end
  end.

End TraceTreeProvider.

(** ** Own properties *)

(** The order in which [Object.entries] lists the own properties of a
    value. *)
Module JsObject.

(** The number a string of decimal digits stands for. *)
Definition digitsValue (s : string) : N :=
  fold_left (fun acc c => (acc * 10 + N.of_nat (nat_of_ascii c - 48))%N)
    (list_ascii_of_string s) 0%N.

(** A key that is an array index: the canonical decimal form of an integer
    below [2^32 - 1]. *)
Definition arrayIndex (key : string) : option N :=
  match key with
  | EmptyString => None
  | String c rest =>
      if forallb isDigit (list_ascii_of_string key)
         && (negb (Ascii.eqb c "0") || String.eqb rest "")
         && (digitsValue key <? 4294967295)%N
      then Some (digitsValue key)
      else None
  end.

(** Defining the property [key]: a key that exists keeps its place and
    takes the new value. *)
Fixpoint defineProperty {A : Type} (key : string) (v : A) (props : list (string * A))
  : list (string * A) :=
  match props with
  | [] => [(key, v)]
  | (k, w) :: rest =>
      if String.eqb k key then (k, v) :: rest else (k, w) :: defineProperty key v rest
  end.

(** The properties of the object built from the members of the text, in the
    order of their creation. *)
Definition ownProperties {A : Type} (members : list (string * A)) : list (string * A) :=
  fold_left (fun props member => defineProperty (fst member) (snd member) props) members [].

Definition isIndexKey {A : Type} (p : string * A) : bool :=
  match arrayIndex (fst p) with
  | Some _ => true
  | None => false
  end.

Definition indexOf {A : Type} (p : string * A) : N := default 0%N (arrayIndex (fst p)).

(** The order of the own keys: the array indices in ascending order, then
    the other keys in the order of their creation. *)
Definition ownKeysOrder {A : Type} (props : list (string * A)) : list (string * A) :=
  (arraySort (fun a b => (indexOf a <=? indexOf b)%N) (List.filter isIndexKey props)
   ++ List.filter (fun p => negb (isIndexKey p)) props)%list.

(** A function of the key and the value, applied to the value of a
    property. *)
Definition onValue {A B : Type} (g : string -> A -> B) (p : string * A) : string * B :=
  (fst p, g (fst p) (snd p)).

(** The elements of an array, or the code units of a string, under their
    indices, from the index [i] on. *)
Fixpoint indexed {A : Type} (i : nat) (l : list A) : list (string * A) :=
  match l with
  | [] => []
  | x :: rest => (pretty i, x) :: indexed (S i) rest
  end.

(** [Object.entries(v)]; [None] is the [TypeError] on [null]. A number and a
    boolean have no own property; a string has its code units. *)
Definition entries (v : json) : option (list (string * json)) :=
  match v with
  | JNull => None
  | JBool _ | JNum _ => Some []
  | JStr s =>
      Some (indexed 0 (map (fun c => JStr (String c EmptyString)) (list_ascii_of_string s)))
  | JArr items => Some (indexed 0 items)
  | JObj members => Some (ownKeysOrder (ownProperties members))
  end.

End JsObject.

(** ** TraceDetailProvider *)

(** [vscode.TreeItemCollapsibleState]. *)
Inductive CollapsibleState : Type := CollapsibleNone | Collapsed | Expanded.

(** A [DetailItem] by the arguments of its constructor; a description that
    is [undefined] is [None]. *)
Inductive DetailItem : Type :=
  | newDetailItem (label : string) (description : option string)
      (collapsible : CollapsibleState) (children : list DetailItem).

Definition itemLabel (item : DetailItem) : string :=
  match item with newDetailItem label _ _ _ => label end.

Definition itemDescription (item : DetailItem) : option string :=
  match item with newDetailItem _ description _ _ => description end.

Definition itemCollapsible (item : DetailItem) : CollapsibleState :=
  match item with newDetailItem _ _ collapsible _ => collapsible end.

Definition itemChildren (item : DetailItem) : list DetailItem :=
  match item with newDetailItem _ _ _ children => children end.

Module TraceDetailProvider.

(** [typeof v === 'object' && v !== null]. *)
Definition isObject (v : json) : bool :=
  match v with
  | JArr _ | JObj _ => true
  | _ => false
  end.

(** The item of a value that is an object, given the nodes of its
    properties:
    [new DetailItem(k, nested.length > 0 ? undefined : JSON.stringify(v),
                    nested.length > 0 ? state : None, nested)]. *)
Definition objectItem (d : Display) (state : CollapsibleState) (k : string) (v : json)
  (nested : list DetailItem) : DetailItem :=
  newDetailItem k
    (if (0 <? List.length nested)%nat then None else Some (JSON_stringify_compact d v))
    (if (0 <? List.length nested)%nat then state else CollapsibleNone)
    nested.

(** The item of a value that is no object: [new DetailItem(k,
    JSON.stringify(v))]. *)
Definition valueItem (d : Display) (k : string) (v : json) : DetailItem :=
  newDetailItem k (Some (JSON_stringify_compact d v)) CollapsibleNone [].

(** The callback of [_buildObjectNodes] on the entry [[k, v]]. The nodes of
    the properties of [v] are built member by member and put in the order of
    the own keys afterwards; [entryNode_unfold] shows that this is the map
    over [Object.entries(v)] of the source. *)
Fixpoint entryNode (d : Display) (k : string) (v : json) {struct v} : DetailItem :=
  match v with
  | JArr items =>
      objectItem d Collapsed k v
        ((fix each (i : nat) (l : list json) {struct l} : list DetailItem :=
            match l with
            | [] => []
            | x :: rest => entryNode d (pretty i) x :: each (S i) rest
            end) 0%nat items)
  | JObj members =>
      objectItem d Collapsed k v
        (map snd
           (JsObject.ownKeysOrder
              (JsObject.ownProperties
                 ((fix each (l : list (string * json)) {struct l}
                     : list (string * DetailItem) :=
                     match l with
                     | [] => []
                     | (k', x) :: rest => (k', entryNode d k' x) :: each rest
                     end) members))))
  | _ => valueItem d k v
  end.

(** [_buildObjectNodes(obj)]. *)
Definition buildObjectNodes (d : Display) (obj : json) : option (list DetailItem) :=
  map (fun entry => entryNode d (fst entry) (snd entry)) <$> JsObject.entries obj.

(** The children of the [error] item: [trace.error.type] and
    [trace.error.message], which a string does not have. *)
Definition errorChildren (e : option TraceError) : list DetailItem :=
  match e with
  | Some (ErrorInfo type message _) =>
      [newDetailItem "type" (Some type) CollapsibleNone [];
       newDetailItem "message" (Some message) CollapsibleNone []]
  | _ =>
      [newDetailItem "type" None CollapsibleNone [];
       newDetailItem "message" None CollapsibleNone []]
  end.

(** [showTrace]: the new [_items]. [None] is the [TypeError] of
    [Object.entries] on inputs that are [null], which leaves [_items] as
    they were. *)
Definition showTrace (d : Display) (shown : option TraceRecord) : option (list DetailItem) :=
  match shown with
  | None => Some []
  | Some t =>
      match JsObject.entries (inputs t) with
      | None => None
      | Some inputEntries =>
          Some
            ([newDetailItem "duration" (Some (toFixed3 d (duration_s t) +:+ "s"))
                CollapsibleNone [];
              newDetailItem "called at" (Some (toLocaleTimeString d (timestamp_start t)))
                CollapsibleNone [];
              if (List.length inputEntries =? 0)%nat
              then newDetailItem "inputs" (Some "(none)") CollapsibleNone []
              else newDetailItem "inputs" None Expanded
                     (map (fun entry => entryNode d (fst entry) (snd entry)) inputEntries);
              if errorTruthy (error t)
              then newDetailItem "error" None Expanded (errorChildren (error t))
              else
                if isObject (output t)
                then objectItem d Expanded "output" (output t)
                       (default [] (buildObjectNodes d (output t)))
                else valueItem d "output" (output t)])
      end
  end.

(** Whether [showTrace(trace)] throws: [Object.entries] does on inputs that
    are [null], and nothing else in the method can. *)
Definition showTraceThrows (t : TraceRecord) : bool :=
  match JsObject.entries (inputs t) with
  | Some _ => false
  | None => true
  end.

(** [getChildren]. *)
Definition getChildren (items : list DetailItem) (element : option DetailItem)
  : list DetailItem :=
  match element with
  | None => items
  | Some item => itemChildren item
  end.

End TraceDetailProvider.

Module AllTracesProvider.

(** [getChildren]: the flat list of the active run. *)
Definition getChildren (store : TraceStore) : list TraceCallItem :=
  match activeRunId store with
  | Some run =>
      if truthy run then
        let traces := tracesOf store run in
        let traces :=
          if truthyOpt (focusedFn store)
          then List.filter (fun t => strictEq (focusedFn store) (function t)) traces
          else traces in
        map (fun t => {| trace := t; runId := run;
                         selected := strictEq (selectedCallId store) (call_id t) |}) traces
      else []
  | None => []
  end.

End AllTracesProvider.

Module DecorationManager.

(** [Math.max(0, t.source_line_start! - 2)]. *)
Definition decoratorLine (t : TraceRecord) : Q :=
  Qmax 0 (toNumber (source_line_start t) - 2).

(** The loop that puts one gutter mark per function name. *)
Fixpoint gutterLoop (fileTraces : list TraceRecord) (gutterSeen : gset string)
  (gutterRanges : list Range) : list Range :=
  match fileTraces with
  | [] => gutterRanges
  | t :: rest =>
      if bool_decide (function t ∈ gutterSeen) then gutterLoop rest gutterSeen gutterRanges
      else gutterLoop rest ({[function t]} ∪ gutterSeen)
             (gutterRanges ++ [{| startLine := decoratorLine t; startCharacter := 0;
                                  endLine := decoratorLine t; endCharacter := 0 |}])
  end.

(** The range of a highlighted record. *)
Definition highlightRange (t : TraceRecord) : Range :=
  {| startLine := Qmax 0 (toNumber (source_line_start t) - 2);
     startCharacter := 0;
     endLine := toNumber (source_line_end t) - 1;
     endCharacter := 0 |}.

(** What [applyToEditor] is about to hand to the two calls of
    [setDecorations]: the editor with the two lists, each range by the
    arguments of its constructor. The method as it runs, with the
    constructors called, is [Applied.applyToEditor]. *)
Definition applyToEditor (store : TraceStore) (editor : TextEditor) : TextEditor :=
  match activeRunId store with
  | Some run =>
      if negb (truthy run) || negb (highlightActive store) then
        {| fsPath := fsPath editor; highlight := []; gutter := [] |}
      else
        let allTraces := tracesOf store run in
        let filePath := fsPath editor in
        let fileTraces :=
          List.filter (fun t => strictEq (source_file t) filePath
                                && notNull (source_line_start t)) allTraces in
        let gutterRanges := gutterLoop fileTraces ∅ [] in
        let highlightTraces :=
          if truthyOpt (focusedFn store) then
            List.filter (fun t => strictEq (focusedFn store) (function t)) fileTraces
          else if truthyOpt (selectedCallId store) then
            let selected :=
              List.filter (fun t => strictEq (selectedCallId store) (call_id t)) fileTraces in
            if (0 <? List.length selected)%nat then selected else fileTraces
          else fileTraces in
        {| fsPath := fsPath editor;
           highlight := map highlightRange highlightTraces;
           gutter := gutterRanges |}
  | None => {| fsPath := fsPath editor; highlight := []; gutter := [] |}
  end.

(** What [applyToAllVisibleEditors] is about to hand to the editors, each
    as [applyToEditor] above. *)
Definition applyToAllVisibleEditors (store : TraceStore) (editors : list TextEditor)
  : list TextEditor :=
  map (applyToEditor store) editors.

(** [clearAll]. *)
Definition clearAll (editors : list TextEditor) : list TextEditor :=
  map (fun editor => {| fsPath := fsPath editor; highlight := []; gutter := [] |}) editors.

End DecorationManager.

(** The methods of the decoration manager as they run. *)
Module Applied.

(** [applyToEditor]. The ranges of the gutter and of the highlights are all
    constructed before the first call of [setDecorations]; when a constructor
    throws the method throws, [None], and the editor keeps the decorations it
    had. *)
Definition applyToEditor (store : TraceStore) (editor : TextEditor) : option TextEditor :=
  let planned := DecorationManager.applyToEditor store editor in
  match mapM Vscode.newRange (gutter planned), mapM Vscode.newRange (highlight planned) with
  | Some gutterRanges, Some highlightRanges =>
      Some {| fsPath := fsPath editor; highlight := highlightRanges; gutter := gutterRanges |}
  | _, _ => None
  end.

(** The editor after a call of [applyToEditor], whether it threw or not. *)
Definition editorAfter (store : TraceStore) (editor : TextEditor) : TextEditor :=
  default editor (applyToEditor store editor).

(** [applyToAllVisibleEditors]: the editors after the loop, and whether the
    loop came to its end. The loop stops at the first editor on which
    [applyToEditor] throws; that editor and those after it keep the
    decorations they had. *)
Fixpoint applyToAllVisibleEditors (store : TraceStore) (editors : list TextEditor)
  : list TextEditor * bool :=
  match editors with
  | [] => ([], true)
  | editor :: rest =>
      match applyToEditor store editor with
      | Some shown =>
          let (others, completed) := applyToAllVisibleEditors store rest in
          (shown :: others, completed)
      | None => (editor :: rest, false)
      end
  end.

End Applied.

(** A record whose line bounds give a range as the constructor takes it:
    no start line, so that no range is built for it, or both bounds with
    [max(0, start - 2) <= end - 1], as for every record with
    [1 <= start <= end]. *)
Definition orderly (t : TraceRecord) : bool :=
  match source_line_start t, source_line_end t with
  | Some s, Some e => Qle_bool (Qmax 0 (s - 2)) (e - 1)
  | Some _, None => false
  | None, _ => true
  end.

(** The records of the active run, if a run is active, are all orderly. *)
Definition orderlyStore (store : TraceStore) : bool :=
  match activeRunId store with
  | Some run => forallb orderly (tracesOf store run)
  | None => true
  end.

Module TraceHoverProvider.

Record Hover : Type := {
  contents : string;
  range : Range;
}.

(** The cap on a rendered payload:
    [text.length > 1000 ? text.slice(0, 1000) + '...' : text]. *)
Definition capped (text : string) : string :=
  if (1000 <? String.length text)%nat then slice 0 1000 text +:+ "..." else text.

Definition cappedInputs (h : Host) (t : TraceRecord) : string :=
  capped (JSON_stringify h (inputs t)).

Definition cappedOutput (h : Host) (t : TraceRecord) : string :=
  capped (JSON_stringify h (output t)).

Definition NL : string := String LF EmptyString.

(** The dash between the number of a call and its time, as the source file
    has it; a code unit above [00FF] stands as its UTF-8 bytes. *)
Definition dash : string := "‚Äî".

(** The text of a truthy [error]. *)
Definition errStr (e : option TraceError) : string :=
  match e with
  | Some (ErrorText text) => text
  | Some (ErrorInfo type message _) => type +:+ ": " +:+ message
  | None => ""
  end.

(** What the callback of [matches.forEach] appends for the match [t] at
    index [i] of [count] matches. *)
Definition callBlock (h : Host) (count i : nat) (t : TraceRecord) : string :=
  "**Call " +:+ pretty (i + 1)%nat +:+ "** " +:+ dash +:+ " " +:+ clockTime h (timestamp_start t)
    +:+ "  " +:+ NL
  +:+ "**Inputs:**" +:+ NL +:+ "```json" +:+ NL +:+ cappedInputs h t +:+ NL +:+ "```" +:+ NL
  +:+ (if errorTruthy (error t)
       then "**Error:** " +:+ errStr (error t) +:+ NL +:+ NL
       else "**Output:**" +:+ NL +:+ "```" +:+ NL +:+ cappedOutput h t +:+ NL
              +:+ "```" +:+ NL)
  +:+ (if truthyOpt (wandb_url t)
       then "[View in W&B](" +:+ default "" (wandb_url t) +:+ ")" +:+ NL +:+ NL
       else "")
  +:+ (if (i <? count - 1)%nat then NL +:+ "---" +:+ NL +:+ NL else "").

(** [provideHover] at [position.line] of the document [filePath]. *)
Definition provideHover (h : Host) (store : TraceStore) (filePath : string) (cursorLine : Q)
  : option Hover :=
  match activeRunId store with
  | Some run =>
      if truthy run then
        let allTraces := tracesOf store run in
        let matches := List.filter (matchesLine filePath cursorLine) allTraces in
        match matches with
        | [] => None
        | firstMatch :: _ =>
            Some {|
              contents :=
                "### `" +:+ function firstMatch +:+ "`" +:+ NL +:+ NL
                +:+ String.concat "" (imap (callBlock h (List.length matches)) matches);
              range :=
                {| startLine := Qmax 0 (toNumber (source_line_start firstMatch) - 2);
                   startCharacter := 0;
                   endLine := toNumber (source_line_end firstMatch) - 1;
                   endCharacter := 0 |};
            |}
        end
      else None
  | None => None
  end.

End TraceHoverProvider.

(** ** Event router *)

(** What the handlers of [activate] read and write: the store and the
    decorations of the visible editors. Every handler is one transition; an
    event the host delivers while a handler awaits is a transition of its
    own. *)
Record Session : Type := {
  store : TraceStore;
  visibleTextEditors : list TextEditor;
}.

(** The command [cdweave.selectTrace]: what it leaves, also when it stops
    early. After the writes to the store and the load, [showTrace] throws on
    inputs that are [null] and the handler ends there; else the document is
    opened and shown, and [applyToAllVisibleEditors] runs, all inside the
    [try], whose [catch] only tells the user. [None] when the run's file
    leaves the model (see [pushLines]). *)
Definition selectTrace (h : Host) (item : TraceCallItem) (s : Session) : option Session :=
  let store1 :=
    setHighlightActive true
      (setSuppressCursorFilter true
        (setFocusedFn (Some (function (trace item)))
          (setSelectedCallId (Some (call_id (trace item)))
            (setActiveRunId (Some (runId item)) (store s))))) in
  let loaded :=
    match getRunsDir h with
    | Some runsDir =>
        if truthy runsDir && negb (bool_decide (is_Some (runTraces store1 !! runId item))) then
          match loadTracesFromFile h (runFile h runsDir (runId item)) with
          | Some traces => Some (setRunTraces (<[runId item := traces]> (runTraces store1)) store1)
          | None => None
          end
        else Some store1
    | None => Some store1
    end in
  match loaded with
  | Some store2 =>
      let shown :=
        if TraceDetailProvider.showTraceThrows (trace item) then None
        else
          match source_file (trace item) with
          | Some file => showTextDocument h file (visibleTextEditors s)
          | None => None
          end in
      Some {|
        store := store2;
        visibleTextEditors :=
          match shown with
          | Some editors => fst (Applied.applyToAllVisibleEditors store2 editors)
          | None => visibleTextEditors s
          end;
      |}
  | None => None
  end.

(** The watcher's [onDidCreate]. *)
Definition onDidCreate (h : Host) (s : Session) : Session :=
  {| store := TraceTreeProvider.refresh h (store s);
     visibleTextEditors := visibleTextEditors s |}.

(** The watcher's [onDidChange] for the file [uri]: what it leaves, also
    when [applyToAllVisibleEditors] throws. *)
Definition onDidChange (h : Host) (uri : string) (s : Session) : option Session :=
  let run := path_basename h uri ".jsonl" in
  let store1 := TraceTreeProvider.invalidateRun run (store s) in
  if strictEq (activeRunId store1) run && truthyOpt (getRunsDir h) then
    match loadTracesFromFile h uri with
    | Some traces =>
        let store2 := setRunTraces (<[run := traces]> (runTraces store1)) store1 in
        Some {| store := store2;
                visibleTextEditors :=
                  fst (Applied.applyToAllVisibleEditors store2 (visibleTextEditors s)) |}
    | None => None
    end
  else Some {| store := store1; visibleTextEditors := visibleTextEditors s |}.

(** The watcher's [onDidDelete] for the file [uri]. *)
Definition onDidDelete (h : Host) (uri : string) (s : Session) : Session :=
  let run := path_basename h uri ".jsonl" in
  let store1 := setRunTraces (delete run (runTraces (store s))) (store s) in
  let cleared :=
    if strictEq (activeRunId store1) run then
      (setSelectedCallId None (setActiveRunId None store1),
       DecorationManager.clearAll (visibleTextEditors s))
    else (store1, visibleTextEditors s) in
  {| store := TraceTreeProvider.refresh h (fst cleared);
     visibleTextEditors := snd cleared |}.

(** The command [cdweave.clearFocus]. *)
Definition clearFocus (s : Session) : Session :=
  {| store :=
       TraceTreeProvider.setFunctionFilter None
         (setSelectedCallId None (setFocusedFn None (setHighlightActive false (store s))));
     visibleTextEditors := DecorationManager.clearAll (visibleTextEditors s) |}.

(** [onDidChangeActiveTextEditor] for the visible editor at [index]: what
    it leaves, also when [applyToEditor] throws. *)
Definition onDidChangeActiveTextEditor (index : nat) (s : Session) : Session :=
  if truthyOpt (activeRunId (store s)) then
    {| store := store s;
       visibleTextEditors :=
         alter (Applied.editorAfter (store s)) index (visibleTextEditors s) |}
  else s.

(** [onDidChangeTextEditorSelection]: the cursor is on [cursorLine] of the
    event's editor, the visible editor at [index]. What the handler leaves,
    also when [applyToEditor] throws. *)
Definition onDidChangeTextEditorSelection (index : nat) (cursorLine : Q) (s : Session)
  : Session :=
  if negb (truthyOpt (activeRunId (store s))) then s
  else if suppressCursorFilter (store s) then
    {| store := setSuppressCursorFilter false (store s);
       visibleTextEditors := visibleTextEditors s |}
  else
    match activeRunId (store s), visibleTextEditors s !! index with
    | Some run, Some editor =>
        let traces := tracesOf (store s) run in
        let hit := List.find (matchesLine (fsPath editor) cursorLine) traces in
        let fnName := function <$> hit in
        if strictEqOpt fnName (focusedFn (store s)) then s
        else
          let store' := TraceTreeProvider.setFunctionFilter fnName (store s) in
          {| store := store';
             visibleTextEditors :=
               alter (Applied.editorAfter store') index (visibleTextEditors s) |}
    | _, _ => s
    end.

(** What [activate] leaves once its last statement has run, for the editors
    that are visible then. *)
Definition activate (h : Host) (editors : list TextEditor) : Session :=
  let store1 := TraceTreeProvider.refresh h initialStore in
  {| store := store1;
     visibleTextEditors :=
       if truthyOpt (activeRunId store1)
       then fst (Applied.applyToAllVisibleEditors store1 editors)
       else editors |}.

(** The events the handlers of [activate] serve; expanding a run in the
    tree is among them, since it fills the cache. *)
Inductive Event : Type :=
  | SelectTrace (item : TraceCallItem)
  | ClearFocus
  | FileCreated
  | FileChanged (uri : string)
  | FileDeleted (uri : string)
  | ActiveEditorChanged (index : nat)
  | SelectionChanged (index : nat) (cursorLine : Q)
  | RunExpanded (item : RunItem.TraceRunItem).

(** The handler of an event, on the platform as it is when the event
    arrives. *)
Definition handle (h : Host) (e : Event) (s : Session) : option Session :=
  match e with
  | SelectTrace item => selectTrace h item s
  | ClearFocus => Some (clearFocus s)
  | FileCreated => Some (onDidCreate h s)
  | FileChanged uri => onDidChange h uri s
  | FileDeleted uri => Some (onDidDelete h uri s)
  | ActiveEditorChanged index => Some (onDidChangeActiveTextEditor index s)
  | SelectionChanged index cursorLine =>
      Some (onDidChangeTextEditorSelection index cursorLine s)
  | RunExpanded item =>
      match TraceTreeProvider.getChildren h (store s)
              (Some (TraceTreeProvider.RunElement item)) with
      | Some (store', _) =>
          Some {| store := store'; visibleTextEditors := visibleTextEditors s |}
      | None => None
      end
  end.

(** A sequence of events, each with the platform it finds. *)
Fixpoint handleAll (events : list (Host * Event)) (s : Session) : option Session :=
  match events with
  | [] => Some s
  | (h, e) :: rest =>
      match handle h e s with
      | Some s' => handleAll rest s'
      | None => None
      end
  end.


(** Editors whose two decoration lists are empty. *)
Definition undecorated (editors : list TextEditor) : Prop :=
  Forall (fun e => highlight e = [] /\ gutter e = []) editors.

(** The gutter mark of a record: the empty range at its decorator line. *)
Definition gutterMark (t : TraceRecord) : Range :=
  {| startLine := DecorationManager.decoratorLine t; startCharacter := 0;
     endLine := DecorationManager.decoratorLine t; endCharacter := 0 |}.

(** ** Commands on the working tree *)

(** What a command does to the world outside the store, in the order in
    which it does it. *)
Inductive Effect : Type :=
  (** [vscode.env.openExternal(vscode.Uri.parse(url))] *)
  | OpenExternal (url : string)
  | InformationMessage (text : string)
  | WarningMessage (text : string)
  (** the modal warning with its one button, awaited *)
  | ModalWarning (text button : string)
  | ErrorMessage (text : string)
  (** [execSync(command, { cwd, encoding: 'utf8' })] *)
  | ExecSync (command cwd : string).

(** The double quote of a template string. *)
Definition dquote : string := String "034"%char EmptyString.

(** [runGit]: the call it makes, and its result. *)
Definition runGit (u : Ui) (args : list string) (cwd : string) : Effect * (Thrown + string) :=
  let command := String.concat " " ("git" :: args) in
  (ExecSync command cwd,
   match execSync u command cwd with
   | inr output => inr (trim output)
   | inl e => inl e
   end).

(** The command [cdweave.openTraceUrl]. *)
Definition openTraceUrl (item : TraceCallItem) : Effect :=
  if truthyOpt (traceUrl (trace item))
  then OpenExternal (default "" (traceUrl (trace item)))
  else InformationMessage "CDWeave: No W&B URL available for this trace.".

(** The [try] statement of the two restore commands: the checkout, then the
    message about how it went. *)
Definition checkout (u : Ui) (revision cwd done : string) : list Effect :=
  let (call, result) := runGit u ["checkout"; revision; "--"; "."] cwd in
  call ::
  match result with
  | inr _ => [InformationMessage done]
  | inl e =>
      [ErrorMessage ("CDWeave: git checkout failed " +:+ TraceHoverProvider.dash +:+ " "
                     +:+ default (thrown_string e) (thrown_message e))]
  end.

(** The command [cdweave.restoreRunCode]. *)
Definition restoreRunCode (u : Ui) (item : RunItem.TraceRunItem) : list Effect :=
  let gs := RunItem.gitState item in
  if negb (truthyOpt (optionalField gs Git.git_snapshot_sha))
     || negb (truthyOpt (optionalField gs Git.git_repo_root))
  then [WarningMessage "CDWeave: No snapshot found for this run."]
  else
    let sha := default "" (optionalField gs Git.git_snapshot_sha) in
    let root := default "" (optionalField gs Git.git_repo_root) in
    let shortSha := slice 0 8 sha in
    let prompt :=
      "Restore code from run " +:+ dquote +:+ parseRunLabel (RunItem.runId item) +:+ dquote
      +:+ "?" +:+ TraceHoverProvider.NL +:+ TraceHoverProvider.NL
      +:+ "This will overwrite your working tree with snapshot " +:+ shortSha
      +:+ ". Uncommitted changes will be lost." in
    ModalWarning prompt "Restore" ::
    (if strictEq (modalChoice u prompt "Restore") "Restore"
     then checkout u sha root
            ("CDWeave: Working tree restored to snapshot " +:+ shortSha +:+ ".")
     else []).

(** The command [cdweave.restoreMainCode]. *)
Definition restoreMainCode (u : Ui) (item : RunItem.TraceRunItem) : list Effect :=
  let gs := RunItem.gitState item in
  if negb (truthyOpt (optionalField gs Git.git_repo_root))
  then [WarningMessage "CDWeave: No git repo info for this run."]
  else
    let root := default "" (optionalField gs Git.git_repo_root) in
    let prompt :=
      "Reset working tree back to HEAD?" +:+ TraceHoverProvider.NL +:+ TraceHoverProvider.NL
      +:+ "This will discard any uncommitted changes in " +:+ root +:+ "." in
    ModalWarning prompt "Reset to HEAD" ::
    (if strictEq (modalChoice u prompt "Reset to HEAD") "Reset to HEAD"
     then checkout u "HEAD" root "CDWeave: Working tree reset to HEAD."
     else []).

(** ** A platform to run the model on *)

(** The JSON grammar over the code units of the model, for [JSON.parse] on
    concrete log lines. A [\u] escape above [00FF] has no code unit here and
    is refused. *)
Module Json.

Definition quote : ascii := "034"%char.
Definition backslash : ascii := "092"%char.

Definition isWs (c : ascii) : bool :=
  match nat_of_ascii c with
  | 9 | 10 | 13 | 32 => true
  | _ => false
  end.

Fixpoint skipWs (s : string) : string :=
  match s with
  | String c s' => if isWs c then skipWs s' else s
  | EmptyString => EmptyString
  end.

Definition digitValue (c : ascii) : Z := Z.of_nat (nat_of_ascii c - 48).

(** The longest run of digits at the head of [s]: its value after [acc],
    the number of digits read, and what follows. *)
Fixpoint digits (s : string) (acc : Z) (count : nat) : Z * nat * string :=
  match s with
  | String c s' =>
      if isDigit c then digits s' (acc * 10 + digitValue c)%Z (S count) else (acc, count, s)
  | EmptyString => (acc, count, s)
  end.

(** [mantissa * 10 ^ exponent]. *)
Definition scale (mantissa exponent : Z) : Q :=
  if (0 <=? exponent)%Z then inject_Z (mantissa * 10 ^ exponent)
  else Qred (Qmake mantissa (Z.to_pos (10 ^ (- exponent)))).

Definition parseNumber (s : string) : option (Q * string) :=
  let (negative, s1) :=
    match s with
    | String "-" r => (true, r)
    | _ => (false, s)
    end in
  match s1 with
  | String c r =>
      if isDigit c then
        let '(whole, _, s2) := if Ascii.eqb c "0" then (0%Z, 1%nat, r) else digits s1 0 0 in
        let fraction :=
          match s2 with
          | String "." r2 =>
              let '(value, count, s3) := digits r2 0 0 in
              if (count =? 0)%nat then None else Some (value, count, s3)
          | _ => Some (0%Z, 0%nat, s2)
          end in
        match fraction with
        | Some (fractionValue, fractionDigits, s3) =>
            let exponent :=
              match s3 with
              | String e r3 =>
                  if Ascii.eqb e "e" || Ascii.eqb e "E" then
                    let (minus, r4) :=
                      match r3 with
                      | String "-" r' => (true, r')
                      | String "+" r' => (false, r')
                      | _ => (false, r3)
                      end in
                    let '(value, count, s4) := digits r4 0 0 in
                    if (count =? 0)%nat then None
                    else Some (if minus then (- value)%Z else value, s4)
                  else Some (0%Z, s3)
              | EmptyString => Some (0%Z, s3)
              end in
            match exponent with
            | Some (exponentValue, s4) =>
                let mantissa := (whole * 10 ^ Z.of_nat fractionDigits + fractionValue)%Z in
                let signed := if negative then (- mantissa)%Z else mantissa in
                Some (scale signed (exponentValue - Z.of_nat fractionDigits), s4)
            | None => None
            end
        | None => None
        end
      else None
  | EmptyString => None
  end.

Definition hexValue (c : ascii) : option nat :=
  let n := nat_of_ascii c in
  if (48 <=? n)%nat && (n <=? 57)%nat then Some (n - 48)%nat
  else if (65 <=? n)%nat && (n <=? 70)%nat then Some (n - 55)%nat
  else if (97 <=? n)%nat && (n <=? 102)%nat then Some (n - 87)%nat
  else None.

(** The characters of a string literal after its opening quote, up to the
    closing one. *)
Fixpoint parseChars (s : string) : option (string * string) :=
  match s with
  | EmptyString => None
  | String c r =>
      if Ascii.eqb c quote then Some (EmptyString, r)
      else if Ascii.eqb c backslash then
        match r with
        | String e r' =>
            let plain (d : ascii) :=
              match parseChars r' with
              | Some (text, rest) => Some (String d text, rest)
              | None => None
              end in
            if Ascii.eqb e quote then plain quote
            else if Ascii.eqb e backslash then plain backslash
            else if Ascii.eqb e "/" then plain "/"%char
            else if Ascii.eqb e "b" then plain "008"%char
            else if Ascii.eqb e "f" then plain "012"%char
            else if Ascii.eqb e "n" then plain "010"%char
            else if Ascii.eqb e "r" then plain "013"%char
            else if Ascii.eqb e "t" then plain "009"%char
            else if Ascii.eqb e "u" then
              match r' with
              | String h1 (String h2 (String h3 (String h4 r''))) =>
                  match hexValue h1, hexValue h2, hexValue h3, hexValue h4 with
                  | Some 0%nat, Some 0%nat, Some a, Some b =>
                      match parseChars r'' with
                      | Some (text, rest) => Some (String (ascii_of_nat (16 * a + b)) text, rest)
                      | None => None
                      end
                  | _, _, _, _ => None
                  end
              | _ => None
              end
            else None
        | EmptyString => None
        end
      else if (nat_of_ascii c <? 32)%nat then None
      else
        match parseChars r with
        | Some (text, rest) => Some (String c text, rest)
        | None => None
        end
  end.

(** The member [key] set to [v]: a repeated key keeps its place and takes
    the later value. *)
Fixpoint setMember (key : string) (v : json) (members : list (string * json))
  : list (string * json) :=
  match members with
  | [] => [(key, v)]
  | (k, w) :: rest =>
      if String.eqb k key then (k, v) :: rest else (k, w) :: setMember key v rest
  end.

(** Drops the literal [word] from the head of [s]. *)
Definition literal (word : string) (s : string) : option string :=
  if String.prefix word s then Some (sliceFrom (String.length word) s) else None.

Fixpoint parseValue (fuel : nat) (s : string) : option (json * string) :=
  match fuel with
  | O => None
  | S fuel' =>
      match skipWs s with
      | EmptyString => None
      | String c r as text =>
          if Ascii.eqb c "{" then
            match skipWs r with
            | String "}" r' => Some (JObj [], r')
            | members => parseMembers fuel' members []
            end
          else if Ascii.eqb c "[" then
            match skipWs r with
            | String "]" r' => Some (JArr [], r')
            | items => parseElements fuel' items []
            end
          else if Ascii.eqb c quote then
            match parseChars r with
            | Some (str, rest) => Some (JStr str, rest)
            | None => None
            end
          else if Ascii.eqb c "t" then pair (JBool true) <$> literal "true" text
          else if Ascii.eqb c "f" then pair (JBool false) <$> literal "false" text
          else if Ascii.eqb c "n" then pair JNull <$> literal "null" text
          else
            match parseNumber text with
            | Some (n, rest) => Some (JNum n, rest)
            | None => None
            end
      end
  end
with parseElements (fuel : nat) (s : string) (acc : list json) : option (json * string) :=
  match fuel with
  | O => None
  | S fuel' =>
      match parseValue fuel' s with
      | Some (v, rest) =>
          match skipWs rest with
          | String "," rest' => parseElements fuel' rest' (acc ++ [v])
          | String "]" rest' => Some (JArr (acc ++ [v]), rest')
          | _ => None
          end
      | None => None
      end
  end
with parseMembers (fuel : nat) (s : string) (acc : list (string * json))
  : option (json * string) :=
  match fuel with
  | O => None
  | S fuel' =>
      match skipWs s with
      | String c r =>
          if Ascii.eqb c quote then
            match parseChars r with
            | Some (key, afterKey) =>
                match skipWs afterKey with
                | String ":" afterColon =>
                    match parseValue fuel' afterColon with
                    | Some (v, rest) =>
                        match skipWs rest with
                        | String "," rest' => parseMembers fuel' rest' (setMember key v acc)
                        | String "}" rest' => Some (JObj (setMember key v acc), rest')
                        | _ => None
                        end
                    | None => None
                    end
                | _ => None
                end
            | None => None
            end
          else None
      | EmptyString => None
      end
  end.

(** [JSON.parse(text)]; [None] is a [SyntaxError]. *)
Definition parse (text : string) : option json :=
  match parseValue (S (String.length text)) text with
  | Some (v, rest) =>
      match skipWs rest with
      | EmptyString => Some v
      | _ => None
      end
  | None => None
  end.

(** A string literal of the output: the quote and the backslash escaped. *)
Fixpoint escapeChars (s : string) : string :=
  match s with
  | EmptyString => EmptyString
  | String c r =>
      if Ascii.eqb c quote || Ascii.eqb c backslash
      then String backslash (String c (escapeChars r))
      else String c (escapeChars r)
  end.

Definition quoted (s : string) : string :=
  String quote (escapeChars s +:+ String quote EmptyString).

(** The decimal digits of the fraction [remainder / den], at most [count]. *)
Fixpoint fractionDigits (count : nat) (remainder den : Z) : string :=
  match count with
  | O => EmptyString
  | S count' =>
      if (remainder =? 0)%Z then EmptyString
      else pretty (remainder * 10 / den)%Z
             +:+ fractionDigits count' ((remainder * 10) mod den)%Z den
  end.

(** A number that has a short decimal expansion, in decimal. *)
Definition numberText (n : Q) : string :=
  let num := Z.abs (Qnum n) in
  let den := Z.pos (Qden n) in
  (if (Qnum n <? 0)%Z then "-" else "")
  +:+ pretty (num / den)%Z
  +:+ (if (num mod den =? 0)%Z then "" else "." +:+ fractionDigits 17 (num mod den)%Z den).

(** [JSON.stringify(v, null, 2)] at the indentation [indent], for strings
    without control characters and objects whose keys are no array
    indices. *)
Fixpoint stringifyAt (indent : string) (v : json) : string :=
  let deeper := indent +:+ "  " in
  let lineBreak := String LF deeper in
  match v with
  | JNull => "null"
  | JBool true => "true"
  | JBool false => "false"
  | JNum n => numberText n
  | JStr s => quoted s
  | JArr [] => "[]"
  | JArr items =>
      "[" +:+ lineBreak
      +:+ String.concat ("," +:+ lineBreak) (map (stringifyAt deeper) items)
      +:+ String LF indent +:+ "]"
  | JObj [] => "{}"
  | JObj members =>
      "{" +:+ lineBreak
      +:+ String.concat ("," +:+ lineBreak)
            (map (fun kv => quoted (fst kv) +:+ ": " +:+ stringifyAt deeper (snd kv)) members)
      +:+ String LF indent +:+ "}"
  end.

Definition stringify (v : json) : string := stringifyAt "" v.

(** [JSON.stringify(v)], under the same provisos. *)
Fixpoint stringifyCompact (v : json) : string :=
  match v with
  | JNull => "null"
  | JBool true => "true"
  | JBool false => "false"
  | JNum n => numberText n
  | JStr s => quoted s
  | JArr items => "[" +:+ String.concat "," (map stringifyCompact items) +:+ "]"
  | JObj members =>
      "{" +:+ String.concat ","
                (map (fun kv => quoted (fst kv) +:+ ":" +:+ stringifyCompact (snd kv)) members)
      +:+ "}"
  end.

(** [n.toFixed(3)] for a number below [10^21]: the nearest multiple of a
    thousandth, the larger one of two. *)
Definition toFixed3 (n : Q) : string :=
  let thousandths := ((2 * Z.abs (Qnum n) * 1000 + Z.pos (Qden n)) / (2 * Z.pos (Qden n)))%Z in
  let fraction := (thousandths mod 1000)%Z in
  (if (Qnum n <? 0)%Z then "-" else "")
  +:+ pretty (thousandths / 1000)%Z +:+ "."
  +:+ (if (fraction <? 10)%Z then "00" else if (fraction <? 100)%Z then "0" else "")
  +:+ pretty fraction.

(** JSON text written with apostrophes where the quotes stand. *)
Fixpoint text (s : string) : string :=
  match s with
  | EmptyString => EmptyString
  | String c r => String (if Ascii.eqb c "'" then quote else c) (text r)
  end.

End Json.

(** A workspace with the one folder [/ws] whose runs directory [/ws/runs]
    holds the given files, each a name and its lines. *)
Module Sample.

Definition runsDir : string := "/ws/runs".

Definition content (lines : list string) : string :=
  String.concat (String LF EmptyString) (map Json.text lines).

Definition lookupFile (files : list (string * list string)) (path : string)
  : option (list string) :=
  snd <$> List.find (fun file => String.eqb (runsDir +:+ "/" +:+ fst file) path) files.

(** [path.basename(p, ext)] of a normalised path. *)
Definition basename (p ext : string) : string :=
  dropSuffix ext (default p (pop (split "/" p))).

Definition host (files : list (string * list string)) : Host := {|
  workspaceFolders := Some ["/ws"];
  existsSync path := String.eqb path runsDir || bool_decide (is_Some (lookupFile files path));
  readFileSync path := content <$> lookupFile files path;
  readdirSync dir := if String.eqb dir runsDir then Some (map fst files) else None;
  path_join a b := a +:+ "/" +:+ b;
  path_basename := basename;
  JSON_parse := Json.parse;
  JSON_stringify := Json.stringify;
  clockTime _ := "00:00:00";
  showTextDocument _ editors := Some editors;
|}.

(** A record with only the fields the views read set. *)
Definition call (id fn : string) (file : option string) (lineStart lineEnd : option Q)
  (timestamp : option Q) : TraceRecord := {|
  call_id := id;
  function := fn;
  op_name := None;
  wandb_url := None;
  source_file := file;
  source_line_start := lineStart;
  source_line_end := lineEnd;
  timestamp_start := timestamp;
  duration_s := 0;
  inputs := JObj [];
  output := JNull;
  error := None;
  git_repo_root := None;
  git_commit := None;
  git_dirty := false;
  git_snapshot_sha := None;
|}.

(** A log of four calls: the second has no timestamp, the first and the
    last have the same one. *)
Definition orderingLog : list (string * list string) :=
  [("20240115_143022.jsonl",
    ["{'call_id':'a','function':'f','timestamp_start':2}";
     "{'call_id':'b','function':'g'}";
     "{'call_id':'c','function':'f','timestamp_start':1}";
     "{'call_id':'d','function':'g','timestamp_start':2}"])].

(** A log with two records, a line that is no JSON and a [null] line; the
    later record is the earlier call. *)
Definition brokenLog : list (string * list string) :=
  [("20240115_143022.jsonl",
    ["{'call_id':'a','function':'f','timestamp_start':2}";
     "not json";
     "null";
     "{'call_id':'b','function':'f','timestamp_start':1}"])].

(** A log of three calls in the order of their timestamps, with a line that
    is no JSON among them. *)
Definition tornLog : list (string * list string) :=
  [("20240115_143022.jsonl",
    ["{'call_id':'a','function':'f','timestamp_start':1}";
     "{'call_id':'b','function':'g','timestamp_start':2";
     "{'call_id':'c','function':'f','timestamp_start':2.5}";
     "{'call_id':'d','function':'g','timestamp_start':4}"])].

Definition logPath : string := "/ws/runs/20240115_143022.jsonl".

(** One call whose only input is a text of a thousand characters. *)
Definition longInput : TraceRecord := {|
  call_id := "a";
  function := "f";
  op_name := None;
  wandb_url := None;
  source_file := None;
  source_line_start := None;
  source_line_end := None;
  timestamp_start := None;
  duration_s := 0;
  inputs := JObj [("text", JStr (string_of_list_ascii (repeat "a"%char 1000)))];
  output := JNull;
  error := None;
  git_repo_root := None;
  git_commit := None;
  git_dirty := false;
  git_snapshot_sha := None;
|}.

(** The runs directory after the run of [logPath] was deleted and a later
    run is left. *)
Definition laterLog : list (string * list string) :=
  [("20240116_090000.jsonl", ["{'call_id':'z','function':'h','timestamp_start':9}"])].

Definition sourcePath : string := "/ws/app.py".

(** A session whose active run is the run of [logPath]: one call of lines
    10 to 12 is cached and selected, and the editor on its source file
    shows its decorations. *)
Definition activeSession : Session :=
  {| store :=
       setSelectedCallId (Some "a")
         (setRunTraces
            {[ "20240115_143022" :=
                 [call "a" "f" (Some sourcePath) (Some 10%Q) (Some 12%Q) (Some 2%Q)] ]}
            (setActiveRunId (Some "20240115_143022") initialStore));
     visibleTextEditors :=
       [{| fsPath := sourcePath;
           highlight := [{| startLine := 8; startCharacter := 0;
                            endLine := 11; endCharacter := 0 |}];
           gutter := [{| startLine := 8; startCharacter := 0;
                         endLine := 8; endCharacter := 0 |}] |}] |}.

(** A store whose active run holds one record that starts at line 5 and
    has no end line. *)
Definition openEndedStore : TraceStore :=
  setRunTraces
    {[ "20240115_143022" := [call "p" "f" (Some sourcePath) (Some 5%Q) None (Some 1%Q)] ]}
    (setActiveRunId (Some "20240115_143022") initialStore).

(** The session [activate] leaves when no editor is visible. *)
Definition freshSession : Session :=
  {| store := initialStore; visibleTextEditors := [] |}.

Definition display : Display := {|
  JSON_stringify_compact := Json.stringifyCompact;
  toFixed3 := Json.toFixed3;
  toLocaleTimeString _ := "00:00:00";
|}.

(** A user who answers every dialog with [choice] and a shell on which
    every command ends as [result]. *)
Definition ui (choice : option string) (result : Thrown + string) : Ui := {|
  modalChoice _ _ := choice;
  execSync _ _ := result;
|}.

(** Two runs. The first line of the earlier one that parses to a value
    carries the git state of the run; its second call is the earlier one in
    time. *)
Definition gitLog : list (string * list string) :=
  [("20240115_143022.jsonl",
    ["not json";
     "null";
     "{'call_id':'a','function':'f','timestamp_start':2,'git_repo_root':'/ws','git_commit':'abc1234','git_dirty':true,'git_snapshot_sha':'0123456789abcdef'}";
     "{'call_id':'b','function':'g','timestamp_start':1,'git_commit':'fff0000'}"]);
   ("20240116_090000.jsonl", ["{'call_id':'z','function':'h','timestamp_start':9}"]);
   ("notes.txt", ["no run"])].

(** The git state of the first run of [gitLog]. *)
Definition gitState : Git.RunGitState := {|
  Git.git_repo_root := Some "/ws";
  Git.git_commit := Some "abc1234";
  Git.git_dirty := true;
  Git.git_snapshot_sha := Some "0123456789abcdef";
|}.

(** The item of that run in the tree. *)
Definition runItem : RunItem.TraceRunItem := {|
  RunItem.runId := "20240115_143022";
  RunItem.label := "2024-01-15 14:30:22";
  RunItem.gitState := Some gitState;
  RunItem.description := Some ("abc1234*" +:+ snapshotMark);
  RunItem.contextValue := "traceRunWithSnapshot";
|}.

(** A call that failed with an error of the legacy form. *)
Definition legacyError : TraceRecord := {|
  call_id := "e";
  function := "f";
  op_name := None;
  wandb_url := None;
  source_file := None;
  source_line_start := None;
  source_line_end := None;
  timestamp_start := Some 1%Q;
  duration_s := 5 # 4;
  inputs := JObj [("x", JNum 1)];
  output := JNull;
  error := Some (ErrorText "boom");
  git_repo_root := None;
  git_commit := None;
  git_dirty := false;
  git_snapshot_sha := None;
|}.

(** A store whose active run holds two calls of [f] and one of [g] in one
    file. *)
Definition threeCalls : TraceStore :=
  setRunTraces
    {[ "20240115_143022" :=
         [call "a" "f" (Some sourcePath) (Some 10%Q) (Some 12%Q) (Some 1%Q);
          call "b" "g" (Some sourcePath) (Some 20%Q) (Some 25%Q) (Some 2%Q);
          call "c" "f" (Some sourcePath) (Some 10%Q) (Some 12%Q) (Some 3%Q)] ]}
    (setActiveRunId (Some "20240115_143022") initialStore).

Definition editor : TextEditor :=
  {| fsPath := sourcePath; highlight := []; gutter := [] |}.

(** A store whose active run holds one record that starts at line 10 and
    ends at line 3. *)
Definition invertedStore : TraceStore :=
  setRunTraces
    {[ "20240115_143022" := [call "q" "f" (Some sourcePath) (Some 10%Q) (Some 3%Q) (Some 1%Q)] ]}
    (setActiveRunId (Some "20240115_143022") initialStore).

(** A call of lines 20 to 25 whose inputs are [null]. *)
Definition nullInputs : TraceRecord := {|
  call_id := "n";
  function := "g";
  op_name := None;
  wandb_url := None;
  source_file := Some sourcePath;
  source_line_start := Some 20%Q;
  source_line_end := Some 25%Q;
  timestamp_start := Some 1%Q;
  duration_s := 0;
  inputs := JNull;
  output := JNull;
  error := None;
  git_repo_root := None;
  git_commit := None;
  git_dirty := false;
  git_snapshot_sha := None;
|}.

End Sample.

(** ** Proof automation *)

(** Inverts a chain of [let!] that returned: every step returned. *)
Ltac bind_inv H :=
  repeat match type of H with
         | bind ?c _ = Returns _ =>
             let E := fresh "E" in
             destruct c eqn:E; cbn [bind] in H; [|discriminate H|discriminate H]
         end.

(* ===================================================================== *)
(** * Part II: the properties                                             *)
(* ===================================================================== *)

(** ** Strings *)

Section SplitFacts.

Variable sep : ascii.

(** [split] never returns the empty array. *)
Lemma split_nonempty (s : string) : split sep s <> [].
Proof.
  destruct s as [|c s]; simpl; [discriminate|].
  destruct (Ascii.eqb c sep); [discriminate|].
  destruct (split sep s); discriminate.
Qed.

(** A character in front of the first part is in front of the join. *)
Lemma concat_cons_char (j : string) (c : ascii) (p : string) (ps : list string) :
  String.concat j (String c p :: ps) = String c (String.concat j (p :: ps)).
Proof. destruct ps; reflexivity. Qed.

(** Joining the parts with the separator gives the string back. *)
Lemma concat_split (s : string) :
  String.concat (String sep EmptyString) (split sep s) = s.
Proof.
  induction s as [|c s IH]; simpl; [reflexivity|].
  destruct (Ascii.eqb_spec c sep) as [->|Hne].
  - destruct (split sep s) as [|p ps] eqn:E; [now apply split_nonempty in E|].
    cbn [String.concat]. cbn in IH |- *. now rewrite IH.
  - destruct (split sep s) as [|p ps] eqn:E; [now apply split_nonempty in E|].
    now rewrite concat_cons_char, IH.
Qed.

(** A string without the separator is its only part. *)
Lemma split_without (s : string) :
  forallb (fun c => negb (Ascii.eqb c sep)) (list_ascii_of_string s) = true ->
  split sep s = [s].
Proof.
  induction s as [|c s IH]; simpl; [reflexivity|].
  intros H. apply andb_prop in H as [Hc Hs].
  destruct (Ascii.eqb c sep); [discriminate|]. now rewrite (IH Hs).
Qed.

(** The part before the first separator. *)
Lemma split_first (p r : string) :
  forallb (fun c => negb (Ascii.eqb c sep)) (list_ascii_of_string p) = true ->
  split sep (p +:+ String sep r) = p :: split sep r.
Proof.
  induction p as [|c p IH]; simpl.
  - intros _. now rewrite Ascii.eqb_refl.
  - intros H. apply andb_prop in H as [Hc Hs].
    destruct (Ascii.eqb c sep); [discriminate|]. now rewrite (IH Hs).
Qed.

End SplitFacts.

(** Digits are no underscores. *)
Lemma digits_without_underscore (n : nat) (s : string) :
  digitString n s = true ->
  forallb (fun c => negb (Ascii.eqb c "_")) (list_ascii_of_string s) = true.
Proof.
  unfold digitString. intros H. apply andb_prop in H as [_ H].
  induction s as [|c s IH]; [reflexivity|].
  cbn [list_ascii_of_string forallb] in *. apply andb_prop in H as [Hc Hs].
  rewrite (IH Hs), andb_true_r.
  destruct (Ascii.eqb_spec c "_") as [->|]; [discriminate Hc | reflexivity].
Qed.

(** A digit string has the length it is asked to have. *)
Lemma digitString_length (n : nat) (s : string) :
  digitString n s = true -> String.length s = n.
Proof.
  unfold digitString. intros H. apply andb_prop in H as [H _]. now apply Nat.eqb_eq.
Qed.

(** A string of length eight is eight characters. *)
Lemma string_length_8 (s : string) :
  String.length s = 8%nat ->
  exists a b c d e f g h,
    s = String a (String b (String c (String d (String e (String f (String g (String h ""))))))).
Proof.
  intros H.
  do 8 (destruct s as [|? s]; [discriminate H|]).
  destruct s; [|discriminate H]. repeat eexists.
Qed.

(** ** Run labels *)

(** The label of a stem that has the shape. *)
Lemma parseRunLabel_shaped (stem date timePart : string) (rest : list string) :
  split "_" stem = date :: timePart :: rest ->
  String.length date = 8%nat -> String.length timePart = 6%nat ->
  parseRunLabel stem =
    slice 0 4 date +:+ "-" +:+ slice 4 6 date +:+ "-" +:+ sliceFrom 6 date
      +:+ " " +:+ slice 0 2 timePart +:+ ":" +:+ slice 2 4 timePart
      +:+ ":" +:+ sliceFrom 4 timePart.
Proof.
  intros E Hd Ht. unfold parseRunLabel. rewrite E. cbn [List.length Nat.leb nth].
  now rewrite Hd, Ht.
Qed.

(** A stem without the shape is returned as it is. *)
Lemma parseRunLabel_unshaped (stem : string) :
  ~ hasLabelShape stem -> parseRunLabel stem = stem.
Proof.
  intros H. unfold parseRunLabel.
  destruct (split "_" stem) as [|date [|timePart rest]] eqn:E; try reflexivity.
  cbn [List.length Nat.leb nth].
  destruct (String.length date =? 8)%nat eqn:Hd; [|reflexivity].
  destruct (String.length timePart =? 6)%nat eqn:Ht; [|reflexivity].
  exfalso. apply H. exists date, timePart, rest.
  apply Nat.eqb_eq in Hd, Ht. auto.
Qed.

(** A label is never the stem: where the stem has its first underscore the
    label has a character of the date part or a dash. *)
Lemma parseRunLabel_differs (stem : string) :
  hasLabelShape stem -> parseRunLabel stem <> stem.
Proof.
  intros (date & timePart & rest & E & Hd & Ht).
  rewrite (parseRunLabel_shaped _ _ _ _ E Hd Ht).
  pose proof (concat_split "_" stem) as J. rewrite E in J.
  destruct (string_length_8 _ Hd) as (a & b & c & d & e & f & g & h & ->).
  rewrite <- J. cbn. intros K.
  injection K as K4 K5 K6 K7 K8. congruence.
Qed.

(** The stems of the naming scheme of the runs directory have the shape. *)
Lemma digit_stem_shape (date timePart : string) :
  digitString 8 date = true -> digitString 6 timePart = true ->
  hasLabelShape (date +:+ "_" +:+ timePart)
  /\ forall suffix, hasLabelShape (date +:+ "_" +:+ timePart +:+ "_" +:+ suffix).
Proof.
  intros Hd Ht.
  pose proof (digits_without_underscore _ _ Hd) as Ud.
  pose proof (digits_without_underscore _ _ Ht) as Ut.
  apply digitString_length in Hd, Ht. split.
  - exists date, timePart, []. split; [|auto].
    change (date +:+ "_" +:+ timePart) with (date +:+ String "_" timePart).
    now rewrite (split_first "_" _ _ Ud), (split_without "_" _ Ut).
  - intros suffix. exists date, timePart, (split "_" suffix). split; [|auto].
    change (date +:+ "_" +:+ timePart +:+ "_" +:+ suffix)
      with (date +:+ String "_" (timePart +:+ String "_" suffix)).
    now rewrite (split_first "_" _ _ Ud), (split_first "_" _ _ Ut).
Qed.

(** C8, as the code has it. A stem is rendered as a label exactly when its
    split on the underscore has at least two parts, the first of eight and
    the second of six code units; the label is made of the slices of these
    two parts, and whatever part follows is dropped. So every stem of eight
    digits, an underscore and six digits, alone or followed by an underscore
    and a suffix, is rendered as a label, and every stem without that shape
    is shown verbatim. *)
Theorem parseRunLabel_by_shape (stem : string) :
  (parseRunLabel stem = stem <-> ~ hasLabelShape stem)
  /\ (forall date timePart rest,
        split "_" stem = date :: timePart :: rest ->
        String.length date = 8%nat -> String.length timePart = 6%nat ->
        parseRunLabel stem =
          slice 0 4 date +:+ "-" +:+ slice 4 6 date +:+ "-" +:+ sliceFrom 6 date
            +:+ " " +:+ slice 0 2 timePart +:+ ":" +:+ slice 2 4 timePart
            +:+ ":" +:+ sliceFrom 4 timePart)
  /\ (forall date timePart,
        digitString 8 date = true -> digitString 6 timePart = true ->
        (stem = date +:+ "_" +:+ timePart
         \/ exists suffix, stem = date +:+ "_" +:+ timePart +:+ "_" +:+ suffix) ->
        hasLabelShape stem)
  /\ parseRunLabel "20240115_143022" = "2024-01-15 14:30:22".
Proof.
  repeat split.
  - intros E S. now apply (parseRunLabel_differs stem S).
  - apply parseRunLabel_unshaped.
  - intros date timePart rest. apply parseRunLabel_shaped.
  - intros date timePart Hd Ht [->|[suffix ->]];
      now apply (digit_stem_shape date timePart Hd Ht).
Qed.

(** The theorem on a stem of the naming scheme with a suffix. *)
Lemma parseRunLabel_by_shape_witness :
  parseRunLabel "20240115_143022_nightly" = "2024-01-15 14:30:22"
  /\ hasLabelShape "20240115_143022_nightly".
Proof.
  destruct (parseRunLabel_by_shape "20240115_143022_nightly") as (_ & L & D & _). split.
  - exact (L "20240115" "143022" ["nightly"] eq_refl eq_refl eq_refl).
  - apply (D "20240115" "143022"); [reflexivity | reflexivity |].
    right. exists "nightly". reflexivity.
Defined.

(** C8 as the claim words it fails both ways: a stem of letters in the
    8_6 shape matches no digit pattern and is still rewritten, and a stem
    that matches the digit pattern with a suffix glued to the time part is
    shown verbatim. *)
Lemma parseRunLabel_ignores_digits :
  specStemPattern "abcdefgh_ijklmn" = false
  /\ parseRunLabel "abcdefgh_ijklmn" = "abcd-ef-gh ij:kl:mn"
  /\ specStemPattern "20240115_143022x" = true
  /\ parseRunLabel "20240115_143022x" = "20240115_143022x".
Proof. repeat split; reflexivity. Qed.

(** ** Line correlation *)

(** The test, read as a proposition. *)
Lemma matchesLine_iff (t : TraceRecord) (filePath : string) (lineNumber : Q) :
  matchesLine filePath lineNumber t = true <->
  source_file t = Some filePath /\
  exists s e, source_line_start t = Some s /\ source_line_end t = Some e /\
     (Qmax 0 (s - 2) <= lineNumber)%Q /\ (lineNumber <= e - 1)%Q.
Proof.
  unfold matchesLine, strictEq, notNull, toNumber.
  rewrite !andb_true_iff, !Qle_bool_iff.
  destruct (source_file t) as [f|]; destruct (source_line_start t) as [s|];
    destruct (source_line_end t) as [e|]; cbn [default].
  all: try (split; [intros [[[[? ?] ?] ?] ?]; discriminate
                   | intros [? (s' & e' & ? & ? & ?)]; discriminate]).
  rewrite String.eqb_eq. split.
  - intros [[[[-> _] _] H1] H2]. split; [reflexivity|]. exists s, e. auto.
  - intros [[= ->] (s' & e' & [= <-] & [= <-] & H1 & H2)]. auto.
Qed.

(** The test fails exactly when that proposition does. *)
Lemma matchesLine_false (t : TraceRecord) (filePath : string) (lineNumber : Q) :
  matchesLine filePath lineNumber t = false <->
  ~ (source_file t = Some filePath /\
     exists s e, source_line_start t = Some s /\ source_line_end t = Some e /\
       (Qmax 0 (s - 2) <= lineNumber)%Q /\ (lineNumber <= e - 1)%Q).
Proof. rewrite <- matchesLine_iff. now destruct (matchesLine filePath lineNumber t). Qed.

(** C1. A record matches a file and a line exactly when its source file is
    that file, both line bounds are set, and the line lies between
    [max 0 (start - 2)] and [end - 1]. A record of lines 10 to 12 matches the
    lines 8 to 11 and no other; a record that starts at line 1 matches line 0
    when it ends at line 1 or later, and no line below 0. *)
Theorem line_correlation_matching (t : TraceRecord) (filePath : string) (lineNumber : Q) :
  (matchesLine filePath lineNumber t = true <->
     source_file t = Some filePath /\
     exists s e, source_line_start t = Some s /\ source_line_end t = Some e /\
       (Qmax 0 (s - 2) <= lineNumber)%Q /\ (lineNumber <= e - 1)%Q)
  /\ (source_file t = Some filePath ->
      source_line_start t = Some 10%Q -> source_line_end t = Some 12%Q ->
      matchesLine filePath 8 t = true /\ matchesLine filePath 9 t = true
      /\ matchesLine filePath 10 t = true /\ matchesLine filePath 11 t = true
      /\ matchesLine filePath 7 t = false /\ matchesLine filePath 12 t = false
      /\ (matchesLine filePath lineNumber t = true <-> (8 <= lineNumber <= 11)%Q))
  /\ (source_file t = Some filePath -> source_line_start t = Some 1%Q ->
      forall e, source_line_end t = Some e ->
        (matchesLine filePath 0 t = true <-> (1 <= e)%Q)
        /\ ((lineNumber < 0)%Q -> matchesLine filePath lineNumber t = false)).
Proof.
  split; [apply matchesLine_iff|]. split.
  - intros Hf Hs He.
    assert (K : forall n, matchesLine filePath n t
                          = Qle_bool 8 n && Qle_bool n 11).
    { intros n. unfold matchesLine. rewrite Hf, Hs, He. cbn [strictEq notNull toNumber default].
      rewrite String.eqb_refl. reflexivity. }
    rewrite !K. do 6 (split; [reflexivity|]).
    now rewrite andb_true_iff, !Qle_bool_iff.
  - intros Hf Hs e He.
    assert (K : forall n, matchesLine filePath n t
                          = Qle_bool 0 n && Qle_bool n (e - 1)).
    { intros n. unfold matchesLine. rewrite Hf, Hs, He. cbn [strictEq notNull toNumber default].
      rewrite String.eqb_refl. reflexivity. }
    rewrite !K. split.
    + rewrite andb_true_iff, !Qle_bool_iff. split; [intros [_ H]; lra | intros H; split; lra].
    + intros H. apply andb_false_iff. left.
      destruct (Qle_bool 0 lineNumber) eqn:E; [|reflexivity].
      apply Qle_bool_iff in E. lra.
Qed.

(** The theorem on a call of lines 10 to 12 and on a call of lines 1 to 3. *)
Lemma line_correlation_matching_witness :
  let t := Sample.call "a" "f" (Some Sample.sourcePath) (Some 10%Q) (Some 12%Q) (Some 2%Q) in
  let u := Sample.call "b" "g" (Some Sample.sourcePath) (Some 1%Q) (Some 3%Q) (Some 3%Q) in
  (matchesLine Sample.sourcePath 8 t = true /\ matchesLine Sample.sourcePath 11 t = true
   /\ matchesLine Sample.sourcePath 7 t = false /\ matchesLine Sample.sourcePath 12 t = false)
  /\ matchesLine Sample.sourcePath 0 u = true.
Proof.
  cbv zeta. split.
  - destruct (line_correlation_matching
                (Sample.call "a" "f" (Some Sample.sourcePath) (Some 10%Q) (Some 12%Q) (Some 2%Q))
                Sample.sourcePath 0) as (_ & H & _).
    destruct (H eq_refl eq_refl eq_refl) as (H8 & _ & _ & H11 & H7 & H12 & _).
    repeat split; assumption.
  - destruct (line_correlation_matching
                (Sample.call "b" "g" (Some Sample.sourcePath) (Some 1%Q) (Some 3%Q) (Some 3%Q))
                Sample.sourcePath 0) as (_ & _ & H).
    apply (H eq_refl eq_refl 3%Q eq_refl). discriminate.
Defined.

(** ** Record normaliser *)

(** A completion that [returns] is a [Returns]. *)
Lemma returns_inv {A : Type} (c : completion A) :
  returns c = true -> exists a, c = Returns a.
Proof. destruct c; [eauto | discriminate | discriminate]. Qed.

(** The [function] of a record the normaliser returned, by the two tests of
    its first lines. *)
Lemma normaliseTrace_fnName (raw : json) (t : TraceRecord) :
  normaliseTrace raw = Returns t ->
  if negb (truthyProp (nullish (property raw "function"))) && truthyProp (property raw "op_name")
  then exists o, property raw "op_name" = Some (JStr o) /\ function t = deriveFromOpName o
  else (nullish (property raw "function") = None /\ function t = "(unknown)")
       \/ nullish (property raw "function") = Some (JStr (function t)).
Proof.
  intros H. unfold normaliseTrace in H.
  destruct raw; [discriminate H| ..].
  all: set (pf := nullish (property _ "function")) in *;
       set (po := property _ "op_name") in *; clearbody pf po.
  all: bind_inv H; injection H as <-; cbn [function]; clear - E E0.
  all: destruct (negb (truthyProp pf) && truthyProp po).
  all: try (destruct po as [[]|]; try discriminate E; injection E as <-;
            injection E0 as <-; eauto; fail).
  all: injection E as <-; destruct pf as [[]|]; try discriminate E0; injection E0 as <-; auto.
Qed.

(** On a line of the declared interface the normaliser returns, unless the
    line is [null]. *)
Lemma normaliseTrace_returns (raw : json) :
  raw <> JNull -> conforms raw = true -> exists t, normaliseTrace raw = Returns t.
Proof.
  intros K C. unfold conforms in C.
  repeat (apply andb_prop in C as [C ?]).
  repeat match goal with H : returns _ = true |- _ => apply returns_inv in H as [? H] end.
  match goal with H : asString (property raw "op_name") = _ |- _ =>
    pose proof H as Ho; unfold asString in Ho end.
  unfold asString in C.
  unfold normaliseTrace. destruct raw; [contradiction| ..].
  all: repeat match goal with H : _ = Returns _ |- _ => rewrite H; clear H end.
  all: set (pf := nullish (property _ "function")) in *;
       set (po := property _ "op_name") in *; clearbody pf po.
  all: destruct pf as [[]|]; try discriminate C;
       destruct po as [[]|]; try discriminate Ho; cbn.
  all: repeat match goal with |- context [truthy ?s] => destruct (truthy s) end; cbn.
  all: eauto.
Qed.

(** No cast throws: a value of another type is carried along as it is. *)
Lemma asString_no_throw v : asString v <> Throws.
Proof. unfold asString. destruct (nullish v) as [[]|]; discriminate. Qed.
Lemma asRequiredString_no_throw v : asRequiredString v <> Throws.
Proof. unfold asRequiredString. destruct v as [[]|]; discriminate. Qed.
Lemma asNumber_no_throw v : asNumber v <> Throws.
Proof. unfold asNumber. destruct (nullish v) as [[]|]; discriminate. Qed.
Lemma asBoolean_no_throw v : asBoolean v <> Throws.
Proof. unfold asBoolean. destruct (nullish v) as [[]|]; discriminate. Qed.
Lemma asError_no_throw v : asError v <> Throws.
Proof.
  unfold asError. destruct (nullish v) as [[| | | | |members]|]; try discriminate.
  destruct (member "type" members) as [[]|]; try discriminate.
  destruct (member "message" members) as [[]|]; try discriminate.
  destruct (member "traceback" members) as [[]|]; discriminate.
Qed.

(** A sequence throws only where one of its steps does. *)
Lemma bind_throws {A B : Type} (c : completion A) (k : A -> completion B) :
  c <> Throws -> (forall a, k a <> Throws) -> bind c k <> Throws.
Proof. intros Hc Hk. destruct c; cbn; [apply Hk|contradiction|discriminate]. Qed.

(** When the normaliser throws: on [null], whose properties cannot be
    read, and on a value without a truthy [function] whose truthy [op_name]
    is no string, so that it has no [split]. *)
Lemma normaliseTrace_throws (raw : json) :
  normaliseTrace raw = Throws
  <-> raw = JNull
      \/ (truthyProp (nullish (property raw "function")) = false
          /\ truthyProp (property raw "op_name") = true
          /\ forall o, property raw "op_name" <> Some (JStr o)).
Proof.
  destruct raw; [split; [now left|reflexivity]| ..].
  all: unfold normaliseTrace.
  all: match goal with |- bind ?c ?k = Throws <-> _ =>
         assert (R : forall a, k a <> Throws);
         [intros fnName;
          repeat (apply bind_throws;
                  [first [apply asString_no_throw | apply asRequiredString_no_throw
                         | apply asNumber_no_throw | apply asBoolean_no_throw
                         | apply asError_no_throw | now destruct fnName as [[]|]]
                  | intros ?]);
          discriminate
         | revert R; generalize k; intros k' R]
       end.
  all: destruct (truthyProp (nullish (property _ "function"))) eqn:F;
       destruct (truthyProp (property _ "op_name")) eqn:O; cbn [negb andb].
  all: try (split; [intros H; cbn [bind] in H; now apply R in H
                   | intros [K|(F' & O' & _)]; [discriminate K|congruence]]).
  all: destruct (property _ "op_name") as [[]|] eqn:Eo; cbn [bind].
  all: split;
       [intros H; first [now apply R in H
                        | right; repeat split; try assumption; intros o; discriminate]
       | intros [K|(_ & _ & N)]; [discriminate K|]; first [reflexivity | now edestruct N]].
Qed.

(** [pop] gives the last element. *)
Lemma pop_last {A : Type} (l : list A) (x : A) : pop (l ++ [x])%list = Some x.
Proof. unfold pop. rewrite map_app. cbn. apply last_last. Qed.

(** The derived name is the first [:]-separated part of the last
    [/]-separated segment; the two fallbacks of the source expression are
    never taken. *)
Lemma deriveFromOpName_segments (opName : string) :
  exists before segment after,
    split "/" opName = (before ++ [segment])%list
    /\ split ":" segment = deriveFromOpName opName :: after.
Proof.
  destruct (exists_last (split_nonempty "/" opName)) as (before & segment & E).
  unfold deriveFromOpName. rewrite E, pop_last.
  destruct (split ":" segment) as [|name after] eqn:E'; [now apply split_nonempty in E'|].
  exists before, segment, after. now rewrite E'.
Qed.

(** The record keeps the timestamp of the line, or none. *)
Lemma normaliseTrace_timestamp (raw : json) (t : TraceRecord) :
  normaliseTrace raw = Returns t ->
  asNumber (property raw "timestamp_start") = Returns (timestamp_start t).
Proof.
  intros H. unfold normaliseTrace in H.
  destruct raw; [discriminate H| ..].
  all: bind_inv H; injection H as <-; cbn [timestamp_start]; first [assumption | reflexivity].
Qed.

(** C2, as the code has it. For every parsed line but [null] that conforms
    to the declared interface the normaliser returns a record whose
    [function] is the raw [function] field when that is a non-empty string;
    else, when [op_name] is a non-empty string, the first [:]-separated part
    of the last [/]-separated segment of [op_name]; else, when the
    [function] field is absent or [null], the literal [(unknown)]. *)
Theorem function_name_normalisation (raw : json) :
  raw <> JNull -> conforms raw = true ->
  exists t,
    normaliseTrace raw = Returns t
    /\ (forall f, property raw "function" = Some (JStr f) -> f <> "" -> function t = f)
    /\ (forall o, truthyProp (nullish (property raw "function")) = false ->
                  property raw "op_name" = Some (JStr o) -> o <> "" ->
                  function t = deriveFromOpName o
                  /\ exists before segment after,
                       split "/" o = (before ++ [segment])%list
                       /\ split ":" segment = function t :: after)
    /\ (nullish (property raw "function") = None ->
        truthyProp (property raw "op_name") = false -> function t = "(unknown)")
    /\ deriveFromOpName "proj/op/compute_thing:abcd" = "compute_thing".
Proof.
  intros K C. destruct (normaliseTrace_returns raw K C) as [t E]. exists t.
  pose proof (normaliseTrace_fnName raw t E) as F.
  split; [exact E|]. repeat split.
  - intros f Hf Nf. rewrite Hf in F. cbn in F.
    destruct f; [contradiction|]. cbn in F. destruct F as [[[=] _]|[= <-]]. reflexivity.
  - rewrite H, H0 in F. cbn in F. destruct o; [contradiction|]. cbn in F.
    destruct F as (o' & [= <-] & ->). reflexivity.
  - rewrite H, H0 in F. cbn in F. destruct o; [contradiction|]. cbn in F.
    destruct F as (o' & [= <-] & ->). apply deriveFromOpName_segments.
  - intros Hf Ho. rewrite Hf, Ho in F. cbn in F. destruct F as [[_ F]|[=]]. exact F.
Qed.

(** The theorem at the line of the specification: a record with only an
    [op_name]. *)
Lemma function_name_normalisation_witness :
  exists t,
    normaliseTrace (JObj [("call_id", JStr "c1"); ("op_name", JStr "proj/op/compute_thing:abcd")])
    = Returns t
    /\ function t = "compute_thing".
Proof.
  destruct (function_name_normalisation
              (JObj [("call_id", JStr "c1"); ("op_name", JStr "proj/op/compute_thing:abcd")]))
    as (t & E & _ & D & _); [discriminate | reflexivity |].
  exists t. split; [exact E|].
  now destruct (D "proj/op/compute_thing:abcd" eq_refl eq_refl) as [-> _].
Defined.

(** C2 as the claim words it fails on a [function] field that is present and
    empty: with an [op_name] beside it the record is named after the
    [op_name], not after the field; and an [op_name] that is present and
    empty names nothing. *)
Lemma empty_function_not_preserved :
  (exists t,
     normaliseTrace (JObj [("call_id", JStr "c1"); ("function", JStr "");
                           ("op_name", JStr "proj/op/compute_thing:abcd")]) = Returns t
     /\ function t = "compute_thing" /\ function t <> "")
  /\ (exists t,
        normaliseTrace (JObj [("call_id", JStr "c1"); ("op_name", JStr "")]) = Returns t
        /\ function t = "(unknown)" /\ function t <> deriveFromOpName "").
Proof.
  split; eexists; (split; [reflexivity|]); split; (reflexivity || discriminate).
Qed.

(** C10, as the code has it. When the raw [function] field is falsy (absent,
    [null], empty, zero or false) and the normaliser returns a record, the
    record is named after [op_name] when that is a non-empty string,
    whatever the [function] field held; and a [function] field that is
    absent or [null] beside a falsy [op_name] gives [(unknown)]. *)
Theorem falsy_function_uses_op_name (raw : json) (t : TraceRecord) :
  normaliseTrace raw = Returns t ->
  truthyProp (nullish (property raw "function")) = false ->
  (forall o, property raw "op_name" = Some (JStr o) -> o <> "" ->
             function t = deriveFromOpName o)
  /\ (nullish (property raw "function") = None ->
      truthyProp (property raw "op_name") = false -> function t = "(unknown)").
Proof.
  intros E Ff. pose proof (normaliseTrace_fnName raw t E) as F. rewrite Ff in F. split.
  - intros o Ho No. rewrite Ho in F. cbn in F. destruct o; [contradiction|]. cbn in F.
    destruct F as (o' & [= <-] & ->). reflexivity.
  - intros Hf Ho. rewrite Ho in F. cbn in F. destruct F as [[_ F]|F]; [exact F|congruence].
Qed.

(** The theorem at a line whose [function] is the empty string. *)
Lemma falsy_function_uses_op_name_witness :
  exists t,
    normaliseTrace (JObj [("call_id", JStr "c1"); ("function", JStr "");
                          ("op_name", JStr "proj/op/compute_thing:abcd")]) = Returns t
    /\ function t = "compute_thing".
Proof.
  eexists. split; [reflexivity|].
  refine (proj1 (falsy_function_uses_op_name
                   (JObj [("call_id", JStr "c1"); ("function", JStr "");
                          ("op_name", JStr "proj/op/compute_thing:abcd")]) _ eq_refl eq_refl)
            "proj/op/compute_thing:abcd" eq_refl _).
  discriminate.
Defined.

(** C10 as the claim words it fails without an [op_name]: the empty
    [function] is kept, it does not become [(unknown)]. *)
Lemma empty_function_kept_without_op_name :
  exists t,
    normaliseTrace (JObj [("call_id", JStr "c1"); ("function", JStr "")]) = Returns t
    /\ function t = "" /\ function t <> "(unknown)".
Proof. eexists. split; [reflexivity|]. split; [reflexivity|discriminate]. Qed.

(** ** Sorting *)

Section SortFacts.

Context {A : Type} (le : A -> A -> bool).

(** Insertion and the sort rearrange, they neither drop nor add. *)
Lemma insertBy_Permutation (x : A) (l : list A) : Permutation (x :: l) (insertBy le x l).
Proof.
  induction l as [|y l IH]; cbn; [reflexivity|].
  destruct (le x y); [reflexivity|].
  rewrite perm_swap. now apply perm_skip.
Qed.

Lemma arraySort_Permutation (l : list A) : Permutation l (arraySort le l).
Proof.
  induction l as [|x l IH]; cbn; [reflexivity|].
  rewrite <- insertBy_Permutation. now apply perm_skip.
Qed.

(** What the sort keeps in place: the elements of a class [p] whose members
    may all stay before one another come out in the order they went in. *)
Lemma insertBy_filter (p : A -> bool) (x : A) (l : list A) :
  (forall y, p x = true -> p y = true -> le x y = true) ->
  List.filter p (insertBy le x l) = List.filter p (x :: l).
Proof.
  intros Hp. induction l as [|y l IH]; [reflexivity|].
  cbn [insertBy]. destruct (le x y) eqn:E; [reflexivity|].
  cbn [List.filter] in *. rewrite IH.
  destruct (p x) eqn:Px; [|reflexivity].
  destruct (p y) eqn:Py; [|reflexivity].
  rewrite (Hp y eq_refl Py) in E. discriminate.
Qed.

(** The sort keeps every class of equals in the order of the input. *)
Lemma arraySort_stable (p : A -> bool) (l : list A) :
  (forall x y, p x = true -> p y = true -> le x y = true) ->
  List.filter p (arraySort le l) = List.filter p l.
Proof.
  intros Hp. induction l as [|x l IH]; [reflexivity|].
  cbn [arraySort fold_right]. rewrite insertBy_filter by (intros; now apply Hp).
  cbn [List.filter]. fold (arraySort le l). now rewrite IH.
Qed.

Hypothesis le_total : forall a b, le a b = true \/ le b a = true.
Hypothesis le_trans : forall a b c, le a b = true -> le b c = true -> le a c = true.

(** For a total and transitive order the result is sorted. *)
Lemma insertBy_sorted (x : A) (l : list A) :
  StronglySorted (fun a b => le a b = true) l ->
  StronglySorted (fun a b => le a b = true) (insertBy le x l).
Proof using le_total le_trans.
  induction 1 as [|y l Hl IH Hy]; cbn.
  - repeat constructor.
  - destruct (le x y) eqn:E.
    + constructor; [now constructor|]. constructor; [exact E|].
      eapply Forall_impl; [exact Hy|]. intros z. now apply le_trans.
    + constructor; [exact IH|].
      rewrite <- insertBy_Permutation. constructor; [|exact Hy].
      destruct (le_total x y); congruence.
Qed.

Lemma arraySort_sorted (l : list A) :
  StronglySorted (fun a b => le a b = true) (arraySort le l).
Proof using le_total le_trans.
  induction l; cbn; [constructor | now apply insertBy_sorted].
Qed.

(** The stable sort is determined: two sorted arrangements of the same
    elements that keep every class of equals in the same order are equal. *)
Lemma stable_sorted_unique (l1 l2 : list A) :
  StronglySorted (fun a b => le a b = true) l1 ->
  StronglySorted (fun a b => le a b = true) l2 ->
  Permutation l1 l2 ->
  (forall x, List.filter (fun y => le x y && le y x) l1
             = List.filter (fun y => le x y && le y x) l2) ->
  l1 = l2.
Proof using le_total le_trans.
  intros S1. revert l2. induction S1 as [|a l1 S1 IH Ha]; intros l2 S2 P F.
  - now apply Permutation_nil in P.
  - destruct S2 as [|b l2 S2 Hb]; [now apply Permutation_sym, Permutation_nil in P|].
    assert (Raa : le a a = true) by (destruct (le_total a a); assumption).
    assert (Rbb : le b b = true) by (destruct (le_total b b); assumption).
    assert (Hab : le a b = true).
    { assert (I : In b (a :: l1)) by (eapply Permutation_in; [symmetry; exact P|now left]).
      destruct I as [->|I]; [exact Rbb|]. rewrite Forall_forall in Ha. now apply Ha, list_elem_of_In. }
    assert (Hba : le b a = true).
    { assert (I : In a (b :: l2)) by (eapply Permutation_in; [exact P|now left]).
      destruct I as [->|I]; [exact Raa|]. rewrite Forall_forall in Hb. now apply Hb, list_elem_of_In. }
    pose proof (F a) as Fa. cbn [List.filter] in Fa. rewrite Raa, Hab, Hba in Fa.
    cbn in Fa. injection Fa as <- Fa.
    f_equal. apply IH; [exact S2|now apply Permutation_cons_inv in P|].
    intros x. pose proof (F x) as Fx. cbn [List.filter] in Fx.
    destruct (le x a && le a x); [now injection Fx|exact Fx].
Qed.

(** So [arraySort] is the stable sort: whatever sorted permutation keeps
    the classes of equals in place is its result. *)
Lemma arraySort_unique (l l' : list A) :
  StronglySorted (fun a b => le a b = true) l' ->
  Permutation l l' ->
  (forall x, List.filter (fun y => le x y && le y x) l'
             = List.filter (fun y => le x y && le y x) l) ->
  l' = arraySort le l.
Proof using le_total le_trans.
  intros S P F. apply stable_sorted_unique; [exact S|apply arraySort_sorted| |].
  - now rewrite <- P, <- arraySort_Permutation.
  - intros x. rewrite F. symmetry. apply arraySort_stable.
    intros y z Hy Hz. apply andb_prop in Hy as [_ Hy], Hz as [Hz _]. now apply (le_trans y x z).
Qed.

End SortFacts.

(** Sortedness carries over to a weaker relation. *)
Lemma StronglySorted_weaken {A : Type} (R R' : A -> A -> Prop) (l : list A) :
  (forall a b, R a b -> R' a b) -> StronglySorted R l -> StronglySorted R' l.
Proof.
  intros HR. induction 1 as [|a l S IH Ha]; constructor; [exact IH|].
  eapply Forall_impl; [exact Ha|]. intros b. apply HR.
Qed.

(** [x || 0] is [x], and [0] when [x] is missing. *)
Lemma orZero_default (x : option Q) : (orZero x == default 0 x)%Q.
Proof.
  destruct x as [n|]; cbn; [|reflexivity].
  destruct (Qeq_bool n 0) eqn:E; [|reflexivity].
  apply Qeq_bool_iff in E. now rewrite E.
Qed.

(** The comparator lets [a] stay before [b] exactly when the timestamp of
    [a], or 0, is at most that of [b], or 0. *)
Lemma byTimestamp_le (a b : TraceRecord) :
  Qle_bool (byTimestamp a b) 0 = true <->
  (default 0 (timestamp_start a) <= default 0 (timestamp_start b))%Q.
Proof.
  unfold byTimestamp. rewrite Qle_bool_iff, !orZero_default. split; intros; lra.
Qed.

(** Sorting by the comparator sorts by timestamp. *)
Lemma sortWith_byTimestamp_sorted (l : list TraceRecord) :
  StronglySorted
    (fun a b => (default 0 (timestamp_start a) <= default 0 (timestamp_start b))%Q)
    (sortWith byTimestamp l).
Proof.
  unfold sortWith.
  eapply StronglySorted_weaken; [|apply arraySort_sorted].
  - intros a b. apply byTimestamp_le.
  - intros a b. rewrite !byTimestamp_le.
    destruct (Qlt_le_dec (default 0%Q (timestamp_start a)) (default 0%Q (timestamp_start b)));
      [left|right]; lra.
  - intros a b c. rewrite !byTimestamp_le. lra.
Qed.

(** Sorting by the comparator keeps records of one timestamp in place. *)
Lemma sortWith_byTimestamp_stable (k : Q) (l : list TraceRecord) :
  List.filter (fun t => Qeq_bool (default 0%Q (timestamp_start t)) k) (sortWith byTimestamp l)
  = List.filter (fun t => Qeq_bool (default 0%Q (timestamp_start t)) k) l.
Proof.
  apply arraySort_stable. intros x y Hx Hy.
  apply Qeq_bool_iff in Hx, Hy. apply byTimestamp_le. lra.
Qed.

(** ** Run loader *)

(** In the model the loop appends the records of the lines, in the order of
    the lines. *)
Lemma pushLines_records (h : Host) (lines : list string) :
  linesInModel h lines = true ->
  forall traces, pushLines h lines traces = Some (traces ++ omap (lineRecord h) lines)%list.
Proof.
  induction lines as [|line rest IH]; intros M traces.
  - cbn. now rewrite app_nil_r.
  - cbn [linesInModel forallb] in M. apply andb_prop in M as [M1 M2].
    fold (linesInModel h rest) in M2. specialize (IH M2).
    cbn [pushLines omap list_omap]. unfold lineRecord.
    destruct (negb (truthy (trim line))); [apply IH|]. cbn [orb] in M1.
    destruct (JSON_parse h (trim line)) as [raw|]; [|apply IH].
    destruct (normaliseTrace raw) as [t| |]; [|apply IH|discriminate M1].
    rewrite IH, <- app_assoc. reflexivity.
Qed.

(** The loader sorts the records of the file. *)
Lemma loadTracesFromFile_records (h : Host) (filePath : string) :
  linesInModel h (fileLines h filePath) = true ->
  loadTracesFromFile h filePath = Some (sortWith byTimestamp (fileRecords h filePath)).
Proof.
  unfold loadTracesFromFile, fileRecords, fileLines.
  destruct (existsSync h filePath); cbn [negb]; [|reflexivity].
  destruct (readFileSync h filePath) as [content|]; [|reflexivity].
  intros M. now rewrite (pushLines_records h _ M).
Qed.

Section ArraySortId.
Context {A : Type} (le : A -> A -> bool).
(** Sorting a sorted array changes nothing. *)
Lemma arraySort_sorted_id (l : list A) :
  StronglySorted (fun a b => le a b = true) l -> arraySort le l = l.
Proof.
  induction 1 as [|x l S IH Hx]; [reflexivity|].
  cbn [arraySort fold_right]. fold (arraySort le l). rewrite IH.
  destruct Hx as [|y l' Hy _]; [reflexivity|]. cbn. now rewrite Hy.
Qed.
End ArraySortId.

(** There are as many records as lines that have one. *)
Lemma omap_length_filter {A B : Type} (f : A -> option B) (l : list A) :
  List.length (omap f l) = List.length (List.filter (fun x => bool_decide (is_Some (f x))) l).
Proof.
  induction l as [|x l IH]; [reflexivity|]. cbn.
  destruct (f x) as [y|]; cbn; [now rewrite IH|exact IH].
Qed.

(** C3. For every log file that stays in the model the loader returns
    its records sorted by non-decreasing [timestamp_start], a missing
    timestamp counting as 0; records with equal timestamps keep the order of
    the file; and the records returned are those the normaliser built, so a
    record without a timestamp still has none. *)
Theorem loader_ordering (h : Host) (filePath : string) :
  linesInModel h (fileLines h filePath) = true ->
  exists traces,
    loadTracesFromFile h filePath = Some traces
    /\ StronglySorted
         (fun a b => (default 0 (timestamp_start a) <= default 0 (timestamp_start b))%Q)
         traces
    /\ (forall k,
          List.filter (fun t => Qeq_bool (default 0%Q (timestamp_start t)) k) traces
          = List.filter (fun t => Qeq_bool (default 0%Q (timestamp_start t)) k)
              (fileRecords h filePath))
    /\ Permutation (fileRecords h filePath) traces
    /\ (forall raw t, normaliseTrace raw = Returns t ->
                      nullish (property raw "timestamp_start") = None ->
                      timestamp_start t = None).
Proof.
  intros M. exists (sortWith byTimestamp (fileRecords h filePath)).
  split; [now apply loadTracesFromFile_records|].
  split; [apply sortWith_byTimestamp_sorted|].
  split; [intros k; apply sortWith_byTimestamp_stable|].
  split; [apply arraySort_Permutation|].
  intros raw t E N. apply normaliseTrace_timestamp in E.
  unfold asNumber in E. rewrite N in E. now injection E.
Qed.

(** The theorem on a log whose second call has no timestamp and whose
    first and last calls have the same one. *)
Lemma loader_ordering_witness :
  exists traces,
    loadTracesFromFile (Sample.host Sample.orderingLog) Sample.logPath = Some traces
    /\ map call_id traces = ["b"; "c"; "a"; "d"]
    /\ map timestamp_start traces = [None; Some 1%Q; Some 2%Q; Some 2%Q].
Proof.
  destruct (loader_ordering (Sample.host Sample.orderingLog) Sample.logPath)
    as (traces & E & _); [vm_compute; reflexivity|].
  exists traces. split; [exact E|].
  vm_compute in E. injection E as <-. split; reflexivity.
Defined.

(** A line without a record can be taken away. *)
Lemma omap_skip {A B : Type} (f : A -> option B) (before after : list A) (bad : A) :
  f bad = None -> omap f (before ++ bad :: after)%list = omap f (before ++ after)%list.
Proof. intros H. rewrite !omap_app. cbn. now rewrite H. Qed.

(** What one line of a file that stays in the model contributes: nothing
    exactly when it is blank, does not parse, or makes the normaliser
    throw. *)
Lemma lineRecord_None (h : Host) (line : string) :
  linesInModel h [line] = true ->
  (lineRecord h line = None
   <-> truthy (trim line) = false
       \/ JSON_parse h (trim line) = None
       \/ exists raw, JSON_parse h (trim line) = Some raw /\ normaliseTrace raw = Throws).
Proof.
  unfold linesInModel, lineRecord. cbn [forallb]. rewrite andb_true_r.
  destruct (truthy (trim line)); cbn [negb orb]; [|intros _; split; auto].
  destruct (JSON_parse h (trim line)) as [raw|]; [|intros _; split; auto].
  destruct (normaliseTrace raw) as [t| |] eqn:N; [| |discriminate].
  - intros _. split; [discriminate|].
    intros [K|[K|(raw' & [= <-] & K)]]; congruence.
  - intros _. split; [|reflexivity]. intros _. right. right. eauto.
Qed.

(** C4, as the code has it. A missing file and a file whose read fails
    load as the empty sequence. A line that is blank, a line that does not
    parse, a line that parses to [null] and a line that parses to a value
    without a truthy [function] whose truthy [op_name] is no string
    contribute nothing, and among the lines that stay in the model these are
    the only ones; a line that is not blank and parses to a value of the
    declared interface, other than [null], contributes its record. So the
    loader returns the records of the remaining lines, as many as there are
    such lines, sorted by time: in the order of the file when that order is
    chronological, and taking a line without a record away changes
    nothing. *)
Theorem loader_error_handling (h : Host) (filePath : string) :
  (existsSync h filePath = false -> loadTracesFromFile h filePath = Some [])
  /\ (readFileSync h filePath = None -> loadTracesFromFile h filePath = Some [])
  /\ (forall line, truthy (trim line) = false -> lineRecord h line = None)
  /\ (forall line, JSON_parse h (trim line) = None -> lineRecord h line = None)
  /\ (forall line, JSON_parse h (trim line) = Some JNull -> lineRecord h line = None)
  /\ (forall line raw,
        JSON_parse h (trim line) = Some raw ->
        truthyProp (nullish (property raw "function")) = false ->
        truthyProp (property raw "op_name") = true ->
        (forall o, property raw "op_name" <> Some (JStr o)) ->
        lineRecord h line = None)
  /\ (forall line,
        linesInModel h [line] = true ->
        (lineRecord h line = None
         <-> truthy (trim line) = false
             \/ JSON_parse h (trim line) = None
             \/ JSON_parse h (trim line) = Some JNull
             \/ exists raw,
                  JSON_parse h (trim line) = Some raw
                  /\ truthyProp (nullish (property raw "function")) = false
                  /\ truthyProp (property raw "op_name") = true
                  /\ forall o, property raw "op_name" <> Some (JStr o)))
  /\ (forall line raw,
        truthy (trim line) = true -> JSON_parse h (trim line) = Some raw ->
        raw <> JNull -> conforms raw = true ->
        exists t, normaliseTrace raw = Returns t /\ lineRecord h line = Some t)
  /\ (linesInModel h (fileLines h filePath) = true ->
      loadTracesFromFile h filePath = Some (sortWith byTimestamp (fileRecords h filePath))
      /\ List.length (sortWith byTimestamp (fileRecords h filePath))
         = List.length
             (List.filter (fun line => bool_decide (is_Some (lineRecord h line)))
                (fileLines h filePath))
      /\ (StronglySorted
            (fun a b => (default 0 (timestamp_start a) <= default 0 (timestamp_start b))%Q)
            (fileRecords h filePath) ->
          sortWith byTimestamp (fileRecords h filePath) = fileRecords h filePath))
  /\ (forall before bad after,
        lineRecord h bad = None ->
        omap (lineRecord h) (before ++ bad :: after)%list
        = omap (lineRecord h) (before ++ after)%list)
  /\ (forall a b c bad ta tb tc,
        lineRecord h a = Some ta -> lineRecord h b = Some tb -> lineRecord h c = Some tc ->
        lineRecord h bad = None ->
        omap (lineRecord h) [a; bad; b; c] = [ta; tb; tc]
        /\ omap (lineRecord h) [a; b; bad; c] = [ta; tb; tc]).
Proof.
  split; [|split; [|split; [|split; [|split; [|split; [|split; [|split; [|split;
    [|split]]]]]]]]].
  - intros E. unfold loadTracesFromFile. now rewrite E.
  - intros E. unfold loadTracesFromFile. rewrite E. now destruct (existsSync h filePath).
  - intros line E. unfold lineRecord. now rewrite E.
  - intros line E. unfold lineRecord. rewrite E. now destruct (negb _).
  - intros line E. unfold lineRecord. rewrite E. now destruct (negb _).
  - intros line raw E F O N. unfold lineRecord. rewrite E.
    assert (T : normaliseTrace raw = Throws) by (apply normaliseTrace_throws; auto).
    rewrite T. now destruct (negb _).
  - intros line M. rewrite (lineRecord_None h line M). split.
    + intros [K|[K|(raw & E & T)]]; [auto|auto|].
      apply normaliseTrace_throws in T as [->|T]; [auto|]. right. right. right. eauto.
    + intros [K|[K|[K|(raw & E & T)]]]; [auto|auto| |].
      * right. right. exists JNull. split; [exact K|reflexivity].
      * right. right. exists raw. split; [exact E|]. apply normaliseTrace_throws. auto.
  - intros line raw T E K C. destruct (normaliseTrace_returns raw K C) as [t R].
    exists t. split; [exact R|]. unfold lineRecord. now rewrite T, E, R.
  - intros M. split; [now apply loadTracesFromFile_records|]. split.
    + unfold sortWith. rewrite <- (Permutation_length (arraySort_Permutation _ _)).
      apply omap_length_filter.
    + intros S. apply arraySort_sorted_id.
      eapply StronglySorted_weaken; [|exact S]. intros a b. apply byTimestamp_le.
  - intros before bad after. apply omap_skip.
  - intros a b c bad ta tb tc Ea Eb Ec Ebad. cbn. now rewrite Ea, Eb, Ec, Ebad.
Qed.

(** The theorem on a log of three records and a torn line. *)
Lemma loader_error_handling_witness :
  exists traces,
    loadTracesFromFile (Sample.host Sample.tornLog) Sample.logPath = Some traces
    /\ map call_id traces = ["a"; "c"; "d"].
Proof.
  destruct (loader_error_handling (Sample.host Sample.tornLog) Sample.logPath)
    as (_ & _ & _ & _ & _ & _ & _ & _ & L & _).
  destruct (L ltac:(vm_compute; reflexivity)) as (E & _ & _).
  eexists. split; [exact E|]. vm_compute. reflexivity.
Defined.

(** C4 as the claim words it fails on a log of three lines that parse and
    one that does not: the [null] line parses and is not kept, and the two
    records come out in the order of their timestamps, not of the file. *)
Lemma loader_drops_null_and_sorts :
  map (fun line => bool_decide (is_Some (Json.parse (trim line))))
      (fileLines (Sample.host Sample.brokenLog) Sample.logPath)
  = [true; false; true; true]
  /\ map call_id <$> loadTracesFromFile (Sample.host Sample.brokenLog) Sample.logPath
     = Some ["b"; "a"].
Proof. split; vm_compute; reflexivity. Qed.

(** A line that parses and is no [null] is not kept either when its
    [op_name] is a number and it names no function: [opName.split] is no
    function, and the [catch] of the loader takes the error. With its
    function named the same line is outside the declared interface. *)
Example loader_drops_op_name_without_split :
  Json.parse (Json.text "{'call_id':'a','op_name':5}")
  = Some (JObj [("call_id", JStr "a"); ("op_name", JNum 5)])
  /\ normaliseTrace (JObj [("call_id", JStr "a"); ("op_name", JNum 5)]) = Throws
  /\ lineRecord (Sample.host []) (Json.text "{'call_id':'a','op_name':5}") = None
  /\ conforms (JObj [("call_id", JStr "a"); ("op_name", JNum 5)]) = false
  /\ normaliseTrace (JObj [("call_id", JStr "a"); ("function", JStr "f"); ("op_name", JNum 5)])
     = Foreign.
Proof. repeat split; vm_compute; reflexivity. Qed.

(** ** Hover *)

(** Lengths of appended strings and of substrings. *)
Lemma length_append (a b : string) :
  String.length (a +:+ b) = (String.length a + String.length b)%nat.
Proof.
  induction a as [|c a IH]; [reflexivity|].
  change (S (String.length (a +:+ b)) = S (String.length a + String.length b)).
  now rewrite IH.
Qed.

Lemma length_substring (s : string) :
  forall n m, String.length (substring n m s) = Nat.min m (String.length s - n).
Proof.
  induction s as [|c s IH]; intros [|n] [|m]; cbn; try reflexivity.
  - now rewrite IH, Nat.sub_0_r.
  - apply IH.
  - apply IH.
Qed.

(** The cap: at most 1003 characters, the text itself up to 1000. *)
Lemma capped_spec (text : string) :
  (String.length (TraceHoverProvider.capped text) <= 1003)%nat
  /\ ((1000 < String.length text)%nat ->
      TraceHoverProvider.capped text = slice 0 1000 text +:+ "..."
      /\ String.length (TraceHoverProvider.capped text) = 1003%nat)
  /\ ((String.length text <= 1000)%nat -> TraceHoverProvider.capped text = text).
Proof.
  unfold TraceHoverProvider.capped.
  destruct (Nat.ltb_spec 1000 (String.length text)) as [L|L].
  - assert (E : String.length (slice 0 1000 text +:+ "...") = 1003%nat).
    { rewrite length_append. unfold slice. rewrite length_substring. cbn [String.length]. lia. }
    rewrite E. repeat split; lia.
  - repeat split; lia.
Qed.

(** C7, as the code has it. The inputs text and the output text of a hover
    block are shown whole up to 1000 characters; a longer text is cut to its
    first 1000 characters followed by the three-character marker [...], so
    the text shown has 1003 characters then, and never more. *)
Theorem hover_truncation_bound (h : Host) (t : TraceRecord) :
  let bounded (payload shown : string) :=
    (String.length shown <= 1003)%nat
    /\ ((1000 < String.length payload)%nat ->
        shown = slice 0 1000 payload +:+ "..." /\ String.length shown = 1003%nat)
    /\ ((String.length payload <= 1000)%nat -> shown = payload) in
  bounded (JSON_stringify h (inputs t)) (TraceHoverProvider.cappedInputs h t)
  /\ bounded (JSON_stringify h (output t)) (TraceHoverProvider.cappedOutput h t).
Proof. split; apply capped_spec. Qed.

(** The theorem on an input of a thousand characters. *)
Lemma hover_truncation_bound_witness :
  TraceHoverProvider.cappedInputs (Sample.host []) Sample.longInput
  = slice 0 1000 (JSON_stringify (Sample.host []) (inputs Sample.longInput)) +:+ "..."
  /\ String.length (TraceHoverProvider.cappedInputs (Sample.host []) Sample.longInput)
     = 1003%nat.
Proof.
  destruct (hover_truncation_bound (Sample.host []) Sample.longInput) as [(_ & L & _) _].
  apply L. apply Nat.ltb_lt. vm_compute. reflexivity.
Defined.

(** C7 as the claim words it fails on an input of a thousand characters:
    its serialisation is longer than 1000 and is shown in 1003 characters,
    more than 1001. *)
Lemma hover_payload_exceeds_1001 :
  let h := Sample.host [] in
  (1000 < String.length (JSON_stringify h (inputs Sample.longInput)))%nat
  /\ String.length (TraceHoverProvider.cappedInputs h Sample.longInput) = 1003%nat
  /\ ~ (String.length (TraceHoverProvider.cappedInputs h Sample.longInput) <= 1001)%nat.
Proof.
  assert (E : String.length (TraceHoverProvider.cappedInputs (Sample.host []) Sample.longInput) = 1003%nat)
    by (vm_compute; reflexivity).
  cbv zeta. rewrite E. split; [|split; [reflexivity|lia]].
  apply Nat.ltb_lt. vm_compute. reflexivity.
Qed.

(** ** Event router *)

(** The fields the selection sets. *)
Lemma selectTrace_store (h : Host) (item : TraceCallItem) (s s' : Session) :
  selectTrace h item s = Some s' ->
  activeRunId (store s') = Some (runId item)
  /\ selectedCallId (store s') = Some (call_id (trace item))
  /\ focusedFn (store s') = Some (function (trace item))
  /\ suppressCursorFilter (store s') = true
  /\ highlightActive (store s') = true.
Proof.
  unfold selectTrace. intros H.
  destruct (getRunsDir h) as [runsDir|].
  - destruct (truthy runsDir && negb _).
    + destruct (loadTracesFromFile h _); [|discriminate H].
      injection H as <-. cbn. auto.
    + injection H as <-. cbn. auto.
  - injection H as <-. cbn. auto.
Qed.

(** The selection completes when the file of the run stays in the model. *)
Lemma selectTrace_in_model (h : Host) (item : TraceCallItem) (s : Session) :
  runInModel h (runId item) = true -> exists s', selectTrace h item s = Some s'.
Proof.
  unfold runInModel, selectTrace. destruct (getRunsDir h) as [runsDir|]; [|eauto].
  intros M. destruct (truthy runsDir && negb _); [|eauto].
  rewrite (loadTracesFromFile_records h _ M). eauto.
Qed.

(** The flat list of a store whose active run and focused function are set. *)
Lemma getChildren_focused (st : TraceStore) (run fn : string) :
  activeRunId st = Some run -> focusedFn st = Some fn ->
  truthy run = true -> truthy fn = true ->
  AllTracesProvider.getChildren st
  = map (fun t => {| trace := t; runId := run;
                     selected := strictEq (selectedCallId st) (call_id t) |})
      (List.filter (fun t => String.eqb fn (function t)) (tracesOf st run)).
Proof.
  intros Ha Hf Tr Tf. unfold AllTracesProvider.getChildren.
  rewrite Ha, Hf, Tr. cbn [truthyOpt strictEq]. now rewrite Tf.
Qed.

(** The cache after the selection: the entries of other runs are kept, and
    that of the run is kept when there is one, and else is what the loader
    returns for the file of the run, when there is a runs directory. *)
Lemma selectTrace_cache (h : Host) (item : TraceCallItem) (s s' : Session) :
  selectTrace h item s = Some s' ->
  (forall other, other <> runId item ->
     runTraces (store s') !! other = runTraces (store s) !! other)
  /\ match runTraces (store s) !! runId item, getRunsDir h with
     | Some cached, _ => runTraces (store s') !! runId item = Some cached
     | None, Some runsDir =>
         if truthy runsDir
         then runTraces (store s') !! runId item
              = loadTracesFromFile h (runFile h runsDir (runId item))
         else runTraces (store s') !! runId item = None
     | None, None => runTraces (store s') !! runId item = None
     end.
Proof.
  unfold selectTrace. cbn [runTraces setHighlightActive setSuppressCursorFilter setFocusedFn
                           setSelectedCallId setActiveRunId].
  intros H. destruct (runTraces (store s) !! runId item) as [cached|] eqn:C.
  - assert (E : runTraces (store s') = runTraces (store s)).
    { destruct (getRunsDir h) as [runsDir|]; [|now injection H as <-].
      rewrite bool_decide_true in H by eauto. cbn [negb] in H. rewrite andb_false_r in H.
      now injection H as <-. }
    rewrite E. split; [reflexivity|exact C].
  - destruct (getRunsDir h) as [runsDir|]; [|injection H as <-; split; [reflexivity|exact C]].
    rewrite bool_decide_false in H by (intros [x K]; discriminate K).
    cbn [negb] in H. rewrite andb_true_r in H.
    destruct (truthy runsDir); [|injection H as <-; split; [reflexivity|exact C]].
    destruct (loadTracesFromFile h _) as [traces|]; [|discriminate H].
    injection H as <-. cbn. split; [|apply lookup_insert_eq].
    intros other N. now apply lookup_insert_ne.
Qed.

(** C5, as the code has it. Selecting a call makes its run the active one,
    its id the selected call and its function the focused one, sets the
    suppress flag and enables highlighting. The cache keeps the entries of
    the other runs; the records of the run are those cached before, and for
    a run that was not cached the sorted records of its file, none without a
    runs directory. The flat list then shows the cached calls of that run
    that have the function of the call, in their stored order, each marked
    as selected exactly when it has the id of the call: the call itself is
    listed, marked, whenever it was among the records cached for the run
    or, the run not being cached, is among the records of the file of the
    run, and it is the only item when no other such record has its
    function. *)
Theorem select_call_postcondition (h : Host) (item : TraceCallItem) (s : Session) :
  runInModel h (runId item) = true ->
  exists s',
    selectTrace h item s = Some s'
    /\ activeRunId (store s') = Some (runId item)
    /\ selectedCallId (store s') = Some (call_id (trace item))
    /\ focusedFn (store s') = Some (function (trace item))
    /\ suppressCursorFilter (store s') = true
    /\ highlightActive (store s') = true
    /\ (forall other, other <> runId item ->
          runTraces (store s') !! other = runTraces (store s) !! other)
    /\ tracesOf (store s') (runId item)
       = match runTraces (store s) !! runId item, getRunsDir h with
         | Some cached, _ => cached
         | None, Some runsDir =>
             if truthy runsDir
             then sortWith byTimestamp (fileRecords h (runFile h runsDir (runId item)))
             else []
         | None, None => []
         end
    /\ (truthy (runId item) = true -> truthy (function (trace item)) = true ->
        let listed := AllTracesProvider.getChildren (store s') in
        let sameFunction t := String.eqb (function (trace item)) (function t) in
        let cached := tracesOf (store s') (runId item) in
        let theCall := {| trace := trace item; runId := runId item; selected := true |} in
        map trace listed = List.filter sameFunction cached
        /\ (forall it, In it listed ->
              runId it = runId item
              /\ function (trace it) = function (trace item)
              /\ selected it = String.eqb (call_id (trace item)) (call_id (trace it)))
        /\ (In (trace item) (tracesOf (store s) (runId item)) -> In theCall listed)
        /\ (forall runsDir,
              runTraces (store s) !! runId item = None ->
              getRunsDir h = Some runsDir -> truthy runsDir = true ->
              In (trace item) (fileRecords h (runFile h runsDir (runId item))) ->
              In theCall listed)
        /\ (In (trace item) cached <-> In theCall listed)
        /\ (List.filter sameFunction cached = [trace item] -> listed = [theCall])).
Proof.
  intros M. destruct (selectTrace_in_model h item s M) as [s' E]. exists s'.
  destruct (selectTrace_store h item s s' E) as (Ha & Hs & Hf & Hc & Hh).
  destruct (selectTrace_cache h item s s' E) as [Ho Hr].
  repeat (split; [assumption|]).
  assert (Ht : tracesOf (store s') (runId item)
               = match runTraces (store s) !! runId item, getRunsDir h with
                 | Some cached, _ => cached
                 | None, Some runsDir =>
                     if truthy runsDir
                     then sortWith byTimestamp (fileRecords h (runFile h runsDir (runId item)))
                     else []
                 | None, None => []
                 end).
  { unfold tracesOf. unfold runInModel in M.
    destruct (runTraces (store s) !! runId item) as [cached|]; [now rewrite Hr|].
    destruct (getRunsDir h) as [runsDir|]; [|now rewrite Hr].
    destruct (truthy runsDir); [|now rewrite Hr].
    now rewrite Hr, (loadTracesFromFile_records h _ M). }
  split; [exact Ht|].
  intros Tr Tf. cbv zeta.
  rewrite (getChildren_focused _ _ _ Ha Hf Tr Tf), Hs. cbn [strictEq].
  assert (K : In (trace item) (tracesOf (store s') (runId item)) ->
              In {| trace := trace item; runId := runId item; selected := true |}
                (map (fun t => {| trace := t; runId := runId item;
                                  selected := String.eqb (call_id (trace item)) (call_id t) |})
                   (List.filter (fun t => String.eqb (function (trace item)) (function t))
                      (tracesOf (store s') (runId item))))).
  { intros I. apply in_map_iff. exists (trace item). rewrite String.eqb_refl.
    split; [reflexivity|]. apply filter_In. split; [exact I|apply String.eqb_refl]. }
  split; [|split; [|split; [|split; [|split]]]].
  - rewrite map_map. cbn. apply map_id.
  - intros it I. apply in_map_iff in I as (t & <- & I). cbn.
    apply filter_In in I as [_ I]. apply String.eqb_eq in I. auto.
  - intros I. apply K. rewrite Ht. unfold tracesOf in I.
    destruct (runTraces (store s) !! runId item) as [cached|]; [exact I|destruct I].
  - intros runsDir C D T I. apply K. rewrite Ht, C, D, T.
    unfold sortWith. now apply (Permutation_in _ (arraySort_Permutation _ _)).
  - split; [exact K|]. intros I. apply in_map_iff in I as (t & Q & I).
    injection Q as -> _. now apply filter_In in I as [I _].
  - intros ->. cbn. now rewrite String.eqb_refl.
Qed.

(** The theorem on the log of four calls, for its first line, selected
    before the run was cached: the two calls of [f] are listed in the order
    of their times, the call among them, marked. *)
Lemma select_call_postcondition_witness :
  exists s',
    selectTrace (Sample.host Sample.orderingLog)
      {| trace := Sample.call "a" "f" None None None (Some 2%Q);
         runId := "20240115_143022"; selected := false |} Sample.freshSession = Some s'
    /\ activeRunId (store s') = Some "20240115_143022"
    /\ selectedCallId (store s') = Some "a"
    /\ focusedFn (store s') = Some "f"
    /\ suppressCursorFilter (store s') = true
    /\ highlightActive (store s') = true
    /\ map call_id (tracesOf (store s') "20240115_143022") = ["b"; "c"; "a"; "d"]
    /\ map (fun t => call_id t) (map trace (AllTracesProvider.getChildren (store s')))
       = ["c"; "a"]
    /\ In {| trace := Sample.call "a" "f" None None None (Some 2%Q);
             runId := "20240115_143022"; selected := true |}
         (AllTracesProvider.getChildren (store s')).
Proof.
  destruct (select_call_postcondition (Sample.host Sample.orderingLog)
              {| trace := Sample.call "a" "f" None None None (Some 2%Q);
                 runId := "20240115_143022"; selected := false |} Sample.freshSession)
    as (s' & E & A & B & C & D & F & _ & T & L); [vm_compute; reflexivity|].
  destruct (L eq_refl eq_refl) as (M & _ & _ & I & _).
  exists s'. repeat (split; [assumption|]). split; [|split].
  - cbn [runId trace] in T. rewrite T. vm_compute. reflexivity.
  - cbv zeta in M. cbn [runId trace] in M, T. rewrite M, T. vm_compute. reflexivity.
  - apply (I Sample.runsDir); [reflexivity|reflexivity|reflexivity|].
    vm_compute. left. reflexivity.
Defined.

(** C5 as the claim words it fails when the run has another call of the
    same function: selecting the call [a] of [f] lists the two calls of
    [f], the selected one marked. And the list need not contain the call at
    all: an item of a run that is no longer cached, for a call [x] the file
    of the run does not hold, lists the calls of [f] the file holds,
    none of them marked. *)
Lemma flat_list_keeps_same_function :
  (fun s' => map (fun it => (call_id (trace it), selected it))
               (AllTracesProvider.getChildren (store s')))
    <$> selectTrace (Sample.host Sample.orderingLog)
          {| trace := Sample.call "a" "f" None None None (Some 2%Q);
             runId := "20240115_143022"; selected := false |} Sample.freshSession
  = Some [("c", false); ("a", true)]
  /\ (fun s' => map (fun it => (call_id (trace it), selected it))
                  (AllTracesProvider.getChildren (store s')))
       <$> selectTrace (Sample.host Sample.orderingLog)
             {| trace := Sample.call "x" "f" None None None (Some 5%Q);
                runId := "20240115_143022"; selected := false |} Sample.freshSession
     = Some [("c", false); ("a", false)].
Proof. split; vm_compute; reflexivity. Qed.

(** ** The order of run files *)

(** The order of strings is transitive. *)
Lemma ascii_compare_trans (a b c : ascii) :
  Ascii.compare a b <> Gt -> Ascii.compare b c <> Gt -> Ascii.compare a c <> Gt.
Proof.
  unfold Ascii.compare. rewrite !N.compare_le_iff. lia.
Qed.

Lemma ascii_compare_lt_le (a b c : ascii) :
  Ascii.compare a b = Lt -> Ascii.compare b c <> Gt -> Ascii.compare a c = Lt.
Proof. unfold Ascii.compare. rewrite !N.compare_le_iff, !N.compare_lt_iff. lia. Qed.

Lemma ascii_compare_le_lt (a b c : ascii) :
  Ascii.compare a b <> Gt -> Ascii.compare b c = Lt -> Ascii.compare a c = Lt.
Proof. unfold Ascii.compare. rewrite !N.compare_le_iff, !N.compare_lt_iff. lia. Qed.

Lemma string_compare_trans (s1 : string) :
  forall s2 s3, String.compare s1 s2 <> Gt -> String.compare s2 s3 <> Gt ->
                String.compare s1 s3 <> Gt.
Proof.
  induction s1 as [|a s1 IH]; intros [|b s2] [|c s3]; cbn; try congruence.
  destruct (Ascii.compare a b) eqn:Eab; try congruence;
    destruct (Ascii.compare b c) eqn:Ebc; try congruence; intros H1 H2.
  - apply Ascii.compare_eq_iff in Eab, Ebc. subst. 
    replace (Ascii.compare c c) with Eq by (symmetry; unfold Ascii.compare; apply N.compare_refl).
    now apply (IH s2 s3).
  - apply Ascii.compare_eq_iff in Eab. subst. now rewrite Ebc.
  - apply Ascii.compare_eq_iff in Ebc. subst. now rewrite Eab.
  - rewrite (ascii_compare_lt_le a b c Eab); [discriminate|]. now rewrite Ebc.
Qed.

Lemma string_leb_trans (a b c : string) :
  String.leb a b = true -> String.leb b c = true -> String.leb a c = true.
Proof.
  unfold String.leb. intros H1 H2.
  pose proof (string_compare_trans a b c) as T.
  destruct (String.compare a b); try discriminate H1;
    destruct (String.compare b c); try discriminate H2;
    destruct (String.compare a c); try reflexivity; exfalso; apply T; congruence.
Qed.

(** The last element of a sorted array is above the others. *)
Lemma StronglySorted_last {A : Type} (R : A -> A -> Prop) (l : list A) (x : A) :
  StronglySorted R (l ++ [x])%list -> Forall (fun y => R y x) l.
Proof.
  induction l as [|y l IH]; intros S; [constructor|].
  cbn in S. apply StronglySorted_inv in S as [S Hy].
  constructor; [|now apply IH].
  rewrite Forall_forall in Hy. apply Hy, list_elem_of_In, in_or_app. right. now left.
Qed.

(** The first of [files] is a [.jsonl] name of the directory and no such
    name is greater; there is none exactly when the directory has no such
    name. *)
Lemma runFiles_head (names : list string) :
  match List.head (TraceTreeProvider.runFiles names) with
  | Some first =>
      In first names /\ endsWith ".jsonl" first = true
      /\ forall f, In f names -> endsWith ".jsonl" f = true -> String.leb f first = true
  | None => forall f, In f names -> endsWith ".jsonl" f = false
  end.
Proof.
  unfold TraceTreeProvider.runFiles.
  set (kept := List.filter (endsWith ".jsonl") names).
  pose proof (arraySort_Permutation String.leb kept) as P.
  pose proof (arraySort_sorted String.leb String.leb_total string_leb_trans kept) as S.
  destruct (rev (arraySort String.leb kept)) as [|first rest] eqn:E; cbn [List.head].
  - intros f I. destruct (endsWith ".jsonl" f) eqn:Ef; [|reflexivity].
    assert (K : In f kept) by (apply filter_In; auto).
    apply (Permutation_in _ P) in K.
    apply (f_equal (@rev string)) in E. rewrite rev_involutive in E. rewrite E in K. destruct K.
  - apply (f_equal (@rev string)) in E. rewrite rev_involutive in E. cbn in E.
    rewrite E in P, S.
    assert (I : In first kept).
    { apply (Permutation_in _ (Permutation_sym P)), in_or_app. right. now left. }
    apply filter_In in I as [I1 I2]. repeat split; [exact I1|exact I2|].
    intros f If Ef. assert (K : In f kept) by (apply filter_In; auto).
    apply (Permutation_in _ P), in_app_or in K as [K|[<-|[]]].
    + apply StronglySorted_last in S. rewrite Forall_forall in S. now apply S, list_elem_of_In.
    + destruct (String.leb_total first first); assumption.
Qed.

(** [refresh] changes the active run only, and only when none is active:
    to the latest run. *)
Lemma refresh_active (h : Host) (st : TraceStore) :
  activeRunId (TraceTreeProvider.refresh h st)
  = match activeRunId st with
    | Some run => Some run
    | None => TraceTreeProvider.latestRun h
    end
  /\ runTraces (TraceTreeProvider.refresh h st) = runTraces st
  /\ selectedCallId (TraceTreeProvider.refresh h st) = selectedCallId st
  /\ focusedFn (TraceTreeProvider.refresh h st) = focusedFn st
  /\ suppressCursorFilter (TraceTreeProvider.refresh h st) = suppressCursorFilter st
  /\ highlightActive (TraceTreeProvider.refresh h st) = highlightActive st.
Proof.
  unfold TraceTreeProvider.refresh, TraceTreeProvider.latestRun.
  destruct (getRunsDir h) as [runsDir|]; [|now destruct (activeRunId st)].
  destruct (truthy runsDir); [|now destruct (activeRunId st)].
  destruct (readdirSync h runsDir) as [names|]; [|now destruct (activeRunId st)].
  destruct (TraceTreeProvider.runFiles names) as [|first rest];
    destruct (activeRunId st) eqn:E; cbn; rewrite ?E; repeat split.
Qed.

(** [clearAll] empties the decorations of the editors it is given. *)
Lemma clearAll_empty (editors : list TextEditor) :
  Forall (fun e => highlight e = [] /\ gutter e = []) (DecorationManager.clearAll editors)
  /\ map fsPath (DecorationManager.clearAll editors) = map fsPath editors.
Proof.
  unfold DecorationManager.clearAll. split.
  - apply Forall_forall. intros e I. apply list_elem_of_In, in_map_iff in I as (e' & <- & _). auto.
  - rewrite map_map. reflexivity.
Qed.

(** C6, as the code has it. When the file of the active run disappears,
    the handler drops the cache entry of the run, clears the selected call
    and empties the decorations of every visible editor; it clears the
    active run too, and its refresh of the tree then makes the greatest
    [.jsonl] file of the runs directory the active run. So the active run
    is [null] afterwards exactly when the directory lists no such file. *)
Theorem delete_active_run (h : Host) (uri : string) (s : Session) (run : string) :
  path_basename h uri ".jsonl" = run -> activeRunId (store s) = Some run ->
  let s' := onDidDelete h uri s in
  activeRunId (store s') = TraceTreeProvider.latestRun h
  /\ (activeRunId (store s') = None <->
      forall runsDir names,
        getRunsDir h = Some runsDir -> truthy runsDir = true ->
        readdirSync h runsDir = Some names ->
        forall f, In f names -> endsWith ".jsonl" f = false)
  /\ (forall runsDir names,
        getRunsDir h = Some runsDir -> truthy runsDir = true ->
        readdirSync h runsDir = Some names ->
        forall latest, activeRunId (store s') = Some latest ->
        exists first,
          latest = dropSuffix ".jsonl" first /\ In first names
          /\ endsWith ".jsonl" first = true
          /\ forall f, In f names -> endsWith ".jsonl" f = true -> String.leb f first = true)
  /\ selectedCallId (store s') = None
  /\ runTraces (store s') = delete run (runTraces (store s))
  /\ runTraces (store s') !! run = None
  /\ Forall (fun e => highlight e = [] /\ gutter e = []) (visibleTextEditors s')
  /\ map fsPath (visibleTextEditors s') = map fsPath (visibleTextEditors s).
Proof.
  intros Hb Ha s'. subst s'. unfold onDidDelete. rewrite Hb.
  cbn [activeRunId setRunTraces]. rewrite Ha. cbn [strictEq]. rewrite String.eqb_refl.
  cbn [fst snd store visibleTextEditors].
  destruct (refresh_active h (setSelectedCallId None (setActiveRunId None
              (setRunTraces (delete run (runTraces (store s))) (store s)))))
    as (Ra & Rt & Rs & _).
  rewrite Ra, Rt, Rs. cbn [activeRunId runTraces selectedCallId setSelectedCallId setActiveRunId setRunTraces].
  split; [reflexivity|].
  split; [|split; [|split; [reflexivity|split; [reflexivity|split; [apply lookup_delete_eq|apply clearAll_empty]]]]].
  - unfold TraceTreeProvider.latestRun. split.
    + intros N runsDir names Hd Ht Hr. rewrite Hd, Ht, Hr in N.
      pose proof (runFiles_head names) as F.
      destruct (List.head (TraceTreeProvider.runFiles names)); [discriminate N|exact F].
    + intros N. destruct (getRunsDir h) as [runsDir|]; [|reflexivity].
      destruct (truthy runsDir) eqn:Ht; [|reflexivity].
      destruct (readdirSync h runsDir) as [names|] eqn:Hr; [|reflexivity].
      pose proof (runFiles_head names) as F.
      destruct (List.head (TraceTreeProvider.runFiles names)) as [first|]; [|reflexivity].
      destruct F as (I & E & _). rewrite (N runsDir names eq_refl Ht Hr first I) in E.
      discriminate E.
  - intros runsDir names Hd Ht Hr latest. unfold TraceTreeProvider.latestRun.
    rewrite Hd, Ht, Hr. pose proof (runFiles_head names) as F.
    destruct (List.head (TraceTreeProvider.runFiles names)) as [first|]; [|discriminate].
    intros [= <-]. exists first. destruct F as (I & E & G). auto.
Qed.

(** The theorem when the deleted run was the last one. *)
Lemma delete_active_run_witness :
  let s' := onDidDelete (Sample.host []) Sample.logPath Sample.activeSession in
  activeRunId (store s') = None
  /\ selectedCallId (store s') = None
  /\ runTraces (store s') !! "20240115_143022" = None
  /\ Forall (fun e => highlight e = [] /\ gutter e = []) (visibleTextEditors s').
Proof.
  destruct (delete_active_run (Sample.host []) Sample.logPath Sample.activeSession
              "20240115_143022" eq_refl eq_refl) as (A & _ & _ & B & _ & C & D & _).
  cbv zeta. repeat split; assumption.
Defined.

(** C6 as the claim words it fails when another run is left in the runs
    directory: the refresh at the end of the handler makes that run the
    active one. *)
Lemma delete_selects_remaining_run :
  activeRunId (store (onDidDelete (Sample.host Sample.laterLog) Sample.logPath
                        Sample.activeSession))
  = Some "20240116_090000".
Proof. vm_compute. reflexivity. Qed.

(** ** Records with one line bound missing *)

(** Without focus and selection every record of the file that has a start
    line is highlighted. *)
Lemma applyToEditor_unfiltered (st : TraceStore) (editor : TextEditor) (run : string) :
  activeRunId st = Some run -> truthy run = true -> highlightActive st = true ->
  focusedFn st = None -> selectedCallId st = None ->
  highlight (DecorationManager.applyToEditor st editor)
  = map DecorationManager.highlightRange
      (List.filter (fun t => strictEq (source_file t) (fsPath editor)
                             && notNull (source_line_start t)) (tracesOf st run)).
Proof.
  intros Ha Tr Hh Hf Hs. unfold DecorationManager.applyToEditor.
  rewrite Ha, Tr, Hh, Hf, Hs. reflexivity.
Qed.

(** C9, where the code fails it. A record with a start line and no end
    line, in the file of an editor, with highlighting on and neither focus
    nor selection: the line correlation rejects it on every line, and the
    decoration projection keeps it and builds a highlight range whose end
    line is -1, before its start line. *)
Theorem missing_end_line_is_highlighted (st : TraceStore) (editor : TextEditor)
  (run : string) (t : TraceRecord) (s : Q) :
  activeRunId st = Some run -> truthy run = true -> highlightActive st = true ->
  focusedFn st = None -> selectedCallId st = None ->
  In t (tracesOf st run) ->
  source_file t = Some (fsPath editor) ->
  source_line_start t = Some s -> source_line_end t = None ->
  (exists r, In r (highlight (DecorationManager.applyToEditor st editor))
             /\ (startLine r == Qmax 0 (s - 2))%Q /\ (endLine r == -1)%Q
             /\ (endLine r < 0)%Q /\ (endLine r < startLine r)%Q)
  /\ (forall line, matchesLine (fsPath editor) line t = false).
Proof.
  intros Ha Tr Hh Hf Hs I Ef Es Ee. split.
  - exists (DecorationManager.highlightRange t).
    rewrite (applyToEditor_unfiltered st editor run Ha Tr Hh Hf Hs). split.
    + apply in_map, filter_In. split; [exact I|].
      rewrite Ef, Es. cbn. now rewrite String.eqb_refl.
    + unfold DecorationManager.highlightRange. rewrite Es, Ee. cbn.
      pose proof (Q.le_max_l 0 (s - 2)). repeat split; try reflexivity; lra.
  - intros line. unfold matchesLine. rewrite Ee. cbn.
    now rewrite !andb_false_r.
Qed.

(** The theorem on a record that starts at line 5: the range handed to the
    editor runs from line 3 to line -1. *)
Lemma missing_end_line_is_highlighted_witness :
  (exists r,
     In r (highlight (DecorationManager.applyToEditor Sample.openEndedStore
                        {| fsPath := Sample.sourcePath; highlight := []; gutter := [] |}))
     /\ (startLine r == 3)%Q /\ (endLine r == -1)%Q)
  /\ forall line,
       matchesLine Sample.sourcePath line
         (Sample.call "p" "f" (Some Sample.sourcePath) (Some 5%Q) None (Some 1%Q)) = false.
Proof.
  destruct (missing_end_line_is_highlighted Sample.openEndedStore
              {| fsPath := Sample.sourcePath; highlight := []; gutter := [] |}
              "20240115_143022"
              (Sample.call "p" "f" (Some Sample.sourcePath) (Some 5%Q) None (Some 1%Q)) 5%Q
              eq_refl eq_refl eq_refl eq_refl eq_refl)
    as [(r & I & S & E & _) M]; [vm_compute; auto | reflexivity | reflexivity | reflexivity |].
  split; [|exact M]. exists r. repeat split; [exact I| |exact E].
  rewrite S. reflexivity.
Defined.

(** The record of that theorem comes from a log line that names no end
    line. *)
Example open_ended_line :
  lineRecord (Sample.host [])
    (Json.text "{'call_id':'p','function':'f','source_file':'/ws/app.py','source_line_start':5,'timestamp_start':1}")
  = Some (Sample.call "p" "f" (Some Sample.sourcePath) (Some 5%Q) None (Some 1%Q)).
Proof. vm_compute. reflexivity. Qed.

(** A record without a start line is dropped by every consumer of the line
    bounds. *)
Lemma missing_start_line_is_dropped (t : TraceRecord) (filePath : string) (line : Q) :
  source_line_start t = None ->
  matchesLine filePath line t = false
  /\ strictEq (source_file t) filePath && notNull (source_line_start t) = false.
Proof.
  intros E. unfold matchesLine. rewrite E. cbn.
  now rewrite !andb_false_r.
Qed.

(** ** The decoration methods as they run *)

(** A list of options that are all there. *)
Lemma mapM_self {A : Type} (f : A -> option A) (l : list A) :
  Forall (fun x => f x = Some x) l -> mapM f l = Some l.
Proof.
  induction 1 as [|x l Hx _ IH]; [reflexivity|].
  cbn. rewrite Hx. cbn. rewrite IH. reflexivity.
Qed.

Lemma mapM_None_inv {A B : Type} (f : A -> option B) (l : list A) :
  mapM f l = None -> exists x, In x l /\ f x = None.
Proof.
  induction l as [|x l IH]; [discriminate|].
  cbn. destruct (f x) as [y|] eqn:E; [|intros _; exists x; split; [now left|exact E]].
  cbn. destruct (mapM f l) as [r|]; [discriminate|].
  intros _. destruct (IH eq_refl) as (z & I & F). exists z. split; [now right|exact F].
Qed.

Lemma mapM_None_intro {A B : Type} (f : A -> option B) (l : list A) (x : A) :
  In x l -> f x = None -> mapM f l = None.
Proof.
  intros I F. destruct (mapM f l) as [r|] eqn:E; [|reflexivity].
  apply mapM_Some_1 in E. exfalso. revert I.
  induction E as [|y z l r Hy _ IH]; [intros []|].
  intros [->|I]; [congruence|now apply IH].
Qed.

(** No number is below itself, and [0] is not below a maximum with [0]. *)
Lemma lt_irrefl (a : Q) : Vscode.lt a a = false.
Proof.
  unfold Vscode.lt. apply negb_false_iff, Qle_bool_iff. apply Qle_refl.
Qed.

Lemma lt_max_0 (a : Q) : Vscode.lt (Qmax 0 a) 0 = false.
Proof.
  unfold Vscode.lt. apply negb_false_iff, Qle_bool_iff. apply Q.le_max_l.
Qed.

Lemma lt_false_iff (a b : Q) : Vscode.lt a b = false <-> (b <= a)%Q.
Proof. unfold Vscode.lt. now rewrite negb_false_iff, Qle_bool_iff. Qed.

Lemma lt_true_iff (a b : Q) : Vscode.lt a b = true <-> (a < b)%Q.
Proof.
  unfold Vscode.lt. rewrite negb_true_iff. split.
  - intros E. apply Qnot_le_lt. intros L. apply Qle_bool_iff in L. congruence.
  - intros L. destruct (Qle_bool b a) eqn:E; [|reflexivity].
    apply Qle_bool_iff in E. exfalso. apply (Qlt_not_le _ _ L E).
Qed.

(** The constructor takes a gutter mark as it is. *)
Lemma newRange_gutterMark (t : TraceRecord) :
  Vscode.newRange (gutterMark t) = Some (gutterMark t).
Proof.
  unfold Vscode.newRange, gutterMark, Vscode.isBefore, DecorationManager.decoratorLine.
  cbn [startLine startCharacter endLine endCharacter].
  now rewrite lt_max_0, !lt_irrefl.
Qed.

(** The constructor on the arguments of a highlight: it throws exactly when
    the end line is negative, and takes the arguments as they are when the
    end line is not before the start line. *)
Lemma newRange_highlightRange (t : TraceRecord) :
  (Vscode.newRange (DecorationManager.highlightRange t) = None
   <-> (toNumber (source_line_end t) - 1 < 0)%Q)
  /\ ((Qmax 0 (toNumber (source_line_start t) - 2) <= toNumber (source_line_end t) - 1)%Q ->
      Vscode.newRange (DecorationManager.highlightRange t)
      = Some (DecorationManager.highlightRange t)).
Proof.
  unfold Vscode.newRange, DecorationManager.highlightRange, Vscode.isBefore.
  cbn [startLine startCharacter endLine endCharacter].
  rewrite lt_max_0, !lt_irrefl. cbn [orb].
  set (sl := Qmax 0 (toNumber (source_line_start t) - 2)).
  set (el := (toNumber (source_line_end t) - 1)%Q).
  assert (P : (0 <= sl)%Q) by apply Q.le_max_l.
  rewrite orb_false_r. split.
  - destruct (Vscode.lt el 0) eqn:N.
    + apply lt_true_iff in N. split; [now intros _|reflexivity].
    + split; [|intros L; apply lt_false_iff in N; exfalso; apply (Qlt_not_le _ _ L N)].
      destruct (Vscode.lt el sl); [discriminate|]. destruct (Vscode.lt sl el); discriminate.
  - intros L.
    assert (N : Vscode.lt el 0 = false) by (apply lt_false_iff; now apply (Qle_trans _ sl)).
    assert (B : Vscode.lt el sl = false) by now apply lt_false_iff.
    rewrite N, B. now destruct (Vscode.lt sl el).
Qed.

(** The loop of the gutter, by the records it marks. *)
Lemma gutterLoop_firsts (fileTraces : list TraceRecord) :
  forall (seen : gset string) (ranges : list Range),
  exists firsts,
    DecorationManager.gutterLoop fileTraces seen ranges = (ranges ++ map gutterMark firsts)%list
    /\ NoDup (map function firsts)
    /\ (forall u, In u firsts -> In u fileTraces /\ function u ∉ seen)
    /\ (forall t, In t fileTraces -> function t ∉ seen ->
          exists u, In u firsts
                    /\ List.find (fun x => String.eqb (function x) (function t)) fileTraces
                       = Some u).
Proof.
  induction fileTraces as [|t rest IH]; intros seen ranges.
  - exists []. cbn. rewrite app_nil_r.
    split; [reflexivity|]. split; [constructor|]. split; intros ? [].
  - cbn [DecorationManager.gutterLoop]. destruct (decide (function t ∈ seen)) as [S|S].
    + rewrite bool_decide_true by exact S.
      destruct (IH seen ranges) as (firsts & E & D & F & G). exists firsts.
      split; [exact E|]. split; [exact D|]. split.
      * intros u I. destruct (F u I). split; [now right|assumption].
      * intros t' [<-|I] N; [contradiction|].
        destruct (G t' I N) as (u & Iu & Fu). exists u. split; [exact Iu|].
        cbn [List.find]. destruct (String.eqb_spec (function t) (function t')) as [Q|_];
          [|exact Fu]. rewrite Q in S. contradiction.
    + rewrite bool_decide_false by exact S.
      destruct (IH ({[function t]} ∪ seen) (ranges ++ [gutterMark t])%list)
        as (firsts & E & D & F & G).
      exists (t :: firsts). split; [|split; [|split]].
      * unfold gutterMark in E at 1. rewrite E, <- app_assoc. reflexivity.
      * cbn. constructor; [|exact D]. intros I.
        apply list_elem_of_In, in_map_iff in I as (u & Q & I).
        destruct (F u I) as [_ K]. apply K. rewrite Q.
        apply elem_of_union_l. now apply elem_of_singleton.
      * intros u [<-|I]; [split; [now left|exact S]|].
        destruct (F u I) as [I' K]. split; [now right|].
        intros M. apply K. now apply elem_of_union_r.
      * intros t' I N. cbn [List.find].
        destruct (String.eqb_spec (function t) (function t')) as [Q|Q].
        { exists t. split; [now left|reflexivity]. }
        destruct I as [<-|I]; [contradiction|].
        destruct (G t' I) as (u & Iu & Fu).
        { intros M. apply elem_of_union in M as [M|M]; [|contradiction].
          apply elem_of_singleton in M. congruence. }
        exists u. split; [now right|exact Fu].
Qed.

(** The marks planned for the gutter are always constructed. *)
Lemma gutter_constructed (st : TraceStore) (editor : TextEditor) :
  mapM Vscode.newRange (gutter (DecorationManager.applyToEditor st editor))
  = Some (gutter (DecorationManager.applyToEditor st editor)).
Proof.
  apply mapM_self. unfold DecorationManager.applyToEditor.
  destruct (activeRunId st) as [run|]; [|constructor].
  destruct (negb (truthy run) || negb (highlightActive st)); [constructor|].
  cbn [gutter].
  destruct (gutterLoop_firsts
              (List.filter (fun t => strictEq (source_file t) (fsPath editor)
                                     && notNull (source_line_start t)) (tracesOf st run))
              ∅ []) as (firsts & -> & _).
  cbn [app]. apply Forall_forall. intros r I.
  apply list_elem_of_In, in_map_iff in I as (t & <- & _). apply newRange_gutterMark.
Qed.

(** The highlights planned: records of the active run, in the file of the
    editor, with a start line. *)
Lemma highlight_sources (st : TraceStore) (editor : TextEditor) (r : Range) :
  In r (highlight (DecorationManager.applyToEditor st editor)) ->
  exists run t,
    activeRunId st = Some run /\ truthy run = true /\ highlightActive st = true
    /\ In t (tracesOf st run) /\ source_file t = Some (fsPath editor)
    /\ notNull (source_line_start t) = true
    /\ r = DecorationManager.highlightRange t.
Proof.
  unfold DecorationManager.applyToEditor.
  destruct (activeRunId st) as [run|]; [|intros []].
  destruct (truthy run) eqn:T; [|intros []]. destruct (highlightActive st); [|intros []].
  cbn [negb orb highlight]. intros I. apply in_map_iff in I as (t & <- & I).
  assert (K : In t (List.filter (fun t => strictEq (source_file t) (fsPath editor)
                                          && notNull (source_line_start t)) (tracesOf st run))).
  { destruct (truthyOpt (focusedFn st)); [now apply filter_In in I|].
    destruct (truthyOpt (selectedCallId st)); [|exact I].
    destruct (0 <? _)%nat; [now apply filter_In in I|exact I]. }
  apply filter_In in K as [K1 K2]. apply andb_prop in K2 as [K2 K3].
  exists run, t. repeat split; auto.
  destruct (source_file t) as [f|]; [|discriminate K2]. cbn in K2.
  apply String.eqb_eq in K2. now subst.
Qed.

(** What the planned editor keeps of the editor. *)
Lemma applyToEditor_fsPath (st : TraceStore) (editor : TextEditor) :
  fsPath (DecorationManager.applyToEditor st editor) = fsPath editor.
Proof.
  unfold DecorationManager.applyToEditor.
  destruct (activeRunId st); [|reflexivity]. now destruct (negb _ || negb _).
Qed.

(** The method sets what was planned when the constructor takes every
    planned highlight as it is. *)
Lemma applied_as_planned (st : TraceStore) (editor : TextEditor) :
  Forall (fun r => Vscode.newRange r = Some r)
    (highlight (DecorationManager.applyToEditor st editor)) ->
  Applied.applyToEditor st editor = Some (DecorationManager.applyToEditor st editor).
Proof.
  intros H. unfold Applied.applyToEditor.
  rewrite gutter_constructed, (mapM_self _ _ H).
  rewrite <- (applyToEditor_fsPath st editor).
  now destruct (DecorationManager.applyToEditor st editor).
Qed.

(** The method throws exactly when a planned highlight has a negative end
    line. *)
Lemma applied_throws (st : TraceStore) (editor : TextEditor) :
  Applied.applyToEditor st editor = None
  <-> exists r, In r (highlight (DecorationManager.applyToEditor st editor))
                /\ (endLine r < 0)%Q.
Proof.
  unfold Applied.applyToEditor. rewrite gutter_constructed. split.
  - destruct (mapM Vscode.newRange _) as [ranges|] eqn:E; [discriminate|]. intros _.
    apply mapM_None_inv in E as (r & I & N). exists r. split; [exact I|].
    destruct (highlight_sources st editor r I) as (_ & t & _ & _ & _ & _ & _ & _ & ->).
    now apply newRange_highlightRange.
  - intros (r & I & N).
    destruct (highlight_sources st editor r I) as (_ & t & _ & _ & _ & _ & _ & _ & ->).
    rewrite (mapM_None_intro _ _ _ I); [reflexivity|]. now apply newRange_highlightRange.
Qed.


(** With the records of the active run orderly the method sets what was
    planned. *)
Lemma orderly_bounds (t : TraceRecord) :
  orderly t = true -> notNull (source_line_start t) = true ->
  (Qmax 0 (toNumber (source_line_start t) - 2) <= toNumber (source_line_end t) - 1)%Q.
Proof.
  unfold orderly. destruct (source_line_start t) as [s|]; [|discriminate].
  destruct (source_line_end t) as [e|]; [|discriminate]. intros O _. now apply Qle_bool_iff.
Qed.

(** A record whose lines are counted from 1 and whose end is not before its
    start is orderly. *)
Lemma orderly_of_bounds (t : TraceRecord) (s e : Q) :
  source_line_start t = Some s -> source_line_end t = Some e ->
  (1 <= s <= e)%Q -> orderly t = true.
Proof.
  intros Es Ee [L1 L2]. unfold orderly. rewrite Es, Ee.
  apply Qle_bool_iff, Q.max_lub; lra.
Qed.

Lemma applied_orderly (st : TraceStore) (editor : TextEditor) :
  orderlyStore st = true ->
  Applied.applyToEditor st editor = Some (DecorationManager.applyToEditor st editor).
Proof.
  intros O. apply applied_as_planned, Forall_forall. intros r I. apply list_elem_of_In in I.
  destruct (highlight_sources st editor r I) as (run & t & A & _ & _ & It & _ & S & ->).
  apply newRange_highlightRange, orderly_bounds; [|exact S].
  unfold orderlyStore in O. rewrite A in O.
  rewrite forallb_forall in O. now apply O.
Qed.

Lemma editorAfter_orderly (st : TraceStore) (editor : TextEditor) :
  orderlyStore st = true ->
  Applied.editorAfter st editor = DecorationManager.applyToEditor st editor.
Proof. intros O. unfold Applied.editorAfter. now rewrite applied_orderly. Qed.

Lemma applyToAll_as_planned (st : TraceStore) (editors : list TextEditor) :
  Forall (fun e => Applied.applyToEditor st e = Some (DecorationManager.applyToEditor st e))
    editors ->
  Applied.applyToAllVisibleEditors st editors
  = (DecorationManager.applyToAllVisibleEditors st editors, true).
Proof.
  induction 1 as [|e editors He _ IH]; [reflexivity|].
  cbn. now rewrite He, IH.
Qed.

Lemma applyToAll_orderly (st : TraceStore) (editors : list TextEditor) :
  orderlyStore st = true ->
  Applied.applyToAllVisibleEditors st editors
  = (DecorationManager.applyToAllVisibleEditors st editors, true).
Proof.
  intros O. apply applyToAll_as_planned, Forall_forall. intros e _. now apply applied_orderly.
Qed.

(** With highlighting off, and with nothing cached for the active run, the
    method sets two empty lists. *)
Lemma applied_off (st : TraceStore) (editor : TextEditor) :
  highlightActive st = false ->
  Applied.applyToEditor st editor
  = Some {| fsPath := fsPath editor; highlight := []; gutter := [] |}.
Proof.
  intros E. rewrite applied_as_planned.
  - unfold DecorationManager.applyToEditor. rewrite E.
    destruct (activeRunId st); [|reflexivity]. now rewrite orb_true_r.
  - unfold DecorationManager.applyToEditor. rewrite E.
    destruct (activeRunId st); [|constructor]. rewrite orb_true_r. constructor.
Qed.

(** The loop changes decorations only: the editors and their documents are
    the same. *)
Lemma applied_fsPath (st : TraceStore) (editor shown : TextEditor) :
  Applied.applyToEditor st editor = Some shown -> fsPath shown = fsPath editor.
Proof.
  unfold Applied.applyToEditor.
  destruct (mapM _ _); [|discriminate]. destruct (mapM _ _); [|discriminate].
  now intros [= <-].
Qed.

Lemma editorAfter_fsPath (st : TraceStore) (editor : TextEditor) :
  fsPath (Applied.editorAfter st editor) = fsPath editor.
Proof.
  unfold Applied.editorAfter.
  destruct (Applied.applyToEditor st editor) as [shown|] eqn:E; [|reflexivity].
  now apply (applied_fsPath st).
Qed.

Lemma applyToAll_fsPath (st : TraceStore) (editors : list TextEditor) :
  map fsPath (fst (Applied.applyToAllVisibleEditors st editors)) = map fsPath editors.
Proof.
  induction editors as [|e editors IH]; [reflexivity|].
  cbn. destruct (Applied.applyToEditor st e) as [shown|] eqn:E; [|reflexivity].
  destruct (Applied.applyToAllVisibleEditors st editors) as [others completed].
  cbn in *. now rewrite IH, (applied_fsPath st e shown E).
Qed.

(** ** Further properties of the views and the handlers *)

(** With highlighting disabled the decoration projection hands every editor
    two empty lists, whatever the active run, the focus and the selection. *)
Theorem highlighting_disabled_is_empty (st : TraceStore) (editor : TextEditor) :
  let shown := DecorationManager.applyToEditor (setHighlightActive false st) editor in
  highlight shown = [] /\ gutter shown = [] /\ fsPath shown = fsPath editor.
Proof.
  unfold DecorationManager.applyToEditor. cbn.
  destruct (activeRunId st) as [run|]; [|auto].
  rewrite orb_true_r. auto.
Qed.

(** The command that clears the focus disables highlighting, clears the
    focused function and the selected call, keeps the active run and the
    cache, empties the decorations of every visible editor, and leaves the
    flat list unfiltered with no call marked. *)
Theorem clear_focus_postcondition (s : Session) :
  let s' := clearFocus s in
  highlightActive (store s') = false
  /\ focusedFn (store s') = None
  /\ selectedCallId (store s') = None
  /\ activeRunId (store s') = activeRunId (store s)
  /\ runTraces (store s') = runTraces (store s)
  /\ Forall (fun e => highlight e = [] /\ gutter e = []) (visibleTextEditors s')
  /\ AllTracesProvider.getChildren (store s')
     = match activeRunId (store s) with
       | Some run =>
           if truthy run
           then map (fun t => {| trace := t; runId := run; selected := false |})
                  (tracesOf (store s) run)
           else []
       | None => []
       end.
Proof.
  cbn. repeat split; apply clearAll_empty.
Qed.

(** The suppress flag is a token for one cursor event: the event that
    finds it set only resets it, and the next event on the same line focuses
    the function of the first record that matches the line. *)
Theorem suppressed_cursor_event (index : nat) (cursorLine : Q) (s : Session)
  (run : string) (editor : TextEditor) :
  activeRunId (store s) = Some run -> truthy run = true ->
  visibleTextEditors s !! index = Some editor ->
  suppressCursorFilter (store s) = true ->
  let s' := onDidChangeTextEditorSelection index cursorLine s in
  suppressCursorFilter (store s') = false
  /\ focusedFn (store s') = focusedFn (store s)
  /\ selectedCallId (store s') = selectedCallId (store s)
  /\ activeRunId (store s') = activeRunId (store s)
  /\ visibleTextEditors s' = visibleTextEditors s
  /\ (let s'' := onDidChangeTextEditorSelection index cursorLine s' in
      focusedFn (store s'')
      = function <$> List.find (matchesLine (fsPath editor) cursorLine) (tracesOf (store s) run)).
Proof.
  intros Ha Tr He Hs.
  assert (E1 : onDidChangeTextEditorSelection index cursorLine s
               = {| store := setSuppressCursorFilter false (store s);
                    visibleTextEditors := visibleTextEditors s |}).
  { unfold onDidChangeTextEditorSelection. rewrite Ha, Hs. cbn. now rewrite Tr. }
  cbv zeta. rewrite E1. cbn. repeat split.
  unfold onDidChangeTextEditorSelection. cbn. rewrite Ha, He. cbn. rewrite Tr. cbn.
  change (tracesOf (setSuppressCursorFilter false (store s)) run) with (tracesOf (store s) run).
  destruct (strictEqOpt _ _) eqn:E; cbn; [|reflexivity].
  destruct (List.find _ _) as [t|], (focusedFn (store s)) as [f|]; cbn in *;
    try discriminate; [|reflexivity].
  apply String.eqb_eq in E. now subst.
Qed.

(** The hover shows nothing exactly when no record of the active run
    matches the line; otherwise its range is that of the first match in
    stored order, and the line lies in it. *)
Theorem hover_of_matches (h : Host) (st : TraceStore) (run filePath : string) (cursorLine : Q) :
  activeRunId st = Some run -> truthy run = true ->
  let matches := List.filter (matchesLine filePath cursorLine) (tracesOf st run) in
  match TraceHoverProvider.provideHover h st filePath cursorLine with
  | None => matches = []
  | Some hover =>
      exists first rest s e,
        matches = first :: rest
        /\ source_line_start first = Some s /\ source_line_end first = Some e
        /\ TraceHoverProvider.range hover
           = {| startLine := Qmax 0 (s - 2); startCharacter := 0;
                endLine := e - 1; endCharacter := 0 |}
        /\ (Qmax 0 (s - 2) <= cursorLine <= e - 1)%Q
  end.
Proof.
  intros Ha Tr. cbv zeta. unfold TraceHoverProvider.provideHover. rewrite Ha, Tr.
  destruct (List.filter _ _) as [|first rest] eqn:E; [reflexivity|].
  assert (I : In first (List.filter (matchesLine filePath cursorLine) (tracesOf st run)))
    by (rewrite E; now left).
  apply filter_In in I as [_ M]. apply matchesLine_iff in M as (_ & s & e & Es & Ee & B1 & B2).
  exists first, rest, s, e. cbn. rewrite Es, Ee. cbn. repeat split; assumption.
Qed.

(** Invalidating a run drops its cache entry and nothing else. *)
Theorem invalidate_drops_entry (run : string) (st : TraceStore) :
  let st' := TraceTreeProvider.invalidateRun run st in
  runTraces st' !! run = None
  /\ (forall other, other <> run -> runTraces st' !! other = runTraces st !! other)
  /\ activeRunId st' = activeRunId st
  /\ selectedCallId st' = selectedCallId st
  /\ focusedFn st' = focusedFn st.
Proof.
  cbn. repeat split; [apply lookup_delete_eq|].
  intros other N. now apply lookup_delete_ne.
Qed.



(** The theorem on a session whose flag is set, for a cursor on line 9. *)
Lemma suppressed_cursor_event_witness :
  let s := {| store := setSuppressCursorFilter true (store Sample.activeSession);
              visibleTextEditors := visibleTextEditors Sample.activeSession |} in
  let s' := onDidChangeTextEditorSelection 0 9 s in
  suppressCursorFilter (store s') = false /\ focusedFn (store s') = None
  /\ visibleTextEditors s' = visibleTextEditors s.
Proof.
  destruct (suppressed_cursor_event 0 9
              {| store := setSuppressCursorFilter true (store Sample.activeSession);
                 visibleTextEditors := visibleTextEditors Sample.activeSession |}
              "20240115_143022"
              {| fsPath := Sample.sourcePath;
                 highlight := [{| startLine := 8; startCharacter := 0;
                                  endLine := 11; endCharacter := 0 |}];
                 gutter := [{| startLine := 8; startCharacter := 0;
                               endLine := 8; endCharacter := 0 |}] |}
              eq_refl eq_refl eq_refl eq_refl) as (A & B & _ & _ & C & _).
  cbv zeta. repeat split; assumption.
Defined.

(** The theorem on the call of lines 10 to 12, hovered on line 9. *)
Lemma hover_of_matches_witness :
  exists hover,
    TraceHoverProvider.provideHover (Sample.host []) (store Sample.activeSession)
      Sample.sourcePath 9 = Some hover
    /\ TraceHoverProvider.range hover
       = {| startLine := Qmax 0 (10 - 2); startCharacter := 0;
            endLine := 12 - 1; endCharacter := 0 |}.
Proof.
  pose proof (hover_of_matches (Sample.host []) (store Sample.activeSession)
                "20240115_143022" Sample.sourcePath 9 eq_refl eq_refl) as H.
  cbv zeta in H.
  destruct (TraceHoverProvider.provideHover (Sample.host []) (store Sample.activeSession)
              Sample.sourcePath 9) as [hover|].
  - exists hover. split; [reflexivity|].
    destruct H as (first & rest & s & e & E & Es & Ee & R & _).
    vm_compute in E. injection E as <- <-. injection Es as <-. injection Ee as <-. exact R.
  - vm_compute in H. discriminate H.
Defined.

(** ** Own properties and the detail tree *)

Section SortMap.

Context {A B : Type} (f : A -> B) (le : A -> A -> bool) (le' : B -> B -> bool).
Hypothesis le_f : forall a b, le' (f a) (f b) = le a b.

(** Sorting commutes with a map that keeps the order. *)
Lemma insertBy_map (x : A) (l : list A) :
  insertBy le' (f x) (map f l) = map f (insertBy le x l).
Proof using le_f.
  induction l as [|y l IH]; [reflexivity|].
  cbn. rewrite le_f. destruct (le x y); [reflexivity|]. cbn. now rewrite IH.
Qed.

Lemma arraySort_map (l : list A) : arraySort le' (map f l) = map f (arraySort le l).
Proof using le_f.
  induction l as [|x l IH]; [reflexivity|].
  cbn [map arraySort fold_right]. fold (arraySort le' (map f l)). fold (arraySort le l).
  now rewrite IH, insertBy_map.
Qed.

End SortMap.

(** A filter commutes with a map that keeps the test. *)
Lemma filter_map_fst {A B : Type} (f : A -> B) (p : A -> bool) (q : B -> bool) (l : list A) :
  (forall a, q (f a) = p a) -> List.filter q (map f l) = map f (List.filter p l).
Proof.
  intros H. induction l as [|x l IH]; [reflexivity|].
  cbn. rewrite H. destruct (p x); cbn; now rewrite IH.
Qed.

Section OwnProperties.

Context {A B : Type} (g : string -> A -> B).

(** The own properties and their order depend on the keys only. *)
Lemma defineProperty_map (key : string) (v : A) (props : list (string * A)) :
  JsObject.defineProperty key (g key v) (map (JsObject.onValue g) props)
  = map (JsObject.onValue g) (JsObject.defineProperty key v props).
Proof.
  induction props as [|[k w] props IH]; [reflexivity|].
  cbn. destruct (String.eqb_spec k key) as [->|N]; [reflexivity|].
  cbn. now rewrite IH.
Qed.

Lemma ownProperties_map (members : list (string * A)) :
  JsObject.ownProperties (map (JsObject.onValue g) members)
  = map (JsObject.onValue g) (JsObject.ownProperties members).
Proof.
  unfold JsObject.ownProperties.
  change (@nil (string * B)) with (map (JsObject.onValue g) []).
  generalize (@nil (string * A)) as acc.
  induction members as [|[k v] members IH]; intros acc; [reflexivity|].
  cbn [map fold_left]. change (JsObject.onValue g (k, v)) with (k, g k v). cbn [fst snd].
  rewrite defineProperty_map. apply IH.
Qed.

Lemma ownKeysOrder_map (props : list (string * A)) :
  JsObject.ownKeysOrder (map (JsObject.onValue g) props)
  = map (JsObject.onValue g) (JsObject.ownKeysOrder props).
Proof.
  unfold JsObject.ownKeysOrder. rewrite map_app.
  rewrite (filter_map_fst (JsObject.onValue g) JsObject.isIndexKey) by reflexivity.
  rewrite (filter_map_fst (JsObject.onValue g) (fun p => negb (JsObject.isIndexKey p)))
    by reflexivity.
  f_equal. apply arraySort_map. reflexivity.
Qed.

End OwnProperties.

(** The two local loops of [entryNode] are maps. *)
Lemma each_member (d : Display) (members : list (string * json)) :
  (fix each (l : list (string * json)) {struct l} : list (string * DetailItem) :=
     match l with
     | [] => []
     | (k', x) :: rest => (k', TraceDetailProvider.entryNode d k' x) :: each rest
     end) members
  = map (JsObject.onValue (TraceDetailProvider.entryNode d)) members.
Proof.
  induction members as [|[k x] members IH]; [reflexivity|]. now rewrite IH.
Qed.

Lemma each_element (d : Display) (items : list json) :
  forall i,
  (fix each (i : nat) (l : list json) {struct l} : list DetailItem :=
     match l with
     | [] => []
     | x :: rest => TraceDetailProvider.entryNode d (pretty i) x :: each (S i) rest
     end) i items
  = map (fun entry => TraceDetailProvider.entryNode d (fst entry) (snd entry))
      (JsObject.indexed i items).
Proof.
  induction items as [|x items IH]; intros i; [reflexivity|]. now rewrite IH.
Qed.

(** The callback of [_buildObjectNodes], in the shape the source has: on an
    object the item of the nodes that [_buildObjectNodes] builds for it, on
    any other value the item of its text. *)
Lemma entryNode_unfold (d : Display) (k : string) (v : json) :
  TraceDetailProvider.entryNode d k v
  = if TraceDetailProvider.isObject v
    then TraceDetailProvider.objectItem d Collapsed k v
           (default [] (TraceDetailProvider.buildObjectNodes d v))
    else TraceDetailProvider.valueItem d k v.
Proof.
  destruct v as [| | | |items|members]; try reflexivity.
  - cbn [TraceDetailProvider.entryNode TraceDetailProvider.isObject].
    now rewrite each_element.
  - cbn [TraceDetailProvider.entryNode TraceDetailProvider.isObject].
    rewrite each_member, ownProperties_map, ownKeysOrder_map, map_map. reflexivity.
Qed.

(** The detail tree mirrors the value it shows. The node of a key and a
    value is labelled by the key. A value that is no object or array is a
    leaf that shows its compact JSON text. An object or array has one child
    per own property, in the order of [Object.entries], each the node of that
    property; without properties it is a leaf that shows its text ([{}] or
    [[]]), with properties it shows no text and is collapsed. *)
Theorem detail_tree_mirrors_value (d : Display) (k : string) (v : json) :
  let item := TraceDetailProvider.entryNode d k v in
  itemLabel item = k
  /\ (TraceDetailProvider.isObject v = false ->
      item = newDetailItem k (Some (JSON_stringify_compact d v)) CollapsibleNone [])
  /\ (TraceDetailProvider.isObject v = true ->
      exists props,
        JsObject.entries v = Some props
        /\ itemChildren item
           = map (fun p => TraceDetailProvider.entryNode d (fst p) (snd p)) props
        /\ map itemLabel (itemChildren item) = map fst props
        /\ (props = [] ->
            itemDescription item = Some (JSON_stringify_compact d v)
            /\ itemCollapsible item = CollapsibleNone)
        /\ (props <> [] ->
            itemDescription item = None /\ itemCollapsible item = Collapsed)).
Proof.
  cbv zeta. rewrite entryNode_unfold. split; [now destruct (TraceDetailProvider.isObject v)|].
  split; intros O; rewrite O; [reflexivity|].
  unfold TraceDetailProvider.buildObjectNodes.
  destruct (JsObject.entries v) as [props|] eqn:E; [|destruct v; discriminate].
  exists props. split; [reflexivity|]. cbn [fmap option_fmap option_map default itemChildren
    TraceDetailProvider.objectItem id]. split; [reflexivity|]. split.
  - rewrite map_map. apply map_ext_in. intros [k' x] _. cbn [fst snd].
    rewrite entryNode_unfold. now destruct (TraceDetailProvider.isObject x).
  - split.
    + intros ->. cbn. auto.
    + intros N. destruct props as [|p props]; [contradiction|]. cbn. auto.
Qed.





(** The rows of the detail view. Showing no trace empties the view. A
    trace, unless its inputs are [null], is shown in four rows: the duration,
    the time of the call, the inputs and then either the error or the output,
    never both. Inputs without own properties are shown as [(none)], other
    inputs as an expanded row with one node per property; an output that is
    no object or array is shown by its compact JSON text. *)
Theorem showTrace_rows (d : Display) (t : TraceRecord) :
  TraceDetailProvider.showTrace d None = Some []
  /\ (inputs t = JNull -> TraceDetailProvider.showTrace d (Some t) = None)
  /\ (inputs t <> JNull ->
      exists inputsItem lastItem,
        TraceDetailProvider.showTrace d (Some t)
        = Some [newDetailItem "duration" (Some (toFixed3 d (duration_s t) +:+ "s"))
                  CollapsibleNone [];
                newDetailItem "called at" (Some (toLocaleTimeString d (timestamp_start t)))
                  CollapsibleNone [];
                inputsItem; lastItem]
        /\ itemLabel inputsItem = "inputs"
        /\ (JsObject.entries (inputs t) = Some [] ->
            inputsItem = newDetailItem "inputs" (Some "(none)") CollapsibleNone [])
        /\ (forall props, JsObject.entries (inputs t) = Some props -> props <> [] ->
            inputsItem
            = newDetailItem "inputs" None Expanded
                (map (fun p => TraceDetailProvider.entryNode d (fst p) (snd p)) props))
        /\ itemLabel lastItem = (if errorTruthy (error t) then "error" else "output")
        /\ (errorTruthy (error t) = false ->
            TraceDetailProvider.isObject (output t) = false ->
            lastItem = newDetailItem "output" (Some (JSON_stringify_compact d (output t)))
                         CollapsibleNone [])).
Proof.
  split; [reflexivity|]. split.
  - intros E. unfold TraceDetailProvider.showTrace. now rewrite E.
  - intros N. unfold TraceDetailProvider.showTrace.
    destruct (JsObject.entries (inputs t)) as [props|] eqn:E;
      [|destruct (inputs t); try discriminate E; contradiction].
    eexists _, _. split; [reflexivity|]. split; [now destruct props|].
    split; [intros [= ->]; reflexivity|].
    split; [intros props' [= <-] P; destruct props; [contradiction|reflexivity]|].
    split.
    + destruct (errorTruthy (error t)); [reflexivity|].
      now destruct (TraceDetailProvider.isObject (output t)).
    + intros -> ->. reflexivity.
Qed.

(** An error of the legacy form, a string, is shown by the hover as that
    string; the detail view shows its two rows, type and message, without any
    text, since a string has neither property. *)
Theorem legacy_error_rows_are_blank (d : Display) (t : TraceRecord) (text : string) :
  inputs t <> JNull -> error t = Some (ErrorText text) -> text <> "" ->
  exists first second third,
    TraceDetailProvider.showTrace d (Some t)
    = Some [first; second; third;
            newDetailItem "error" None Expanded
              [newDetailItem "type" None CollapsibleNone [];
               newDetailItem "message" None CollapsibleNone []]]
    /\ TraceHoverProvider.errStr (error t) = text.
Proof.
  intros N E T. unfold TraceDetailProvider.showTrace.
  destruct (JsObject.entries (inputs t)) as [props|] eqn:P;
    [|destruct (inputs t); try discriminate P; contradiction].
  rewrite E. destruct text; [contradiction|]. cbn. eauto.
Qed.

(** The theorem on a call that failed with the error text [boom]. *)
Lemma legacy_error_rows_are_blank_witness :
  nth_error
    (default [] (TraceDetailProvider.showTrace Sample.display (Some Sample.legacyError))) 3
  = Some (newDetailItem "error" None Expanded
            [newDetailItem "type" None CollapsibleNone [];
             newDetailItem "message" None CollapsibleNone []])
  /\ TraceHoverProvider.errStr (error Sample.legacyError) = "boom".
Proof.
  destruct (legacy_error_rows_are_blank Sample.display Sample.legacyError "boom")
    as (first & second & third & E & H); [discriminate | reflexivity | discriminate |].
  rewrite E. split; [reflexivity|exact H].
Defined.



(** ** Git state of a run *)

(** A line that decides nothing: blank, unparsable or [null]. *)
Lemma firstGitState_skip (h : Host) (line : string) (rest : list string) :
  truthy (trim line) = false \/ JSON_parse h (trim line) = None
  \/ JSON_parse h (trim line) = Some JNull ->
  firstGitState h (line :: rest) = firstGitState h rest.
Proof.
  intros [E|[E|E]]; cbn [firstGitState]; rewrite E; cbn; try reflexivity.
  all: now destruct (truthy (trim line)).
Qed.

Lemma firstGitState_decides (h : Host) (before after : list string) (line : string)
  (raw : json) (gs : Git.RunGitState) :
  Forall (fun l => truthy (trim l) = false \/ JSON_parse h (trim l) = None
                   \/ JSON_parse h (trim l) = Some JNull) before ->
  truthy (trim line) = true -> JSON_parse h (trim line) = Some raw ->
  gitStateOf raw = Returns gs ->
  firstGitState h (before ++ line :: after) = Some (Some gs).
Proof.
  intros B T P G. induction B as [|l before Hl _ IH].
  - cbn. now rewrite T, P, G.
  - cbn [app]. now rewrite firstGitState_skip.
Qed.

Lemma firstGitState_none (h : Host) (lines : list string) :
  Forall (fun l => truthy (trim l) = false \/ JSON_parse h (trim l) = None
                   \/ JSON_parse h (trim l) = Some JNull) lines ->
  firstGitState h lines = Some None.
Proof.
  induction 1 as [|l lines Hl _ IH]; [reflexivity|]. now rewrite firstGitState_skip.
Qed.

(** A file that has lines exists and can be read. *)
Lemma fileLines_content (h : Host) (filePath : string) (lines : list string) :
  fileLines h filePath = lines -> lines <> [] ->
  existsSync h filePath = true
  /\ exists content, readFileSync h filePath = Some content /\ split LF content = lines.
Proof.
  unfold fileLines. intros E N.
  destruct (existsSync h filePath); [|congruence].
  destruct (readFileSync h filePath) as [content|]; [|congruence]. eauto.
Qed.

Lemma getRunGitState_lines (h : Host) (run runsDir : string) :
  getRunsDir h = Some runsDir -> truthy runsDir = true ->
  fileLines h (runFile h runsDir run) <> [] ->
  getRunGitState h run = firstGitState h (fileLines h (runFile h runsDir run)).
Proof.
  intros D T N. destruct (fileLines_content h _ _ eq_refl N) as (X & content & R & S).
  unfold getRunGitState. rewrite D, T. cbn [negb].
  fold (runFile h runsDir run). rewrite X, R. cbn [negb]. now rewrite S.
Qed.

(** The state of a line is made of the git fields of its record. *)
Lemma gitStateOf_normalised (raw : json) (gs : Git.RunGitState) (t : TraceRecord) :
  gitStateOf raw = Returns gs -> normaliseTrace raw = Returns t ->
  gs = {| Git.git_repo_root := git_repo_root t; Git.git_commit := git_commit t;
          Git.git_dirty := git_dirty t; Git.git_snapshot_sha := git_snapshot_sha t |}.
Proof.
  intros G H. unfold normaliseTrace in H. unfold gitStateOf in G.
  destruct raw; [discriminate H| ..].
  all: bind_inv H; injection H as <-; cbn [git_repo_root git_commit git_dirty git_snapshot_sha].
  all: revert G; repeat match goal with E : _ = Returns _ |- _ => rewrite E; clear E end.
  all: cbn [bind]; now intros [= <-].
Qed.

(** A value that is no object has no git field. *)
Lemma gitStateOf_scalar (raw : json) (gs : Git.RunGitState) :
  gitStateOf raw = Returns gs -> (forall members, raw <> JObj members) ->
  gs = {| Git.git_repo_root := None; Git.git_commit := None;
          Git.git_dirty := false; Git.git_snapshot_sha := None |}.
Proof.
  intros G N. destruct raw; try discriminate G; try (cbn in G; now injection G as <-).
  now destruct (N members).
Qed.

(** The git state of a run is that of the first line of its file that is
    not blank, parses and is not [null]; no later line is consulted. When
    that line is a record, the state holds the git fields of the record,
    which is the first of the file and need not be the first in time; when
    it is no object at all, a bare number say, the state is empty. On a line
    of the declared interface a state is built. *)
Theorem git_state_of_first_value (h : Host) (run runsDir : string)
  (before after : list string) (line : string) (raw : json) :
  getRunsDir h = Some runsDir -> truthy runsDir = true ->
  fileLines h (runFile h runsDir run) = (before ++ line :: after)%list ->
  Forall (fun l => truthy (trim l) = false \/ JSON_parse h (trim l) = None
                   \/ JSON_parse h (trim l) = Some JNull) before ->
  truthy (trim line) = true -> JSON_parse h (trim line) = Some raw -> raw <> JNull ->
  (forall gs, gitStateOf raw = Returns gs ->
     getRunGitState h run = Some (Some gs)
     /\ (forall t, normaliseTrace raw = Returns t ->
           gs = {| Git.git_repo_root := git_repo_root t; Git.git_commit := git_commit t;
                   Git.git_dirty := git_dirty t;
                   Git.git_snapshot_sha := git_snapshot_sha t |})
     /\ ((forall members, raw <> JObj members) ->
           gs = {| Git.git_repo_root := None; Git.git_commit := None;
                   Git.git_dirty := false; Git.git_snapshot_sha := None |}))
  /\ (conforms raw = true -> exists gs, gitStateOf raw = Returns gs).
Proof.
  intros D T L B Tl P N. split.
  - intros gs G. split; [|split].
    + rewrite (getRunGitState_lines h run runsDir D T) by (rewrite L; now destruct before).
      rewrite L. now apply (firstGitState_decides h before after line raw gs).
    + intros t. now apply gitStateOf_normalised.
    + now apply gitStateOf_scalar.
  - intros C. unfold conforms in C. repeat (apply andb_prop in C as [C ?]).
    repeat match goal with H : returns _ = true |- _ => apply returns_inv in H as [? H] end.
    unfold gitStateOf. destruct raw; [contradiction| ..].
    all: repeat match goal with H : _ = Returns _ |- _ => rewrite H; clear H end.
    all: cbn; eauto.
Qed.

(** The theorem on a log whose third line is the first that parses to a
    value: the state is that of the call [a], though [b] is the earlier
    call. *)
Lemma git_state_of_first_value_witness :
  getRunGitState (Sample.host Sample.gitLog) "20240115_143022" = Some (Some Sample.gitState)
  /\ (map call_id <$> loadTracesFromFile (Sample.host Sample.gitLog) Sample.logPath)
     = Some ["b"; "a"].
Proof.
  split; [|vm_compute; reflexivity].
  eapply (git_state_of_first_value (Sample.host Sample.gitLog) "20240115_143022" Sample.runsDir
            [Json.text "not json"; Json.text "null"]).
  - reflexivity.
  - reflexivity.
  - vm_compute. reflexivity.
  - constructor; [right; left; vm_compute; reflexivity|].
    constructor; [right; right; vm_compute; reflexivity|constructor].
  - vm_compute. reflexivity.
  - vm_compute. reflexivity.
  - discriminate.
  - vm_compute. reflexivity.
Defined.

(** A run has no git state when there is no workspace folder, when its file
    is missing or cannot be read, and when no line of the file is a value:
    every line blank, unparsable or [null]. *)
Theorem git_state_absent (h : Host) (run : string) :
  (getRunsDir h = None -> getRunGitState h run = Some None)
  /\ (forall runsDir, getRunsDir h = Some runsDir -> truthy runsDir = true ->
        (existsSync h (runFile h runsDir run) = false -> getRunGitState h run = Some None)
        /\ (readFileSync h (runFile h runsDir run) = None -> getRunGitState h run = Some None)
        /\ (Forall (fun l => truthy (trim l) = false \/ JSON_parse h (trim l) = None
                             \/ JSON_parse h (trim l) = Some JNull)
              (fileLines h (runFile h runsDir run)) ->
            getRunGitState h run = Some None)).
Proof.
  split.
  - intros E. unfold getRunGitState. now rewrite E.
  - intros runsDir D T. unfold getRunGitState, fileLines. rewrite D, T. cbn [negb].
    fold (runFile h runsDir run). split; [|split].
    + now intros ->.
    + intros ->. now destruct (existsSync h _).
    + destruct (existsSync h _); [|reflexivity]. cbn [negb].
      destruct (readFileSync h _); [|reflexivity]. apply firstGitState_none.
Qed.

(** ** Commands *)

(** Truthiness and strict equality of a [string | null], as propositions. *)
Lemma truthyOpt_Some (s : option string) :
  truthyOpt s = true <-> exists x, s = Some x /\ x <> "".
Proof.
  destruct s as [[|c r]|]; cbn; split; try discriminate; try reflexivity.
  - intros (x & [= <-] & N). contradiction.
  - intros _. eexists. split; [reflexivity|discriminate].
  - intros (x & [=] & _).
Qed.

Lemma strictEq_Some (a : option string) (b : string) :
  strictEq a b = true <-> a = Some b.
Proof.
  destruct a as [x|]; cbn; [|split; discriminate].
  rewrite String.eqb_eq. split; [now intros ->|now intros [= ->]].
Qed.

(** The effects of the checkout: the call, then one message. *)
Lemma checkout_effects (u : Ui) (revision cwd done : string) :
  exists message,
    checkout u revision cwd done
    = [ExecSync ("git checkout " +:+ revision +:+ " -- .") cwd; message]
    /\ match execSync u ("git checkout " +:+ revision +:+ " -- .") cwd with
       | inr _ => message = InformationMessage done
       | inl e =>
           message = ErrorMessage ("CDWeave: git checkout failed " +:+ TraceHoverProvider.dash
                                   +:+ " " +:+ default (thrown_string e) (thrown_message e))
       end.
Proof.
  unfold checkout, runGit.
  change (String.concat " " ["git"; "checkout"; revision; "--"; "."])
    with ("git checkout " +:+ revision +:+ " -- .").
  destruct (execSync u _ cwd); eauto.
Qed.

(** When [restoreRunCode] calls the shell. *)
Lemma restoreRunCode_exec (u : Ui) (gs : option Git.RunGitState) (item : RunItem.TraceRunItem)
  (command cwd : string) :
  RunItem.gitState item = gs ->
  In (ExecSync command cwd) (restoreRunCode u item) ->
  exists s r prompt,
    optionalField gs Git.git_snapshot_sha = Some s /\ s <> ""
    /\ optionalField gs Git.git_repo_root = Some r /\ r <> ""
    /\ command = "git checkout " +:+ s +:+ " -- ." /\ cwd = r
    /\ head (restoreRunCode u item) = Some (ModalWarning prompt "Restore")
    /\ modalChoice u prompt "Restore" = Some "Restore".
Proof.
  intros <-. unfold restoreRunCode.
  set (sha := optionalField (RunItem.gitState item) Git.git_snapshot_sha).
  set (root := optionalField (RunItem.gitState item) Git.git_repo_root).
  set (prompt s := "Restore code from run " +:+ dquote +:+ parseRunLabel (RunItem.runId item)
                   +:+ dquote +:+ "?" +:+ TraceHoverProvider.NL +:+ TraceHoverProvider.NL
                   +:+ "This will overwrite your working tree with snapshot "
                   +:+ slice 0 8 s +:+ ". Uncommitted changes will be lost.").
  intros I.
  destruct (truthyOpt sha) eqn:Ts; [|destruct I as [I|[]]; discriminate I].
  destruct (truthyOpt root) eqn:Tr; [|destruct I as [I|[]]; discriminate I].
  apply truthyOpt_Some in Ts as (s & Es & Ns), Tr as (r & Er & Nr).
  cbn [negb orb] in I. rewrite Es, Er in I |- *. cbn [default id] in I |- *.
  fold (prompt s) in I |- *.
  destruct I as [I|I]; [discriminate I|].
  destruct (strictEq _ _) eqn:Q; [|destruct I].
  apply strictEq_Some in Q.
  destruct (checkout_effects u s r
              ("CDWeave: Working tree restored to snapshot " +:+ slice 0 8 s +:+ "."))
    as (message & C & M).
  rewrite C in I. destruct I as [[= <- <-]|[I|[]]].
  - exists s, r, (prompt s). repeat split; auto.
  - exfalso. destruct (execSync u _ r); rewrite M in I; discriminate I.
Qed.

(** Restoring the code of a run is guarded twice. Without a snapshot or
    without a repository root the command only warns. Otherwise it asks in a
    modal dialog, and unless the answer is [Restore] it does nothing more; on
    [Restore] it runs [git checkout <sha> -- .] in the repository root, the
    snapshot id being the text of the log file, and reports how that went.
    So the shell is called at most once, and only after that answer. *)
Theorem restore_run_code_guarded (u : Ui) (item : RunItem.TraceRunItem) :
  let effects := restoreRunCode u item in
  let sha := optionalField (RunItem.gitState item) Git.git_snapshot_sha in
  let root := optionalField (RunItem.gitState item) Git.git_repo_root in
  (truthyOpt sha = false \/ truthyOpt root = false ->
   effects = [WarningMessage "CDWeave: No snapshot found for this run."])
  /\ (forall s r, sha = Some s -> s <> "" -> root = Some r -> r <> "" ->
      exists prompt,
        (modalChoice u prompt "Restore" <> Some "Restore" ->
         effects = [ModalWarning prompt "Restore"])
        /\ (modalChoice u prompt "Restore" = Some "Restore" ->
            exists message,
              effects = [ModalWarning prompt "Restore";
                         ExecSync ("git checkout " +:+ s +:+ " -- .") r; message]
              /\ match execSync u ("git checkout " +:+ s +:+ " -- .") r with
                 | inr _ =>
                     message = InformationMessage
                                 ("CDWeave: Working tree restored to snapshot "
                                  +:+ slice 0 8 s +:+ ".")
                 | inl e =>
                     message = ErrorMessage
                                 ("CDWeave: git checkout failed " +:+ TraceHoverProvider.dash
                                  +:+ " " +:+ default (thrown_string e) (thrown_message e))
                 end))
  /\ (forall command cwd, In (ExecSync command cwd) effects ->
      exists s r prompt,
        sha = Some s /\ s <> "" /\ root = Some r /\ r <> ""
        /\ command = "git checkout " +:+ s +:+ " -- ." /\ cwd = r
        /\ head effects = Some (ModalWarning prompt "Restore")
        /\ modalChoice u prompt "Restore" = Some "Restore").
Proof.
  cbv zeta. split; [|split]; [| |intros command cwd; now apply restoreRunCode_exec].
  all: unfold restoreRunCode.
  all: set (sha := optionalField (RunItem.gitState item) Git.git_snapshot_sha).
  all: set (root := optionalField (RunItem.gitState item) Git.git_repo_root).
  - intros [E|E]; rewrite E; [reflexivity|]. now rewrite orb_true_r.
  - set (prompt s := "Restore code from run " +:+ dquote +:+ parseRunLabel (RunItem.runId item)
                     +:+ dquote +:+ "?" +:+ TraceHoverProvider.NL +:+ TraceHoverProvider.NL
                     +:+ "This will overwrite your working tree with snapshot "
                     +:+ slice 0 8 s +:+ ". Uncommitted changes will be lost.").
    intros s r Es Ns Er Nr. rewrite Es, Er. cbn [truthyOpt default id].
    destruct s as [|c s]; [contradiction|]. destruct r as [|c' r]; [contradiction|].
    cbn [truthy negb orb]. exists (prompt (String c s)). split.
    + intros N. destruct (strictEq _ _) eqn:Q; [|reflexivity].
      apply strictEq_Some in Q. contradiction.
    + intros Q. fold (prompt (String c s)). rewrite Q. cbn [strictEq]. rewrite String.eqb_refl.
      destruct (checkout_effects u (String c s) (String c' r)
                  ("CDWeave: Working tree restored to snapshot " +:+ slice 0 8 (String c s) +:+ "."))
        as (message & -> & M). eauto.
Qed.

(** Resetting the working tree is guarded likewise: without a repository
    root the command only warns; otherwise it asks, and only on the answer
    [Reset to HEAD] it runs [git checkout HEAD -- .] in the repository root,
    once, and reports how that went. *)
Theorem restore_main_code_guarded (u : Ui) (item : RunItem.TraceRunItem) :
  let effects := restoreMainCode u item in
  let root := optionalField (RunItem.gitState item) Git.git_repo_root in
  (truthyOpt root = false ->
   effects = [WarningMessage "CDWeave: No git repo info for this run."])
  /\ (forall r, root = Some r -> r <> "" ->
      exists prompt,
        (modalChoice u prompt "Reset to HEAD" <> Some "Reset to HEAD" ->
         effects = [ModalWarning prompt "Reset to HEAD"])
        /\ (modalChoice u prompt "Reset to HEAD" = Some "Reset to HEAD" ->
            exists message,
              effects = [ModalWarning prompt "Reset to HEAD";
                         ExecSync "git checkout HEAD -- ." r; message]
              /\ match execSync u "git checkout HEAD -- ." r with
                 | inr _ => message = InformationMessage "CDWeave: Working tree reset to HEAD."
                 | inl e =>
                     message = ErrorMessage
                                 ("CDWeave: git checkout failed " +:+ TraceHoverProvider.dash
                                  +:+ " " +:+ default (thrown_string e) (thrown_message e))
                 end))
  /\ (forall command cwd, In (ExecSync command cwd) effects ->
      exists r prompt,
        root = Some r /\ r <> "" /\ command = "git checkout HEAD -- ." /\ cwd = r
        /\ head effects = Some (ModalWarning prompt "Reset to HEAD")
        /\ modalChoice u prompt "Reset to HEAD" = Some "Reset to HEAD").
Proof.
  cbv zeta. unfold restoreMainCode.
  set (root := optionalField (RunItem.gitState item) Git.git_repo_root).
  set (prompt r := "Reset working tree back to HEAD?" +:+ TraceHoverProvider.NL
                   +:+ TraceHoverProvider.NL
                   +:+ "This will discard any uncommitted changes in " +:+ r +:+ ".").
  split; [|split].
  - now intros ->.
  - intros r Er Nr. rewrite Er. cbn [truthyOpt default id].
    destruct r as [|c r]; [contradiction|].
    cbn [truthy negb]. exists (prompt (String c r)). split.
    + intros N. destruct (strictEq _ _) eqn:Q; [|reflexivity].
      apply strictEq_Some in Q. contradiction.
    + intros Q. fold (prompt (String c r)). rewrite Q. cbn [strictEq]. rewrite String.eqb_refl.
      destruct (checkout_effects u "HEAD" (String c r) "CDWeave: Working tree reset to HEAD.")
        as (message & -> & M). eauto.
  - intros command cwd I.
    destruct (truthyOpt root) eqn:Tr; [|destruct I as [I|[]]; discriminate I].
    apply truthyOpt_Some in Tr as (r & Er & Nr).
    cbn [negb] in I. rewrite Er in I |- *. cbn [default id] in I |- *.
    fold (prompt r) in I |- *.
    destruct I as [I|I]; [discriminate I|].
    destruct (strictEq _ _) eqn:Q; [|destruct I].
    apply strictEq_Some in Q.
    destruct (checkout_effects u "HEAD" r "CDWeave: Working tree reset to HEAD.")
      as (message & C & M).
    rewrite C in I. destruct I as [[= <- <-]|[I|[]]].
    + exists r, (prompt r). repeat split; auto.
    + exfalso. destruct (execSync u _ r); rewrite M in I; discriminate I.
Qed.

(** The item of a run and the restore command. The item is offered the
    snapshot menu exactly when the git state of the run has a snapshot id,
    and it has a description exactly when the state has a commit. The
    command calls the shell only for an item with that menu; an item with the
    menu whose state has no repository root gets the warning instead. *)
Theorem snapshot_menu_and_restore (h : Host) (u : Ui) (run : string)
  (item : RunItem.TraceRunItem) :
  newTraceRunItem h run = Some item ->
  (RunItem.contextValue item = "traceRunWithSnapshot"
   <-> exists sha, optionalField (RunItem.gitState item) Git.git_snapshot_sha = Some sha
                   /\ sha <> "")
  /\ ((exists command cwd, In (ExecSync command cwd) (restoreRunCode u item)) ->
      RunItem.contextValue item = "traceRunWithSnapshot")
  /\ (RunItem.contextValue item = "traceRunWithSnapshot" ->
      truthyOpt (optionalField (RunItem.gitState item) Git.git_repo_root) = false ->
      restoreRunCode u item = [WarningMessage "CDWeave: No snapshot found for this run."])
  /\ (RunItem.description item <> None
      <-> exists commit, optionalField (RunItem.gitState item) Git.git_commit = Some commit
                         /\ commit <> "").
Proof.
  unfold newTraceRunItem. destruct (getRunGitState h run) as [gs|]; [|discriminate].
  intros [= <-]. cbn [RunItem.contextValue RunItem.gitState RunItem.description].
  assert (C : (if truthyOpt (optionalField gs Git.git_snapshot_sha)
               then "traceRunWithSnapshot" else "traceRun") = "traceRunWithSnapshot"
              <-> truthyOpt (optionalField gs Git.git_snapshot_sha) = true).
  { destruct (truthyOpt _); split; (reflexivity || discriminate). }
  split; [now rewrite C, truthyOpt_Some|]. split; [|split].
  - intros (command & cwd & I). apply C.
    apply (restoreRunCode_exec u gs) in I as (s & r & p & Es & Ns & _); [|reflexivity].
    apply truthyOpt_Some. eauto.
  - intros _ R. unfold restoreRunCode. cbn [RunItem.gitState]. rewrite R.
    now rewrite orb_true_r.
  - rewrite <- truthyOpt_Some. destruct gs as [state|]; cbn [optionalField].
    + destruct (truthyOpt (Git.git_commit state)); split; congruence.
    + cbn. split; congruence.
Qed.

(** The theorem on the first run of the sample log, restored by a user who
    confirms. *)
Lemma snapshot_menu_and_restore_witness :
  newTraceRunItem (Sample.host Sample.gitLog) "20240115_143022" = Some Sample.runItem
  /\ RunItem.contextValue Sample.runItem = "traceRunWithSnapshot"
  /\ In (ExecSync "git checkout 0123456789abcdef -- ." "/ws")
        (restoreRunCode (Sample.ui (Some "Restore") (inr "")) Sample.runItem).
Proof.
  assert (E : newTraceRunItem (Sample.host Sample.gitLog) "20240115_143022"
              = Some Sample.runItem) by (vm_compute; reflexivity).
  destruct (snapshot_menu_and_restore (Sample.host Sample.gitLog)
              (Sample.ui (Some "Restore") (inr "")) "20240115_143022" Sample.runItem E)
    as (_ & M & _).
  split; [exact E|].
  assert (I : In (ExecSync "git checkout 0123456789abcdef -- ." "/ws")
                 (restoreRunCode (Sample.ui (Some "Restore") (inr "")) Sample.runItem))
    by (vm_compute; auto).
  split; [|exact I]. apply M. eauto.
Defined.

(** Opening the trace of a call and the menu of its item agree: the item is
    offered the URL menu exactly when the record has a non-empty URL, and
    then the command opens that URL; every other item has the plain menu and
    the command only tells that there is no URL. The description ends with
    the URL mark exactly for the items with the URL menu. *)
Theorem open_trace_url_matches_menu (d : Display) (item : TraceCallItem) :
  (CallItem.contextValue item = "traceCallWithUrl"
   <-> exists url, wandb_url (trace item) = Some url /\ url <> ""
                   /\ openTraceUrl item = OpenExternal url)
  /\ (CallItem.contextValue item = "traceCall"
      <-> openTraceUrl item
          = InformationMessage "CDWeave: No W&B URL available for this trace.")
  /\ (CallItem.contextValue item = "traceCallWithUrl"
      \/ CallItem.contextValue item = "traceCall")
  /\ CallItem.description d item
     = toFixed3 d (duration_s (trace item)) +:+ "s"
       +:+ (if String.eqb (CallItem.contextValue item) "traceCallWithUrl"
            then urlMark else "").
Proof.
  unfold CallItem.contextValue, CallItem.description, openTraceUrl, traceUrl.
  destruct (truthyOpt (wandb_url (trace item))) eqn:T.
  - apply truthyOpt_Some in T as (url & E & N). rewrite E. cbn [default id].
    repeat split; try discriminate; eauto.
  - repeat split; try discriminate; eauto.
    intros (url & E & N & _). rewrite E in T. destruct url; [contradiction|discriminate].
Qed.

(** ** The tree of runs *)

Lemma newTraceRunItem_fields (h : Host) (run : string) (item : RunItem.TraceRunItem) :
  newTraceRunItem h run = Some item ->
  RunItem.runId item = run /\ RunItem.label item = parseRunLabel run
  /\ getRunGitState h run = Some (RunItem.gitState item).
Proof.
  unfold newTraceRunItem. destruct (getRunGitState h run); [|discriminate].
  intros [= <-]. auto.
Qed.

(** A sorted array with an element above all of it at its end. *)
Lemma StronglySorted_snoc {A : Type} (R : A -> A -> Prop) (l : list A) (x : A) :
  StronglySorted R l -> Forall (fun y => R y x) l -> StronglySorted R (l ++ [x])%list.
Proof.
  induction l as [|y l IH]; intros S F; [repeat constructor|].
  apply StronglySorted_inv in S as [S Hy]. cbn. constructor.
  - apply IH; [exact S|]. now apply Forall_inv_tail in F.
  - apply Forall_app. split; [exact Hy|]. constructor; [|constructor].
    now apply Forall_inv in F.
Qed.

(** [files] is in descending order, and holds the [.jsonl] names. *)
Lemma runFiles_sorted (names : list string) :
  StronglySorted (fun a b => String.leb b a = true) (TraceTreeProvider.runFiles names).
Proof.
  unfold TraceTreeProvider.runFiles.
  pose proof (arraySort_sorted String.leb String.leb_total string_leb_trans
                (List.filter (endsWith ".jsonl") names)) as S.
  induction S as [|a l S IH Ha]; [constructor|].
  cbn [rev]. apply StronglySorted_snoc; [exact IH|].
  apply Forall_forall. intros y I. rewrite Forall_forall in Ha. apply Ha.
  apply list_elem_of_In. apply list_elem_of_In in I. now apply in_rev.
Qed.

Lemma runFiles_Permutation (names : list string) :
  Permutation (TraceTreeProvider.runFiles names) (List.filter (endsWith ".jsonl") names).
Proof.
  unfold TraceTreeProvider.runFiles.
  rewrite <- Permutation_rev. symmetry. apply arraySort_Permutation.
Qed.

(** The roots of the tree. When the runs directory can be listed, the tree
    shows one run per [.jsonl] name of the directory, in descending order of
    the file names, each under the id that is the name without its extension
    and labelled by [parseRunLabel]; the store is not touched. The first run
    of the tree is the one a refresh makes active when no run is. *)
Theorem tree_root_lists_runs (h : Host) (st : TraceStore) (runsDir : string)
  (names : list string) :
  getRunsDir h = Some runsDir -> truthy runsDir = true ->
  readdirSync h runsDir = Some names ->
  (forall f, In f names -> endsWith ".jsonl" f = true ->
             getRunGitState h (dropSuffix ".jsonl" f) <> None) ->
  exists items files,
    TraceTreeProvider.getChildren h st None
    = Some (st, map TraceTreeProvider.RunElement items)
    /\ Permutation files (List.filter (endsWith ".jsonl") names)
    /\ StronglySorted (fun a b => String.leb b a = true) files
    /\ map RunItem.runId items = map (dropSuffix ".jsonl") files
    /\ map RunItem.label items = map (fun f => parseRunLabel (dropSuffix ".jsonl" f)) files
    /\ head (map RunItem.runId items) = TraceTreeProvider.latestRun h
    /\ activeRunId (TraceTreeProvider.refresh h (setActiveRunId None st))
       = head (map RunItem.runId items).
Proof.
  intros D T R G. unfold TraceTreeProvider.getChildren. rewrite D, T, R. cbn [negb].
  set (files := TraceTreeProvider.runFiles names).
  assert (M : is_Some (mapM (fun f => newTraceRunItem h (dropSuffix ".jsonl" f)) files)).
  { apply mapM_is_Some, Forall_forall. intros f I. apply list_elem_of_In in I.
    apply (Permutation_in _ (runFiles_Permutation names)), filter_In in I as [I E].
    cbn. unfold newTraceRunItem.
    destruct (getRunGitState h (dropSuffix ".jsonl" f)) eqn:S; [eauto|].
    now destruct (G f I E). }
  destruct M as [items M]. rewrite M. exists items, files.
  apply mapM_Some_1 in M.
  assert (Ids : map RunItem.runId items = map (dropSuffix ".jsonl") files).
  { induction M as [|f item files' items' F _ IH]; [reflexivity|].
    cbn. apply newTraceRunItem_fields in F as (-> & _). now rewrite IH. }
  split; [reflexivity|]. split; [apply runFiles_Permutation|].
  split; [apply runFiles_sorted|]. split; [exact Ids|]. split.
  - clear Ids. induction M as [|f item files' items' F _ IH]; [reflexivity|].
    cbn. apply newTraceRunItem_fields in F as (_ & -> & _). now rewrite IH.
  - assert (L : head (map RunItem.runId items) = TraceTreeProvider.latestRun h).
    { rewrite Ids. unfold TraceTreeProvider.latestRun. rewrite D, T, R.
      fold files. now destruct files. }
    split; [exact L|]. rewrite L.
    now destruct (refresh_active h (setActiveRunId None st)) as [-> _].
Qed.

(** The theorem on a directory of two runs and a text file. *)
Lemma tree_root_lists_runs_witness :
  exists items,
    TraceTreeProvider.getChildren (Sample.host Sample.gitLog) initialStore None
    = Some (initialStore, map TraceTreeProvider.RunElement items)
    /\ map RunItem.runId items = ["20240116_090000"; "20240115_143022"]
    /\ map RunItem.label items = ["2024-01-16 09:00:00"; "2024-01-15 14:30:22"].
Proof.
  destruct (tree_root_lists_runs (Sample.host Sample.gitLog) initialStore Sample.runsDir
              ["20240115_143022.jsonl"; "20240116_090000.jsonl"; "notes.txt"]
              eq_refl eq_refl eq_refl) as (items & files & E & _).
  - intros f [<-|[<-|[<-|[]]]] _; vm_compute; discriminate.
  - exists items. split; [exact E|].
    vm_compute in E. injection E as E. apply (f_equal (omap (fun e =>
      match e with
      | TraceTreeProvider.RunElement item => Some item
      | TraceTreeProvider.CallElement _ => None
      end))) in E.
    assert (K : forall l, omap (fun e => match e with
                                         | TraceTreeProvider.RunElement item => Some item
                                         | TraceTreeProvider.CallElement _ => None
                                         end) (map TraceTreeProvider.RunElement l) = l).
    { induction l as [|x l IH]; [reflexivity|]. cbn. now rewrite IH. }
    rewrite K in E. cbn in E. subst items. split; reflexivity.
Defined.

(** A run that is cached answers from the cache. *)
Lemma getChildren_cached (h : Host) (st : TraceStore) (item : RunItem.TraceRunItem) :
  is_Some (runTraces st !! RunItem.runId item) ->
  TraceTreeProvider.getChildren h st (Some (TraceTreeProvider.RunElement item))
  = Some (st, TraceTreeProvider.callItems st (RunItem.runId item)).
Proof.
  intros C. unfold TraceTreeProvider.getChildren. now rewrite bool_decide_true.
Qed.

(** A run that is not cached is loaded and cached. *)
Lemma getChildren_loads (h : Host) (st : TraceStore) (item : RunItem.TraceRunItem)
  (runsDir : string) :
  getRunsDir h = Some runsDir -> truthy runsDir = true ->
  linesInModel h (fileLines h (runFile h runsDir (RunItem.runId item))) = true ->
  runTraces st !! RunItem.runId item = None ->
  let traces := sortWith byTimestamp (fileRecords h (runFile h runsDir (RunItem.runId item))) in
  let st' := setRunTraces (<[RunItem.runId item := traces]> (runTraces st)) st in
  TraceTreeProvider.getChildren h st (Some (TraceTreeProvider.RunElement item))
  = Some (st', TraceTreeProvider.callItems st' (RunItem.runId item))
  /\ tracesOf st' (RunItem.runId item) = traces.
Proof.
  intros D T M C. cbv zeta. split.
  - unfold TraceTreeProvider.getChildren. rewrite C, D, T.
    rewrite bool_decide_false by (intros [? [=]]). cbn [negb].
    fold (runFile h runsDir (RunItem.runId item)).
    now rewrite (loadTracesFromFile_records h _ M).
  - unfold tracesOf. cbn. now rewrite lookup_insert_eq.
Qed.

(** Expanding a run. The children are the calls the cache holds for the
    run afterwards, none marked as selected. A run that was cached is not
    read again and the store stays as it is; a run that was not is loaded
    from its file, sorted, and cached. Nothing else of the store changes, and
    expanding the run once more gives the same children from the cache,
    whatever has become of the files. *)
Theorem run_children_are_cached (h : Host) (st : TraceStore) (item : RunItem.TraceRunItem)
  (runsDir : string) :
  getRunsDir h = Some runsDir -> truthy runsDir = true ->
  linesInModel h (fileLines h (runFile h runsDir (RunItem.runId item))) = true ->
  let run := RunItem.runId item in
  exists st' children,
    TraceTreeProvider.getChildren h st (Some (TraceTreeProvider.RunElement item))
    = Some (st', children)
    /\ children
       = map (fun t => TraceTreeProvider.CallElement
                         {| trace := t; runId := run; selected := false |})
           (tracesOf st' run)
    /\ (forall traces, runTraces st !! run = Some traces ->
          st' = st /\ tracesOf st' run = traces)
    /\ (runTraces st !! run = None ->
          runTraces st'
          = <[run := sortWith byTimestamp (fileRecords h (runFile h runsDir run))]> (runTraces st)
          /\ tracesOf st' run = sortWith byTimestamp (fileRecords h (runFile h runsDir run)))
    /\ activeRunId st' = activeRunId st /\ selectedCallId st' = selectedCallId st
    /\ focusedFn st' = focusedFn st /\ highlightActive st' = highlightActive st
    /\ (forall h', TraceTreeProvider.getChildren h' st'
                     (Some (TraceTreeProvider.RunElement item))
                   = Some (st', children)).
Proof.
  intros D T M run. subst run.
  destruct (runTraces st !! RunItem.runId item) as [traces|] eqn:C.
  - exists st, (TraceTreeProvider.callItems st (RunItem.runId item)).
    split; [apply getChildren_cached; now rewrite C|].
    split; [reflexivity|]. split.
    { intros ? [= <-]. split; [reflexivity|]. unfold tracesOf. now rewrite C. }
    split; [discriminate|]. repeat (split; [reflexivity|]).
    intros h'. apply getChildren_cached. now rewrite C.
  - destruct (getChildren_loads h st item runsDir D T M C) as [G L]. cbv zeta in G, L.
    eexists _, _. split; [exact G|]. split; [reflexivity|]. split; [discriminate|].
    split; [intros _; split; [reflexivity|exact L]|].
    repeat (split; [reflexivity|]).
    intros h'. apply getChildren_cached. cbn. rewrite lookup_insert_eq. eauto.
Qed.

(** The theorem on the first run of the sample log, expanded in a fresh
    store and then again when its file is gone. *)
Lemma run_children_are_cached_witness :
  exists st' children,
    TraceTreeProvider.getChildren (Sample.host Sample.gitLog) initialStore
      (Some (TraceTreeProvider.RunElement Sample.runItem)) = Some (st', children)
    /\ map call_id (tracesOf st' "20240115_143022") = ["b"; "a"]
    /\ TraceTreeProvider.getChildren (Sample.host []) st'
         (Some (TraceTreeProvider.RunElement Sample.runItem)) = Some (st', children).
Proof.
  destruct (run_children_are_cached (Sample.host Sample.gitLog) initialStore Sample.runItem
              Sample.runsDir eq_refl eq_refl)
    as (st' & children & E & _ & _ & L & _ & _ & _ & _ & C); [vm_compute; reflexivity|].
  exists st', children. split; [exact E|]. split; [|apply C].
  destruct (L eq_refl) as [_ L'].
  change (RunItem.runId Sample.runItem) with "20240115_143022" in L'.
  rewrite L'. vm_compute. reflexivity.
Defined.

(** The children of a run and their parent. Every child of a run item is a
    call item of that run, not marked as selected, whose record is in the
    cache of the run, and has no children itself. Its parent is a run item
    built anew for the run: the item it came from, when that was built on the
    platform as it is. A run item has no parent. *)
Theorem parent_of_child (h : Host) (st st' : TraceStore) (item : RunItem.TraceRunItem)
  (children : list TraceTreeProvider.Element) (child : TraceTreeProvider.Element) :
  TraceTreeProvider.getChildren h st (Some (TraceTreeProvider.RunElement item))
  = Some (st', children) ->
  In child children ->
  (exists call, child = TraceTreeProvider.CallElement call
                /\ runId call = RunItem.runId item /\ selected call = false
                /\ In (trace call) (tracesOf st' (RunItem.runId item))
                /\ TraceTreeProvider.getChildren h st' (Some child) = Some (st', []))
  /\ (forall run, newTraceRunItem h run = Some item ->
        TraceTreeProvider.getParent h child = Some (Some item))
  /\ TraceTreeProvider.getParent h (TraceTreeProvider.RunElement item) = Some None.
Proof.
  intros G I.
  assert (K : children = TraceTreeProvider.callItems st' (RunItem.runId item) \/ children = []).
  { unfold TraceTreeProvider.getChildren in G.
    destruct (bool_decide _); [injection G as <- <-; now left|].
    destruct (getRunsDir h) as [runsDir|]; [|injection G as <- <-; now right].
    destruct (negb (truthy runsDir)); [injection G as <- <-; now right|].
    destruct (loadTracesFromFile h _); [|discriminate G]. injection G as <- <-. now left. }
  destruct K as [->| ->]; [|destruct I].
  apply in_map_iff in I as (t & <- & I).
  split; [|split; [|reflexivity]].
  - eexists. repeat split. exact I.
  - intros run N. cbn [TraceTreeProvider.getParent runId].
    pose proof (newTraceRunItem_fields h run item N) as (<- & _). now rewrite N.
Qed.

(** The theorem on the children of the first run of the sample log. *)
Lemma parent_of_child_witness :
  exists st' children,
    TraceTreeProvider.getChildren (Sample.host Sample.gitLog) initialStore
      (Some (TraceTreeProvider.RunElement Sample.runItem)) = Some (st', children)
    /\ List.length children = 2%nat
    /\ Forall (fun child =>
                 TraceTreeProvider.getParent (Sample.host Sample.gitLog) child
                 = Some (Some Sample.runItem)) children.
Proof.
  destruct (TraceTreeProvider.getChildren (Sample.host Sample.gitLog) initialStore
              (Some (TraceTreeProvider.RunElement Sample.runItem)))
    as [[st' children]|] eqn:E; [|vm_compute in E; discriminate E].
  exists st', children. split; [reflexivity|]. split.
  - vm_compute in E. injection E as <- <-. reflexivity.
  - apply Forall_forall. intros child I. apply list_elem_of_In in I.
    refine (proj1 (proj2 (parent_of_child (Sample.host Sample.gitLog) initialStore st'
                            Sample.runItem children child E I)) "20240115_143022" _).
    vm_compute. reflexivity.
Defined.

(** ** Activation and what the handlers keep *)

(** Decorations of a run without cached records, and with highlighting
    off. *)
Lemma applyToEditor_empty_cache (st : TraceStore) (editor : TextEditor) :
  (forall run, activeRunId st = Some run -> tracesOf st run = []) ->
  DecorationManager.applyToEditor st editor
  = {| fsPath := fsPath editor; highlight := []; gutter := [] |}.
Proof.
  intros C. unfold DecorationManager.applyToEditor.
  destruct (activeRunId st) as [run|]; [|reflexivity].
  rewrite (C run eq_refl). destruct (negb (truthy run) || negb (highlightActive st)); [reflexivity|].
  cbn. destruct (truthyOpt (focusedFn st)); [reflexivity|].
  now destruct (truthyOpt (selectedCallId st)).
Qed.

Lemma applyToEditor_off (st : TraceStore) (editor : TextEditor) :
  highlightActive st = false ->
  DecorationManager.applyToEditor st editor
  = {| fsPath := fsPath editor; highlight := []; gutter := [] |}.
Proof.
  intros E. unfold DecorationManager.applyToEditor. rewrite E.
  destruct (activeRunId st); [|reflexivity]. now rewrite orb_true_r.
Qed.

(** So the loop clears every editor in both cases. *)
Lemma applyToAll_cleared (st : TraceStore) (editors : list TextEditor) :
  (forall e, DecorationManager.applyToEditor st e
             = {| fsPath := fsPath e; highlight := []; gutter := [] |}) ->
  Applied.applyToAllVisibleEditors st editors = (DecorationManager.clearAll editors, true).
Proof.
  intros C. rewrite applyToAll_as_planned.
  - unfold DecorationManager.applyToAllVisibleEditors, DecorationManager.clearAll.
    f_equal. apply map_ext. exact C.
  - apply Forall_forall. intros e _. apply applied_as_planned. rewrite C. constructor.
Qed.

(** What activation leaves. The latest run of the runs directory is active,
    if there is one, and nothing is cached, selected or focused. So the flat
    list is empty and no hover is shown, until a run is expanded, a call is
    selected or the file of the run changes; and the editors that are visible
    get empty decorations when a run is active and are not touched
    otherwise. *)
Theorem activate_shows_nothing (h : Host) (editors : list TextEditor) :
  let s := activate h editors in
  activeRunId (store s) = TraceTreeProvider.latestRun h
  /\ runTraces (store s) = ∅
  /\ selectedCallId (store s) = None /\ focusedFn (store s) = None
  /\ suppressCursorFilter (store s) = false /\ highlightActive (store s) = true
  /\ AllTracesProvider.getChildren (store s) = []
  /\ (forall h' filePath line,
        TraceHoverProvider.provideHover h' (store s) filePath line = None)
  /\ map fsPath (visibleTextEditors s) = map fsPath editors
  /\ (truthyOpt (TraceTreeProvider.latestRun h) = true ->
      Forall (fun e => highlight e = [] /\ gutter e = []) (visibleTextEditors s))
  /\ (truthyOpt (TraceTreeProvider.latestRun h) = false -> visibleTextEditors s = editors).
Proof.
  cbv zeta. unfold activate. cbn [store visibleTextEditors].
  destruct (refresh_active h initialStore) as (A & R & S & F & C & H).
  cbn [initialStore activeRunId runTraces selectedCallId focusedFn suppressCursorFilter
       highlightActive] in A, R, S, F, C, H.
  set (st := TraceTreeProvider.refresh h initialStore) in *.
  assert (T : forall run, tracesOf st run = []).
  { intros run. unfold tracesOf. now rewrite R, lookup_empty. }
  repeat (split; [assumption|]).
  split; [|split; [|split; [|split]]].
  - unfold AllTracesProvider.getChildren. destruct (activeRunId st) as [run|]; [|reflexivity].
    destruct (truthy run); [|reflexivity]. rewrite T.
    now destruct (truthyOpt (focusedFn st)).
  - intros h' filePath line. unfold TraceHoverProvider.provideHover.
    destruct (activeRunId st) as [run|]; [|reflexivity].
    destruct (truthy run); [|reflexivity]. now rewrite T.
  - destruct (truthyOpt (activeRunId st)); [|reflexivity]. apply applyToAll_fsPath.
  - intros L. rewrite A, L, applyToAll_cleared by (intros e; now apply applyToEditor_empty_cache).
    apply Forall_forall. intros e I. cbn [fst] in I.
    now apply list_elem_of_In, in_map_iff in I as (e' & <- & _).
  - intros L. now rewrite A, L.
Qed.

(** What the cursor handler and the editor handler keep of the store. *)
Lemma selection_keeps_store (index : nat) (cursorLine : Q) (s : Session) :
  let s' := onDidChangeTextEditorSelection index cursorLine s in
  runTraces (store s') = runTraces (store s)
  /\ activeRunId (store s') = activeRunId (store s)
  /\ selectedCallId (store s') = selectedCallId (store s)
  /\ highlightActive (store s') = highlightActive (store s).
Proof.
  cbv zeta. unfold onDidChangeTextEditorSelection.
  destruct (negb (truthyOpt (activeRunId (store s)))); [auto|].
  destruct (suppressCursorFilter (store s)); [cbn; auto|].
  destruct (activeRunId (store s)) as [run|] eqn:A; [|rewrite A; auto].
  destruct (visibleTextEditors s !! index) as [editor|]; [|rewrite A; auto].
  destruct (strictEqOpt _ _); [rewrite A; auto|]. cbn. auto.
Qed.

Lemma activeEditor_keeps_store (index : nat) (s : Session) :
  store (onDidChangeActiveTextEditor index s) = store s.
Proof.
  unfold onDidChangeActiveTextEditor. now destruct (truthyOpt (activeRunId (store s))).
Qed.







(** Editors without decorations stay so while highlighting is off. *)
Lemma clearAll_undecorated (editors : list TextEditor) :
  undecorated (DecorationManager.clearAll editors).
Proof. apply clearAll_empty. Qed.

Lemma applyToAll_off (st : TraceStore) (editors : list TextEditor) :
  highlightActive st = false ->
  undecorated (fst (Applied.applyToAllVisibleEditors st editors)).
Proof.
  intros E. rewrite applyToAll_cleared by (intros e; now apply applyToEditor_off).
  apply clearAll_undecorated.
Qed.

Lemma alter_apply_off (st : TraceStore) (index : nat) (editors : list TextEditor) :
  highlightActive st = false -> undecorated editors ->
  undecorated (alter (Applied.editorAfter st) index editors).
Proof.
  intros E U. revert index. induction U as [|e editors He U IH]; intros index; [constructor|].
  destruct index as [|index]; cbn.
  - constructor; [|exact U]. unfold Applied.editorAfter. now rewrite applied_off.
  - constructor; [exact He|apply IH].
Qed.

Lemma handle_highlight_off (h : Host) (e : Event) (s s' : Session) :
  handle h e s = Some s' -> (forall item, e <> SelectTrace item) ->
  highlightActive (store s) = false -> undecorated (visibleTextEditors s) ->
  highlightActive (store s') = false /\ undecorated (visibleTextEditors s').
Proof.
  intros H N O U. destruct e as [item| | |uri|uri|index|index cursorLine|item]; cbn [handle] in H.
  - now destruct (N item).
  - injection H as <-. split; [reflexivity|apply clearAll_undecorated].
  - injection H as <-. cbn. split; [|exact U].
    now destruct (refresh_active h (store s)) as (_ & _ & _ & _ & _ & ->).
  - unfold onDidChange in H. destruct (strictEq _ _ && truthyOpt (getRunsDir h)).
    + destruct (loadTracesFromFile h uri); [|discriminate H]. injection H as <-. cbn.
      split; [exact O|]. now apply applyToAll_off.
    + injection H as <-. cbn. auto.
  - injection H as <-. unfold onDidDelete. cbn [store visibleTextEditors].
    match goal with |- context [TraceTreeProvider.refresh h ?st] =>
      destruct (refresh_active h st) as (_ & _ & _ & _ & _ & ->) end.
    destruct (strictEq _ _); cbn; split; auto. apply clearAll_undecorated.
  - injection H as <-. rewrite activeEditor_keeps_store. split; [exact O|].
    unfold onDidChangeActiveTextEditor. destruct (truthyOpt _); [|exact U].
    now apply alter_apply_off.
  - injection H as <-.
    destruct (selection_keeps_store index cursorLine s) as (_ & _ & _ & K).
    cbv zeta in K. split; [now rewrite K|].
    unfold onDidChangeTextEditorSelection.
    destruct (negb (truthyOpt (activeRunId (store s)))); [exact U|].
    destruct (suppressCursorFilter (store s)); [exact U|].
    destruct (activeRunId (store s)) as [run|]; [|exact U].
    destruct (visibleTextEditors s !! index) as [editor|]; [|exact U].
    destruct (strictEqOpt _ _); [exact U|]. cbn. now apply alter_apply_off.
  - destruct (TraceTreeProvider.getChildren h (store s) _) as [[store' children]|] eqn:G;
      [|discriminate H].
    injection H as <-. cbn. split; [|exact U].
    unfold TraceTreeProvider.getChildren in G.
    destruct (bool_decide _); [now injection G as <- _|].
    destruct (getRunsDir h) as [runsDir|]; [|now injection G as <- _].
    destruct (negb (truthy runsDir)); [now injection G as <- _|].
    destruct (loadTracesFromFile h _); [|discriminate G]. now injection G as <- _.
Qed.

(** After the focus was cleared nothing but the selection of a call brings
    decorations back: through every sequence of other events, moves of the
    cursor, changes of the editor, of the run files, expansions of runs,
    highlighting stays off and every visible editor stays without
    decorations. *)
Theorem cleared_focus_stays_dark (events : list (Host * Event)) (s s' : Session) :
  Forall (fun step => forall item, snd step <> SelectTrace item) events ->
  handleAll events (clearFocus s) = Some s' ->
  highlightActive (store s') = false
  /\ Forall (fun e => highlight e = [] /\ gutter e = []) (visibleTextEditors s').
Proof.
  intros N H.
  assert (I : highlightActive (store (clearFocus s)) = false
              /\ undecorated (visibleTextEditors (clearFocus s))).
  { split; [reflexivity|apply clearAll_undecorated]. }
  revert H I. generalize (clearFocus s) as s0.
  induction N as [|[h e] events Ne _ IH]; intros s0 H I.
  - now injection H as <-.
  - cbn [handleAll] in H. destruct (handle h e s0) as [s1|] eqn:E; [|discriminate H].
    apply (IH s1 H). destruct I as [O U]. now apply (handle_highlight_off h e s0 s1).
Qed.

(** The theorem on the session with a selected call: after the focus is
    cleared, a move of the cursor into the call and a change of the run file
    leave the editor without decorations. *)
Lemma cleared_focus_stays_dark_witness :
  exists s',
    handleAll [(Sample.host Sample.orderingLog, SelectionChanged 0 9);
               (Sample.host Sample.orderingLog, FileChanged Sample.logPath);
               (Sample.host Sample.orderingLog, ActiveEditorChanged 0)]
      (clearFocus Sample.activeSession) = Some s'
    /\ focusedFn (store s') = Some "f"
    /\ Forall (fun e => highlight e = [] /\ gutter e = []) (visibleTextEditors s').
Proof.
  match goal with |- exists s, ?run = Some s /\ _ =>
    destruct run as [s'|] eqn:E; [|vm_compute in E; discriminate E] end.
  exists s'. split; [reflexivity|]. split.
  - vm_compute in E. injection E as <-. reflexivity.
  - refine (proj2 (cleared_focus_stays_dark _ Sample.activeSession s' _ E)).
    repeat constructor; discriminate.
Defined.

(** ** The gutter and the highlights *)

(** The gutter has one mark per function name. With a run active and
    highlighting on, whatever is focused or selected, the marks the method
    sets when it returns are those of records of the editor's file that have
    a start line, no two of the same function; every such record has the mark
    of the first record of its function, at that record's decorator line. The
    method throws, and leaves the gutter as it was, exactly when a highlight
    it is to build has a negative end line; it returns when every record of
    the run is orderly. *)
Theorem gutter_marks_first_calls (st : TraceStore) (editor : TextEditor) (run : string) :
  activeRunId st = Some run -> truthy run = true -> highlightActive st = true ->
  let fileTraces :=
    List.filter (fun t => strictEq (source_file t) (fsPath editor)
                          && notNull (source_line_start t)) (tracesOf st run) in
  exists firsts,
    NoDup (map function firsts)
    /\ (forall u, In u firsts -> In u fileTraces)
    /\ (forall t, In t fileTraces ->
          exists u, In u firsts
                    /\ List.find (fun x => String.eqb (function x) (function t)) fileTraces
                       = Some u)
    /\ (forall shown, Applied.applyToEditor st editor = Some shown ->
          gutter shown
          = map (fun t => {| startLine := Qmax 0 (toNumber (source_line_start t) - 2);
                             startCharacter := 0;
                             endLine := Qmax 0 (toNumber (source_line_start t) - 2);
                             endCharacter := 0 |}) firsts)
    /\ (Applied.applyToEditor st editor = None
        <-> exists r, In r (highlight (DecorationManager.applyToEditor st editor))
                      /\ (endLine r < 0)%Q)
    /\ (Applied.applyToEditor st editor = None ->
        gutter (Applied.editorAfter st editor) = gutter editor)
    /\ (forallb orderly (tracesOf st run) = true ->
        exists shown, Applied.applyToEditor st editor = Some shown).
Proof.
  intros A T H. cbv zeta.
  destruct (gutterLoop_firsts
              (List.filter (fun t => strictEq (source_file t) (fsPath editor)
                                     && notNull (source_line_start t)) (tracesOf st run))
              ∅ []) as (firsts & E & D & F & G).
  exists firsts. split; [exact D|]. split; [|split; [|split; [|split; [|split]]]].
  - intros u I. now destruct (F u I).
  - intros t I. apply (G t I). apply not_elem_of_empty.
  - intros shown S. unfold Applied.applyToEditor in S. rewrite gutter_constructed in S.
    destruct (mapM Vscode.newRange (highlight _)); [|discriminate S]. injection S as <-.
    cbn [gutter]. unfold DecorationManager.applyToEditor. rewrite A, T, H.
    cbn [negb orb gutter]. exact E.
  - apply applied_throws.
  - intros N. unfold Applied.editorAfter. now rewrite N.
  - intros O. eexists. apply applied_orderly. unfold orderlyStore. now rewrite A.
Qed.

(** The theorem on a run with two calls of [f] and one of [g]: two marks. *)
Lemma gutter_marks_first_calls_witness :
  exists shown firsts,
    Applied.applyToEditor Sample.threeCalls Sample.editor = Some shown
    /\ gutter shown
       = map (fun t => {| startLine := Qmax 0 (toNumber (source_line_start t) - 2);
                          startCharacter := 0;
                          endLine := Qmax 0 (toNumber (source_line_start t) - 2);
                          endCharacter := 0 |}) firsts
    /\ NoDup (map function firsts)
    /\ List.length (gutter shown) = 2%nat.
Proof.
  destruct (gutter_marks_first_calls Sample.threeCalls Sample.editor "20240115_143022"
              eq_refl eq_refl eq_refl) as (firsts & D & _ & _ & E & _ & _ & R).
  destruct (R eq_refl) as [shown S].
  exists shown, firsts. split; [exact S|]. split; [exact (E shown S)|]. split; [exact D|].
  vm_compute in S. injection S as <-. reflexivity.
Defined.

(** A record that starts at line 5 and has no end line: the method throws,
    and the editor keeps what it showed. *)
Example applyToEditor_open_ended :
  Applied.applyToEditor Sample.openEndedStore Sample.editor = None
  /\ Applied.editorAfter Sample.openEndedStore Sample.editor = Sample.editor.
Proof. split; reflexivity. Qed.

(** Every highlighted line has a hover: with the records of the active run
    orderly, on a line inside a highlight range the method has set on an
    editor, the hover provider finds a record of that file and line, and the
    hover it returns covers the line. *)
Theorem highlighted_lines_have_hover (h : Host) (st : TraceStore) (editor shown : TextEditor)
  (r : Range) (line : Q) :
  orderlyStore st = true ->
  Applied.applyToEditor st editor = Some shown ->
  In r (highlight shown) ->
  (startLine r <= line <= endLine r)%Q ->
  exists hover first,
    TraceHoverProvider.provideHover h st (fsPath editor) line = Some hover
    /\ matchesLine (fsPath editor) line first = true
    /\ TraceHoverProvider.range hover = DecorationManager.highlightRange first
    /\ (startLine (TraceHoverProvider.range hover) <= line
        <= endLine (TraceHoverProvider.range hover))%Q.
Proof.
  intros O S I [L1 L2]. rewrite (applied_orderly st editor O) in S. injection S as <-.
  destruct (highlight_sources st editor r I) as (run & t & A & T & _ & It & F & S & ->).
  cbn [DecorationManager.highlightRange startLine endLine] in L1, L2.
  assert (M : matchesLine (fsPath editor) line t = true).
  { unfold matchesLine. rewrite F, S. cbn [strictEq]. rewrite String.eqb_refl.
    destruct (source_line_end t) as [e|] eqn:E.
    - cbn [notNull andb]. apply andb_true_intro. now rewrite !Qle_bool_iff.
    - exfalso. cbn in L2. pose proof (Q.le_max_l 0 (toNumber (source_line_start t) - 2)). lra. }
  unfold TraceHoverProvider.provideHover. rewrite A, T.
  destruct (List.filter (matchesLine (fsPath editor) line) (tracesOf st run))
    as [|first rest] eqn:E.
  - assert (K : In t []) by (rewrite <- E; apply filter_In; auto). destruct K.
  - assert (K : In first (first :: rest)) by now left.
    rewrite <- E in K. apply filter_In in K as [_ K].
    eexists _, first. split; [reflexivity|]. split; [exact K|]. split; [reflexivity|].
    cbn [TraceHoverProvider.range startLine endLine].
    apply matchesLine_iff in K as (_ & s & e & -> & -> & B1 & B2). cbn. split; assumption.
Qed.

(** The theorem on the call of lines 20 to 25, at line 21. *)
Lemma highlighted_lines_have_hover_witness :
  exists hover,
    TraceHoverProvider.provideHover (Sample.host []) Sample.threeCalls Sample.sourcePath 21
    = Some hover
    /\ (startLine (TraceHoverProvider.range hover) <= 21
        <= endLine (TraceHoverProvider.range hover))%Q.
Proof.
  destruct (highlighted_lines_have_hover (Sample.host []) Sample.threeCalls Sample.editor
              (DecorationManager.applyToEditor Sample.threeCalls Sample.editor)
              {| startLine := Qmax 0 (20 - 2); startCharacter := 0;
                 endLine := 25 - 1; endCharacter := 0 |} 21)
    as (hover & first & E & _ & _ & B).
  - reflexivity.
  - reflexivity.
  - right. left. reflexivity.
  - split; vm_compute; discriminate.
  - exists hover. split; [exact E|exact B].
Defined.

(** A record whose end line is before its start line is highlighted without
    a hover. For the record of lines 10 to 3 the constructor swaps the two
    positions, so that the editor highlights lines 2 to 8, while the hover
    provider, which compares the bounds as they are, finds nothing on line
    5. *)
Example inverted_range_has_no_hover :
  Applied.applyToEditor Sample.invertedStore Sample.editor
  = Some {| fsPath := Sample.sourcePath;
            highlight := [{| startLine := 2; startCharacter := 0;
                             endLine := 8; endCharacter := 0 |}];
            gutter := [{| startLine := 8; startCharacter := 0;
                          endLine := 8; endCharacter := 0 |}] |}
  /\ TraceHoverProvider.provideHover (Sample.host []) Sample.invertedStore Sample.sourcePath 5
     = None.
Proof. split; reflexivity. Qed.

(** ** The watcher *)

(** A new run file does not take the place of the active run: with a run
    active the handler changes nothing at all. Only when no run is active
    does it make the latest run the active one, that of the greatest [.jsonl]
    name of the runs directory. It never touches the cache, the selection,
    the focus or the decorations. *)
Theorem create_keeps_active_run (h : Host) (s : Session) :
  let s' := onDidCreate h s in
  (forall run, activeRunId (store s) = Some run -> s' = s)
  /\ (activeRunId (store s) = None ->
      activeRunId (store s') = TraceTreeProvider.latestRun h
      /\ forall runsDir names latest,
           getRunsDir h = Some runsDir -> truthy runsDir = true ->
           readdirSync h runsDir = Some names ->
           activeRunId (store s') = Some latest ->
           exists first,
             latest = dropSuffix ".jsonl" first /\ In first names
             /\ endsWith ".jsonl" first = true
             /\ forall f, In f names -> endsWith ".jsonl" f = true -> String.leb f first = true)
  /\ runTraces (store s') = runTraces (store s)
  /\ selectedCallId (store s') = selectedCallId (store s)
  /\ focusedFn (store s') = focusedFn (store s)
  /\ highlightActive (store s') = highlightActive (store s)
  /\ visibleTextEditors s' = visibleTextEditors s.
Proof.
  cbv zeta. unfold onDidCreate. cbn [store visibleTextEditors].
  destruct (refresh_active h (store s)) as (A & R & S & F & _ & H).
  split; [|split; [|auto 10]].
  - intros run E. destruct s as [st editors]. cbn in *. f_equal.
    unfold TraceTreeProvider.refresh. rewrite E.
    destruct (getRunsDir h) as [runsDir|]; [|reflexivity].
    destruct (truthy runsDir); [|reflexivity].
    destruct (readdirSync h runsDir) as [names|]; [|reflexivity].
    now destruct (TraceTreeProvider.runFiles names).
  - intros E. rewrite E in A. split; [exact A|].
    intros runsDir names latest D T N L. rewrite A in L.
    unfold TraceTreeProvider.latestRun in L. rewrite D, T, N in L.
    pose proof (runFiles_head names) as K.
    destruct (List.head (TraceTreeProvider.runFiles names)) as [first|]; [|discriminate L].
    injection L as <-. exists first. destruct K as (K1 & K2 & K3). auto.
Qed.

(** A change of the file of a run that is not active only drops the run
    from the cache: nothing is read and no decoration is touched. The run is
    read again when it is next expanded in the tree, which then shows the
    records of the file as it is, sorted. *)
Theorem inactive_change_reloads_on_expand (h : Host) (uri : string) (s : Session)
  (item : RunItem.TraceRunItem) (runsDir : string) :
  path_basename h uri ".jsonl" = RunItem.runId item ->
  activeRunId (store s) <> Some (RunItem.runId item) ->
  getRunsDir h = Some runsDir -> truthy runsDir = true ->
  linesInModel h (fileLines h (runFile h runsDir (RunItem.runId item))) = true ->
  let run := RunItem.runId item in
  exists s',
    onDidChange h uri s = Some s'
    /\ runTraces (store s') = delete run (runTraces (store s))
    /\ visibleTextEditors s' = visibleTextEditors s
    /\ activeRunId (store s') = activeRunId (store s)
    /\ exists st'' children,
         TraceTreeProvider.getChildren h (store s')
           (Some (TraceTreeProvider.RunElement item)) = Some (st'', children)
         /\ tracesOf st'' run
            = sortWith byTimestamp (fileRecords h (runFile h runsDir run))
         /\ children
            = map (fun t => TraceTreeProvider.CallElement
                              {| trace := t; runId := run; selected := false |})
                (sortWith byTimestamp (fileRecords h (runFile h runsDir run))).
Proof.
  intros B A D T M run. subst run. unfold onDidChange. rewrite B.
  assert (Q : strictEq (activeRunId (TraceTreeProvider.invalidateRun (RunItem.runId item)
                                       (store s))) (RunItem.runId item) = false).
  { cbn. destruct (strictEq _ _) eqn:Q; [|reflexivity]. apply strictEq_Some in Q. contradiction. }
  rewrite Q. cbn [andb]. eexists. split; [reflexivity|]. cbn [store visibleTextEditors].
  split; [reflexivity|]. split; [reflexivity|]. split; [reflexivity|].
  destruct (getChildren_loads h (TraceTreeProvider.invalidateRun (RunItem.runId item) (store s))
              item runsDir D T M) as [G L]; [apply lookup_delete_eq|].
  eexists _, _. split; [exact G|]. split; [exact L|].
  unfold TraceTreeProvider.callItems. now rewrite L.
Qed.

(** The theorem on the later run of the sample log, changed while the
    earlier run is active. *)
Lemma inactive_change_reloads_on_expand_witness :
  exists s',
    onDidChange (Sample.host Sample.gitLog) "/ws/runs/20240116_090000.jsonl"
      Sample.activeSession = Some s'
    /\ visibleTextEditors s' = visibleTextEditors Sample.activeSession
    /\ exists st'' children,
         TraceTreeProvider.getChildren (Sample.host Sample.gitLog) (store s')
           (Some (TraceTreeProvider.RunElement
                    {| RunItem.runId := "20240116_090000";
                       RunItem.label := "2024-01-16 09:00:00";
                       RunItem.gitState := None; RunItem.description := None;
                       RunItem.contextValue := "traceRun" |}))
         = Some (st'', children)
         /\ map call_id (tracesOf st'' "20240116_090000") = ["z"].
Proof.
  destruct (inactive_change_reloads_on_expand (Sample.host Sample.gitLog)
              "/ws/runs/20240116_090000.jsonl" Sample.activeSession
              {| RunItem.runId := "20240116_090000";
                 RunItem.label := "2024-01-16 09:00:00";
                 RunItem.gitState := None; RunItem.description := None;
                 RunItem.contextValue := "traceRun" |} Sample.runsDir)
    as (s' & E & _ & V & _ & st'' & children & G & L & _);
    [reflexivity | discriminate | reflexivity | reflexivity | vm_compute; reflexivity |].
  exists s'. split; [exact E|]. split; [exact V|].
  exists st'', children. split; [exact G|]. cbv zeta in L. cbn [RunItem.runId] in L.
  rewrite L. vm_compute. reflexivity.
Defined.

(** An inactive run that is deleted leaves the active run alone. When the
    file of a run other than the active one disappears, the handler drops
    that run from the cache and changes nothing else: the active run, its
    cached records, the selection, the focus, the flat list and the
    decorations stay as they were. *)
Theorem delete_inactive_run (h : Host) (uri : string) (s : Session) (active : string) :
  activeRunId (store s) = Some active -> path_basename h uri ".jsonl" <> active ->
  let run := path_basename h uri ".jsonl" in
  let s' := onDidDelete h uri s in
  store s' = setRunTraces (delete run (runTraces (store s))) (store s)
  /\ activeRunId (store s') = Some active
  /\ selectedCallId (store s') = selectedCallId (store s)
  /\ focusedFn (store s') = focusedFn (store s)
  /\ runTraces (store s') !! run = None
  /\ runTraces (store s') !! active = runTraces (store s) !! active
  /\ visibleTextEditors s' = visibleTextEditors s
  /\ AllTracesProvider.getChildren (store s') = AllTracesProvider.getChildren (store s).
Proof.
  intros A N. cbv zeta. unfold onDidDelete.
  assert (Q : strictEq (activeRunId (setRunTraces (delete (path_basename h uri ".jsonl")
                                                    (runTraces (store s))) (store s)))
                (path_basename h uri ".jsonl") = false).
  { cbn. rewrite A. cbn. apply String.eqb_neq. congruence. }
  rewrite Q. cbn [fst snd store visibleTextEditors].
  assert (R : TraceTreeProvider.refresh h
                (setRunTraces (delete (path_basename h uri ".jsonl") (runTraces (store s)))
                   (store s))
              = setRunTraces (delete (path_basename h uri ".jsonl") (runTraces (store s)))
                  (store s)).
  { unfold TraceTreeProvider.refresh. cbn [activeRunId setRunTraces]. rewrite A.
    destruct (getRunsDir h) as [runsDir|]; [|reflexivity].
    destruct (truthy runsDir); [|reflexivity].
    destruct (readdirSync h runsDir) as [names|]; [|reflexivity].
    now destruct (TraceTreeProvider.runFiles names). }
  rewrite R. cbn [activeRunId selectedCallId focusedFn runTraces setRunTraces].
  split; [reflexivity|]. split; [exact A|]. split; [reflexivity|]. split; [reflexivity|].
  split; [apply lookup_delete_eq|].
  assert (L : delete (path_basename h uri ".jsonl") (runTraces (store s)) !! active
              = runTraces (store s) !! active) by (apply lookup_delete_ne; congruence).
  split; [exact L|]. split; [reflexivity|].
  unfold AllTracesProvider.getChildren, tracesOf.
  cbn [activeRunId selectedCallId focusedFn runTraces setRunTraces]. rewrite A, L. reflexivity.
Qed.

(** The theorem on the session with a selected call, when the file of a
    later run disappears. *)
Lemma delete_inactive_run_witness :
  let s' := onDidDelete (Sample.host Sample.gitLog) "/ws/runs/20240116_090000.jsonl"
              Sample.activeSession in
  activeRunId (store s') = Some "20240115_143022"
  /\ selectedCallId (store s') = Some "a"
  /\ visibleTextEditors s' = visibleTextEditors Sample.activeSession.
Proof.
  destruct (delete_inactive_run (Sample.host Sample.gitLog) "/ws/runs/20240116_090000.jsonl"
              Sample.activeSession "20240115_143022" eq_refl)
    as (_ & A & B & _ & _ & _ & C & _); [discriminate|].
  cbv zeta. split; [exact A|]. split; [exact B|exact C].
Defined.

(** ** The cursor *)

Lemma strictEqOpt_eq (a b : option string) : strictEqOpt a b = true <-> a = b.
Proof.
  destruct a as [x|], b as [y|]; cbn; try (split; (reflexivity || discriminate)).
  rewrite String.eqb_eq. split; [now intros ->|now intros [= ->]].
Qed.

(** The focus follows the cursor. On a cursor event that is not
    suppressed, with a run active, the focused function becomes that of the
    first cached record of the run that matches the file and the line of the
    cursor, and none when no record matches; nothing else of the store
    changes. When the focus was that already, nothing changes at all;
    otherwise the decoration method runs on the editor of the event, and on
    no other editor: the editor shows the projection of the new store when
    the records of the run are orderly, and keeps what it showed when the
    method throws. The same event once more changes nothing. *)
Theorem cursor_focus_follows_line (index : nat) (cursorLine : Q) (s : Session)
  (run : string) (editor : TextEditor) :
  activeRunId (store s) = Some run -> truthy run = true ->
  suppressCursorFilter (store s) = false ->
  visibleTextEditors s !! index = Some editor ->
  let hit := List.find (matchesLine (fsPath editor) cursorLine) (tracesOf (store s) run) in
  let s' := onDidChangeTextEditorSelection index cursorLine s in
  focusedFn (store s') = function <$> hit
  /\ store s' = setFocusedFn (function <$> hit) (store s)
  /\ (focusedFn (store s) = function <$> hit -> s' = s)
  /\ (focusedFn (store s) <> function <$> hit ->
      visibleTextEditors s'
      = alter (Applied.editorAfter (store s')) index (visibleTextEditors s)
      /\ (forallb orderly (tracesOf (store s) run) = true ->
          visibleTextEditors s'
          = alter (DecorationManager.applyToEditor (store s')) index (visibleTextEditors s))
      /\ (Applied.applyToEditor (store s') editor = None -> visibleTextEditors s' !! index = Some editor))
  /\ (forall other, other <> index ->
        visibleTextEditors s' !! other = visibleTextEditors s !! other)
  /\ onDidChangeTextEditorSelection index cursorLine s' = s'.
Proof.
  intros A T S E. cbv zeta.
  set (hit := List.find (matchesLine (fsPath editor) cursorLine) (tracesOf (store s) run)).
  assert (U : forall s0 editor0, activeRunId (store s0) = Some run ->
                suppressCursorFilter (store s0) = false ->
                visibleTextEditors s0 !! index = Some editor0 ->
                fsPath editor0 = fsPath editor ->
                tracesOf (store s0) run = tracesOf (store s) run ->
                onDidChangeTextEditorSelection index cursorLine s0
                = if strictEqOpt (function <$> hit) (focusedFn (store s0)) then s0
                  else {| store := TraceTreeProvider.setFunctionFilter (function <$> hit) (store s0);
                          visibleTextEditors :=
                            alter (Applied.editorAfter
                                     (TraceTreeProvider.setFunctionFilter (function <$> hit)
                                        (store s0))) index (visibleTextEditors s0) |}).
  { intros s0 editor0 A0 S0 E0 P0 T0. unfold onDidChangeTextEditorSelection.
    rewrite A0, S0, E0. cbn [truthyOpt]. rewrite T, T0, P0. reflexivity. }
  rewrite (U s editor A S E eq_refl eq_refl).
  destruct (strictEqOpt (function <$> hit) (focusedFn (store s))) eqn:Q.
  - apply strictEqOpt_eq in Q.
    split; [now symmetry|]. split.
    { destruct (store s); cbn in *. now rewrite Q. }
    split; [reflexivity|]. split; [congruence|]. split; [reflexivity|].
    rewrite (U s editor A S E eq_refl eq_refl). apply strictEqOpt_eq in Q. now rewrite Q.
  - assert (N : focusedFn (store s) <> function <$> hit).
    { intros K. symmetry in K. apply strictEqOpt_eq in K. congruence. }
    cbn [store visibleTextEditors]. split; [reflexivity|]. split; [reflexivity|].
    split; [contradiction|]. split; [|split].
    + intros _. split; [reflexivity|]. split.
      * intros O. apply list_alter_ext; [|reflexivity].
        intros x _. apply editorAfter_orderly. unfold orderlyStore. cbn. now rewrite A.
      * intros K. rewrite list_lookup_alter_eq, E. cbn. unfold Applied.editorAfter.
        now rewrite K.
    + intros other O. now apply list_lookup_alter_ne.
    + rewrite (U _ (Applied.editorAfter
                      (TraceTreeProvider.setFunctionFilter (function <$> hit) (store s)) editor));
        cbn [store visibleTextEditors]; try assumption; try reflexivity.
      * cbn. assert (R : strictEqOpt (function <$> hit) (function <$> hit) = true)
          by now apply strictEqOpt_eq.
        now rewrite R.
      * rewrite list_lookup_alter_eq, E. reflexivity.
      * apply editorAfter_fsPath.
Qed.

(** The theorem on the session with a cached call of lines 10 to 12, for a
    cursor on line 9 and then on line 30: the focus goes to [f], whose
    highlight the editor shows already, and then to nothing, which leaves the
    highlight of the selected call. *)
Lemma cursor_focus_follows_line_witness :
  focusedFn (store (onDidChangeTextEditorSelection 0 9 Sample.activeSession)) = Some "f"
  /\ visibleTextEditors (onDidChangeTextEditorSelection 0 9 Sample.activeSession)
     = visibleTextEditors Sample.activeSession
  /\ focusedFn (store (onDidChangeTextEditorSelection 0 30 Sample.activeSession)) = None.
Proof.
  destruct (cursor_focus_follows_line 0 9 Sample.activeSession "20240115_143022"
              {| fsPath := Sample.sourcePath;
                 highlight := [{| startLine := 8; startCharacter := 0;
                                  endLine := 11; endCharacter := 0 |}];
                 gutter := [{| startLine := 8; startCharacter := 0;
                               endLine := 8; endCharacter := 0 |}] |}
              eq_refl eq_refl eq_refl eq_refl) as (F & _ & _ & P & _).
  cbv zeta in F, P. destruct P as (_ & P & _); [discriminate|].
  split; [rewrite F; vm_compute; reflexivity|]. split.
  - rewrite (P eq_refl). vm_compute. reflexivity.
  - destruct (cursor_focus_follows_line 0 30 Sample.activeSession "20240115_143022"
                {| fsPath := Sample.sourcePath;
                   highlight := [{| startLine := 8; startCharacter := 0;
                                    endLine := 11; endCharacter := 0 |}];
                   gutter := [{| startLine := 8; startCharacter := 0;
                                 endLine := 8; endCharacter := 0 |}] |}
                eq_refl eq_refl eq_refl eq_refl) as [F' _].
    cbv zeta in F'. rewrite F'. vm_compute. reflexivity.
Defined.

(** ** Selecting a call whose source cannot be shown *)

(** The detail view throws exactly on inputs that are [null]. *)
Lemma showTraceThrows_iff (t : TraceRecord) :
  TraceDetailProvider.showTraceThrows t = true <-> inputs t = JNull.
Proof.
  unfold TraceDetailProvider.showTraceThrows.
  destruct (inputs t); cbn; split; (reflexivity || discriminate).
Qed.

Lemma showTrace_throws (d : Display) (t : TraceRecord) :
  TraceDetailProvider.showTrace d (Some t) = None
  <-> TraceDetailProvider.showTraceThrows t = true.
Proof.
  unfold TraceDetailProvider.showTrace, TraceDetailProvider.showTraceThrows.
  destruct (JsObject.entries (inputs t)); split; (reflexivity || discriminate).
Qed.

(** Selecting a call moves the selection and the focus to it and turns
    highlighting on in every case. The decorations follow only when the
    detail view takes the call and the source file of the call is opened:
    then the decoration loop runs over the editors that are visible
    afterwards, and with the records of the run orderly every one of them is
    decorated from the new store. When the inputs of the call are [null], so
    that the detail view throws, when the record names no source file, and
    when the file cannot be opened, the visible editors keep the decorations
    they had. *)
Theorem select_without_document_keeps_decorations (h : Host) (item : TraceCallItem)
  (s : Session) :
  runInModel h (runId item) = true ->
  exists s',
    selectTrace h item s = Some s'
    /\ selectedCallId (store s') = Some (call_id (trace item))
    /\ focusedFn (store s') = Some (function (trace item))
    /\ highlightActive (store s') = true
    /\ (inputs (trace item) = JNull -> visibleTextEditors s' = visibleTextEditors s)
    /\ (source_file (trace item) = None -> visibleTextEditors s' = visibleTextEditors s)
    /\ (forall file, inputs (trace item) <> JNull -> source_file (trace item) = Some file ->
        match showTextDocument h file (visibleTextEditors s) with
        | Some editors =>
            visibleTextEditors s' = fst (Applied.applyToAllVisibleEditors (store s') editors)
            /\ map fsPath (visibleTextEditors s') = map fsPath editors
            /\ (orderlyStore (store s') = true ->
                visibleTextEditors s'
                = DecorationManager.applyToAllVisibleEditors (store s') editors)
        | None => visibleTextEditors s' = visibleTextEditors s
        end).
Proof.
  intros M. destruct (selectTrace_in_model h item s M) as [s' E]. exists s'.
  destruct (selectTrace_store h item s s' E) as (_ & Hs & Hf & _ & Hh).
  split; [exact E|]. split; [exact Hs|]. split; [exact Hf|]. split; [exact Hh|].
  unfold selectTrace in E.
  destruct (match getRunsDir h with Some _ => _ | None => _ end) as [store2|];
    [|discriminate E].
  injection E as <-. cbn [store visibleTextEditors]. split; [|split].
  - intros N. apply showTraceThrows_iff in N. now rewrite N.
  - intros ->. now destruct (TraceDetailProvider.showTraceThrows (trace item)).
  - intros file N ->.
    destruct (TraceDetailProvider.showTraceThrows (trace item)) eqn:K;
      [now apply showTraceThrows_iff in K|].
    destruct (showTextDocument h file (visibleTextEditors s)) as [editors|]; [|reflexivity].
    split; [reflexivity|]. split; [apply applyToAll_fsPath|].
    intros O. now rewrite applyToAll_orderly.
Qed.

(** The theorem on a call without a source file, selected while the editor
    shows the decorations of another call. *)
Lemma select_without_document_keeps_decorations_witness :
  exists s',
    selectTrace (Sample.host Sample.orderingLog)
      {| trace := Sample.call "b" "g" None None None None;
         runId := "20240115_143022"; selected := false |} Sample.activeSession = Some s'
    /\ focusedFn (store s') = Some "g"
    /\ visibleTextEditors s' = visibleTextEditors Sample.activeSession.
Proof.
  destruct (select_without_document_keeps_decorations (Sample.host Sample.orderingLog)
              {| trace := Sample.call "b" "g" None None None None;
                 runId := "20240115_143022"; selected := false |} Sample.activeSession)
    as (s' & E & _ & F & _ & _ & K & _); [vm_compute; reflexivity|].
  exists s'. split; [exact E|]. split; [exact F|]. apply K. reflexivity.
Defined.

(** A call of lines 20 to 25 whose inputs are [null], selected while the
    editor shows the decorations of the call of lines 10 to 12: the store
    moves to the new call, the detail view throws, and the editor on the
    source file keeps the highlight of lines 10 to 12. *)
Example select_null_inputs :
  selectTrace (Sample.host Sample.orderingLog)
    {| trace := Sample.nullInputs; runId := "20240115_143022"; selected := false |}
    Sample.activeSession
  = Some {| store :=
              setSuppressCursorFilter true
                (setFocusedFn (Some "g")
                   (setSelectedCallId (Some "n") (store Sample.activeSession)));
            visibleTextEditors := visibleTextEditors Sample.activeSession |}
  /\ TraceDetailProvider.showTrace Sample.display (Some Sample.nullInputs) = None.
Proof. split; reflexivity. Qed.

(** The order of the own keys of an object, on an object with array indices
    among its keys and a key that is repeated. *)
Example entries_sample :
  JsObject.entries
    (JObj [("b", JNum 1); ("10", JNum 2); ("2", JNum 3); ("a", JNum 4); ("b", JNum 5);
           ("01", JNum 6)])
  = Some [("2", JNum 3); ("10", JNum 2); ("b", JNum 5); ("a", JNum 4); ("01", JNum 6)]
  /\ JsObject.entries (JArr [JNull; JBool true]) = Some [("0", JNull); ("1", JBool true)]
  /\ JsObject.entries (JStr "hi") = Some [("0", JStr "h"); ("1", JStr "i")]
  /\ JsObject.entries JNull = None.
Proof. repeat split; vm_compute; reflexivity. Qed.

(** The detail tree of a call with nested inputs. *)
Example showTrace_sample :
  TraceDetailProvider.showTrace Sample.display
    (Some (Sample.call "a" "f" None None None (Some 2%Q)))
  = Some [newDetailItem "duration" (Some "0.000s") CollapsibleNone [];
          newDetailItem "called at" (Some "00:00:00") CollapsibleNone [];
          newDetailItem "inputs" (Some "(none)") CollapsibleNone [];
          newDetailItem "output" (Some "null") CollapsibleNone []]
  /\ TraceDetailProvider.entryNode Sample.display "x"
       (JObj [("b", JArr [JNum 1; JArr []]); ("0", JStr "s")])
     = newDetailItem "x" None Collapsed
         [newDetailItem "0" (Some (Json.quoted "s")) CollapsibleNone [];
          newDetailItem "b" None Collapsed
            [newDetailItem "0" (Some "1") CollapsibleNone [];
             newDetailItem "1" (Some "[]") CollapsibleNone []]].
Proof. split; vm_compute; reflexivity. Qed.

(** ** The model at work *)

Example parse_sample :
  Json.parse
    (Json.text "{'call_id':'a', 'timestamp_start': 12.50, 'inputs': {'x': [1, true, null, 'y\n']}}")
  = Some (JObj [("call_id", JStr "a"); ("timestamp_start", JNum (25 # 2));
                ("inputs",
                 JObj [("x", JArr [JNum 1; JBool true; JNull;
                                   JStr (String "y" (String LF ""))])])]).
Proof. vm_compute. reflexivity. Qed.

Example parse_rejects :
  Json.parse "not json" = None
  /\ Json.parse (Json.text "{'call_id':'b','function':'g','timestamp_start':2") = None
  /\ Json.parse "null" = Some JNull.
Proof. repeat split; vm_compute; reflexivity. Qed.

Example stringify_sample :
  Json.stringify (JObj [("x", JArr [JNum 1; JNum (-5 # 4)]); ("y", JStr "a")])
  = Json.text "{
  'x': [
    1,
    -1.25
  ],
  'y': 'a'
}".
Proof. vm_compute. reflexivity. Qed.

Example parseRunLabel_sample :
  parseRunLabel "20240115_143022" = "2024-01-15 14:30:22".
Proof. reflexivity. Qed.
